(** * crush-npm: the launcher, the package builder and the setup wizard

    A shallow embedding of the three programs of the repository:
    - the two launcher scripts ([bin/crush.js], in its [@anthropic-ai] and
      [@offlinecli] versions),
    - the package builder ([scripts/build.sh]),
    - the quick mode of the setup wizard ([bin/setup.js]).

    File systems are finite maps from paths to nodes; a path is the list of
    its segments.  Library and tool calls that can fail return [option]
    ([None] is a thrown exception or a non-zero exit status). *)

From stdpp Require Import base option list strings gmap fin_maps pretty sorting.
From Stdlib Require Import ZArith Lia.

#[local] Set Warnings "-clear-no-such-hyp".

Local Open Scope string_scope.
Local Open Scope list_scope.

(** A path is the list of its segments, outermost first. *)
Abbreviation path := (list string).

(** * The launcher *)

Module Launcher.

(** What the launcher reads from its process: [process.platform],
    [process.arch], [__dirname], and [require.resolve] as a partial function
    (it throws when the package is not found). *)
Record env := Env {
  platform : string;
  arch : string;
  dirname : path;
  resolve : string -> option path
}.

(** [path.join]: the segments are appended one by one, [..] removes the last
    segment of what has been joined so far. *)
Definition join_seg (acc : path) (seg : string) : path :=
  if decide (seg = "..") then removelast acc else acc ++ [seg].

Definition path_join (base : path) (segs : list string) : path :=
  fold_left join_seg segs base.

(** [path.dirname] *)
Definition path_dirname (p : path) : path := removelast p.

(** [s.replace(pat, e)] with [e] the empty string: the first occurrence of
    [pat] is removed. *)
Fixpoint remove_first (pat s : string) : string :=
  if String.prefix pat s
  then String.substring (String.length pat) (String.length s - String.length pat) s
  else match s with
       | EmptyString => EmptyString
       | String c s' => String c (remove_first pat s')
       end.

(** The file system as the launcher sees it: each existing file with its
    executable bit.  Whether [renameSync] and [chmodSync] are refused on a path
    (read-only file system, missing permission) is given by two oracles. *)
Record perms := Perms {
  rename_refused : path -> bool;
  chmod_refused : path -> bool
}.

Definition existsSync (fs : gmap path bool) (p : path) : bool :=
  bool_decide (is_Some (fs !! p)).

(** [fs.renameSync(src, dst)]: throws when [src] is missing or the rename is
    refused; otherwise [dst] takes the file of [src]. *)
Definition renameSync (pm : perms) (src dst : path) (fs : gmap path bool)
  : option (gmap path bool) :=
  match fs !! src with
  | None => None
  | Some x => if rename_refused pm src then None
              else Some (<[dst := x]> (delete src fs))
  end.

(** [fs.chmodSync(p, 0o755)] *)
Definition chmodSync (pm : perms) (p : path) (fs : gmap path bool)
  : option (gmap path bool) :=
  match fs !! p with
  | None => None
  | Some _ => if chmod_refused pm p then None else Some (<[p := true]> fs)
  end.

Definition is_win32 (e : env) : bool := bool_decide (platform e = "win32").

(** ** The [@anthropic-ai] launcher *)

Module Corp.

Definition PACKAGE_SCOPE : string := "@anthropic-ai/crush-corp".

Definition getPlatformPackage (e : env) : string :=
  PACKAGE_SCOPE +:+ "-" +:+ platform e +:+ "-" +:+ arch e.

Definition binaryName (e : env) : string :=
  if is_win32 e then "crush.exe" else "crush".

Definition nested_location (e : env) : path :=
  path_join (dirname e)
    [".."; ".."; remove_first "@anthropic-ai/" (getPlatformPackage e); "bin"; binaryName e].

Definition scoped_location (e : env) : path :=
  path_join (dirname e)
    [".."; ".."; "@anthropic-ai"; "crush-corp-" +:+ platform e +:+ "-" +:+ arch e;
     "bin"; binaryName e].

Definition hoisted_location (e : env) : path :=
  path_join (dirname e)
    [".."; ".."; ".."; "@anthropic-ai"; "crush-corp-" +:+ platform e +:+ "-" +:+ arch e;
     "bin"; binaryName e].

Definition resolved_location (e : env) : option path :=
  match resolve e (getPlatformPackage e +:+ "/package.json") with
  | Some pkgPath => Some (path_join (path_dirname pkgPath) ["bin"; binaryName e])
  | None => None
  end.

(** The array before and after [.filter(Boolean)]. *)
Definition raw_locations (e : env) : list (option path) :=
  [Some (nested_location e); Some (scoped_location e);
   Some (hoisted_location e); resolved_location e].

Definition locations (e : env) : list path :=
  omap id (raw_locations e).

Fixpoint first_existing (fs : gmap path bool) (locs : list path) : option path :=
  match locs with
  | [] => None
  | loc :: rest => if existsSync fs loc then Some loc else first_existing fs rest
  end.

Definition findBinary (e : env) (fs : gmap path bool) : option path :=
  first_existing fs (locations e).

End Corp.

(** ** The [@offlinecli] launcher *)

Module Offline.

Definition PACKAGE_SCOPE : string := "@offlinecli/crush".

Definition getPlatformPackage (e : env) : string :=
  PACKAGE_SCOPE +:+ "-" +:+ platform e +:+ "-" +:+ arch e.

Definition getBinaryName (e : env) : string :=
  if is_win32 e then "crush.exe" else "crush".

Definition disguisedName : string := "crush.bin".

Definition scoped_dir (e : env) : path :=
  path_join (dirname e)
    [".."; ".."; "@offlinecli"; "crush-" +:+ platform e +:+ "-" +:+ arch e; "bin"].

Definition hoisted_dir (e : env) : path :=
  path_join (dirname e)
    [".."; ".."; ".."; "@offlinecli"; "crush-" +:+ platform e +:+ "-" +:+ arch e; "bin"].

Definition resolved_dir (e : env) : option path :=
  match resolve e (getPlatformPackage e +:+ "/package.json") with
  | Some pkgPath => Some (path_join (path_dirname pkgPath) ["bin"])
  | None => None
  end.

Definition raw_baseDirs (e : env) : list (option path) :=
  [Some (scoped_dir e); Some (hoisted_dir e); resolved_dir e].

Definition baseDirs (e : env) : list path :=
  omap id (raw_baseDirs e).

Definition finalPath (e : env) (binDir : path) : path :=
  path_join binDir [getBinaryName e].

Definition disguisedPath (binDir : path) : path :=
  path_join binDir [disguisedName].

(** The [catch] block of the rename: off Windows the disguised file is made
    executable and returned; a failure of that [chmodSync], and Windows, fall
    through to the next directory. *)
Definition rename_catch (e : env) (pm : perms) (binDir : path) (fs : gmap path bool)
  : option path * gmap path bool :=
  if is_win32 e then (None, fs)
  else match chmodSync pm (disguisedPath binDir) fs with
       | Some fs' => (Some (disguisedPath binDir), fs')
       | None => (None, fs)
       end.

(** One round of the loop over [baseDirs]: [Some p] is [return p], [None]
    goes on to the next directory. *)
Definition probe (e : env) (pm : perms) (binDir : path) (fs : gmap path bool)
  : option path * gmap path bool :=
  if existsSync fs (finalPath e binDir) then (Some (finalPath e binDir), fs)
  else if existsSync fs (disguisedPath binDir) then
    match renameSync pm (disguisedPath binDir) (finalPath e binDir) fs with
    | Some fs1 =>
        if is_win32 e then (Some (finalPath e binDir), fs1)
        else match chmodSync pm (finalPath e binDir) fs1 with
             | Some fs2 => (Some (finalPath e binDir), fs2)
             | None => rename_catch e pm binDir fs1
             end
    | None => rename_catch e pm binDir fs
    end
  else (None, fs).

Fixpoint probe_all (e : env) (pm : perms) (dirs : list path) (fs : gmap path bool)
  : option path * gmap path bool :=
  match dirs with
  | [] => (None, fs)
  | binDir :: rest =>
      match probe e pm binDir fs with
      | (Some p, fs') => (Some p, fs')
      | (None, fs') => probe_all e pm rest fs'
      end
  end.

Definition findBinary (e : env) (pm : perms) (fs : gmap path bool)
  : option path * gmap path bool :=
  probe_all e pm (baseDirs e) fs.

End Offline.

(** ** The child's lifecycle ([main], the same in both launchers) *)

Module Lifecycle.

(** What the launcher does to the outside. *)
Inductive action :=
| Print (message : string)        (* console.error *)
| Exit (code : Z)                 (* process.exit(code) *)
| KillSelf (signal : string)      (* process.kill(process.pid, signal) *)
| KillChild (signal : string).    (* the signal reaches the child *)

(** What happens to the launcher. *)
Inductive event :=
| ChildError (message : string)                   (* 'error' of the child *)
| ChildExit (code : option Z) (signal : option string)  (* 'exit' of the child *)
| Received (signal : string).                     (* a signal delivered to the launcher *)

(** The [ChildProcess] object: whether the child still runs, and its
    [killed] property. *)
Record child := Child { running : bool; killed : bool }.

(** How the launcher has ended: with an exit status, or by a signal. *)
Inductive ending :=
| Status (code : Z)
| Signalled (signal : string).

(** The launcher: its child, and how the launcher has ended, if it has. *)
Record launcher := Launcher' { the_child : child; ended : option ending }.

Definition alive (l : launcher) : bool :=
  match ended l with
  | None => true
  | Some _ => false
  end.

(** After [spawn]. *)
Definition spawned : launcher := Launcher' (Child true false) None.

(** [child.kill(signal)] of Node: the signal is sent if the child still runs,
    and a signal that was sent sets [killed]. *)
Definition child_kill (signal : string) (c : child) : list action * child :=
  if running c then ([KillChild signal], Child (running c) true) else ([], c).

(** The signals that get a handler. *)
Definition forwarded : list string := ["SIGINT"; "SIGTERM"; "SIGHUP"].

(** [if (signal)]: [null] and the empty string are falsy. *)
Definition truthy (s : option string) : bool :=
  match s with
  | Some s => negb (String.eqb s EmptyString)
  | None => false
  end.

Definition on_error (message : string) : list action :=
  [Print ("Failed to execute Crush: " +:+ message); Exit 1].

Definition on_signal (signal : string) (c : child) : list action * child :=
  if killed c then ([], c) else child_kill signal c.

(** The signals that do not end a Node process without a handler for them:
    Node takes [SIGUSR1] for its inspector and ignores [SIGPIPE]; the system
    ignores [SIGCHLD], [SIGURG] and [SIGWINCH]; the stop signals and
    [SIGCONT] stop and resume the process. *)
Definition spared : list string :=
  ["SIGUSR1"; "SIGPIPE"; "SIGCHLD"; "SIGURG"; "SIGWINCH";
   "SIGSTOP"; "SIGTSTP"; "SIGTTIN"; "SIGTTOU"; "SIGCONT"].

(** A signal that reaches the launcher, from outside or from itself.  One of
    the three with a handler runs the handler, and the launcher goes on, as
    it does after a signal that is spared; any other signal ends the
    launcher. *)
Definition deliver (signal : string) (c : child)
  : list action * child * option ending :=
  if bool_decide (signal ∈ forwarded)
  then let '(acts, c') := on_signal signal c in (acts, c', None)
  else if bool_decide (signal ∈ spared) then ([], c, None)
  else ([], c, Some (Signalled signal)).

(** The handler of ['exit'], and how the launcher ends after it.
    [process.exit(code ?? 1)] ends it with that status.
    [process.kill(process.pid, signal)] sends the signal to the launcher
    itself, where it is delivered like any other: when it is one of the
    three with a handler, the handler runs, the launcher is not ended by the
    signal - no more than by one that is spared - and with the child gone
    nothing keeps the process, which ends with status 0. *)
Definition on_exit (code : option Z) (signal : option string) (c : child)
  : list action * child * ending :=
  match signal with
  | Some s =>
      if truthy signal then
        let '(acts, c', e) := deliver s c in
        (KillSelf s :: acts, c', default (Status 0) e)
      else ([Exit (default 1%Z code)], c, Status (default 1%Z code))
  | None => ([Exit (default 1%Z code)], c, Status (default 1%Z code))
  end.

(** One event; nothing happens to a launcher that has ended. *)
Definition step (l : launcher) (ev : event) : list action * launcher :=
  match ended l with
  | Some _ => ([], l)
  | None =>
      match ev with
      | ChildError message =>
          (on_error message, Launcher' (the_child l) (Some (Status 1)))
      | ChildExit code signal =>
          let '(acts, c, e) :=
            on_exit code signal (Child false (killed (the_child l))) in
          (acts, Launcher' c (Some e))
      | Received signal =>
          let '(acts, c, e) := deliver signal (the_child l) in
          (acts, Launcher' c e)
      end
  end.

Fixpoint run (l : launcher) (evs : list event) : list action * launcher :=
  match evs with
  | [] => ([], l)
  | ev :: rest =>
      let '(acts, l') := step l ev in
      let '(acts', l'') := run l' rest in
      (acts ++ acts', l'')
  end.

End Lifecycle.

End Launcher.

(** * JSON values and [JSON.stringify(value, null, 2)] *)

Module Json.

(** Numbers are the integers: neither the manifests nor the configuration
    hold others. An object is the list of its own properties in enumeration
    order. *)
#[local] Unset Elimination Schemes.
Inductive value :=
| Null
| Bool (b : bool)
| Num (n : Z)
| Str (s : string)
| Arr (items : list value)
| Obj (props : list (string * value)).
#[local] Set Elimination Schemes.

Definition nl : string := String (Ascii.ascii_of_nat 10) EmptyString.

Definition hex_digit (n : nat) : string :=
  String.substring n 1 "0123456789abcdef".

Definition dquote : string := String (Ascii.ascii_of_nat 34) EmptyString.
Definition backslash : string := String (Ascii.ascii_of_nat 92) EmptyString.

(** One character inside a JSON string. *)
Definition escape_char (c : Ascii.ascii) : string :=
  let n := Ascii.nat_of_ascii c in
  if decide (n = 34) then backslash +:+ dquote else
  if decide (n = 92) then backslash +:+ backslash else
  if decide (n = 8) then backslash +:+ "b" else
  if decide (n = 9) then backslash +:+ "t" else
  if decide (n = 10) then backslash +:+ "n" else
  if decide (n = 12) then backslash +:+ "f" else
  if decide (n = 13) then backslash +:+ "r" else
  if decide (n < 32)
  then backslash +:+ "u00" +:+ hex_digit (n / 16) +:+ hex_digit (n mod 16)
  else String c EmptyString.

Fixpoint escape (s : string) : string :=
  match s with
  | EmptyString => EmptyString
  | String c s' => escape_char c +:+ escape s'
  end.

Definition quote (s : string) : string := dquote +:+ escape s +:+ dquote.

Fixpoint join (sep : string) (l : list string) : string :=
  match l with
  | [] => EmptyString
  | [x] => x
  | x :: rest => x +:+ sep +:+ join sep rest
  end.

(** [ind] is the indentation of the line the value starts on. *)
Fixpoint stringify_at (ind : string) (v : value) : string :=
  match v with
  | Null => "null"
  | Bool true => "true"
  | Bool false => "false"
  | Num n => pretty n
  | Str s => quote s
  | Arr [] => "[]"
  | Arr items =>
      "[" +:+ nl +:+ ind +:+ "  "
      +:+ join ("," +:+ nl +:+ ind +:+ "  ")
            (map (stringify_at (ind +:+ "  ")) items)
      +:+ nl +:+ ind +:+ "]"
  | Obj [] => "{}"
  | Obj props =>
      "{" +:+ nl +:+ ind +:+ "  "
      +:+ join ("," +:+ nl +:+ ind +:+ "  ")
            (map (fun kv => quote (fst kv) +:+ ": " +:+ stringify_at (ind +:+ "  ") (snd kv))
                 props)
      +:+ nl +:+ ind +:+ "}"
  end.

Definition stringify (v : value) : string := stringify_at EmptyString v.

(** [obj[key]] on own properties. *)
Fixpoint get (key : string) (props : list (string * value)) : option value :=
  match props with
  | [] => None
  | (k, v) :: rest => if decide (k = key) then Some v else get key rest
  end.

(** [obj[key] = v]: an own property keeps its place, a new one goes last. *)
Fixpoint set (key : string) (v : value) (props : list (string * value))
  : list (string * value) :=
  match props with
  | [] => [(key, v)]
  | (k, v') :: rest =>
      if decide (k = key) then (k, v) :: rest else (k, v') :: set key v rest
  end.

End Json.

(** * The setup wizard, quick mode *)

Module Setup.

(** A JavaScript string value that may be [undefined]; [a || b] takes [b]
    when [a] is [undefined] or empty. *)
Definition js_or (a : option string) (b : string) : string :=
  match a with
  | Some s => if String.eqb s EmptyString then b else s
  | None => b
  end.

Definition truthy (a : option string) : bool :=
  match a with
  | Some s => negb (String.eqb s EmptyString)
  | None => false
  end.

(** The [answers] object [quickSetup] passes to a template: [contextWindow]
    and [maxTokens] are never set there, [parseInt(undefined)] is [NaN], and
    the templates fall back to 128000 and 4096. *)
Record answers := Answers {
  endpoint : option string;
  deployment : option string;
  modelName : option string
}.

Definition OFFLINE_CONFIG : list (string * Json.value) :=
  [("$schema", Json.Str "https://charm.land/crush.json");
   ("options", Json.Obj
      [("disable_provider_auto_update", Json.Bool true);
       ("disable_metrics", Json.Bool true);
       ("disable_default_providers", Json.Bool true);
       ("auto_lsp", Json.Bool true)])].

Definition model (a : answers) (id name : string) (attachments : bool) : Json.value :=
  Json.Obj
    [("id", Json.Str (js_or (deployment a) id));
     ("name", Json.Str (js_or (modelName a) name));
     ("context_window", Json.Num 128000);
     ("default_max_tokens", Json.Num 4096);
     ("cost_per_1m_in", Json.Num 0);
     ("cost_per_1m_out", Json.Num 0);
     ("cost_per_1m_in_cached", Json.Num 0);
     ("cost_per_1m_out_cached", Json.Num 0);
     ("can_reason", Json.Bool false);
     ("supports_attachments", Json.Bool attachments);
     ("options", Json.Obj [])].

(** [base_url: answers.endpoint]: an [undefined] property is left out by
    [JSON.stringify]. *)
Definition base_url (a : answers) : list (string * Json.value) :=
  match endpoint a with
  | Some s => [("base_url", Json.Str s)]
  | None => []
  end.

Record template := Template {
  name : string;
  envVars : list string;
  config : answers -> Json.value
}.

Definition azure_openai : template :=
  Template "Azure OpenAI"
    ["AZURE_OPENAI_API_ENDPOINT"; "AZURE_OPENAI_API_KEY"; "AZURE_OPENAI_API_VERSION"]
    (fun a => Json.Obj
       ([("type", Json.Str "azure")] ++ base_url a ++
        [("api_key", Json.Str "$AZURE_OPENAI_API_KEY");
         ("models", Json.Arr [model a "gpt-4" "GPT-4 (Azure)" true])])).

Definition azure_foundry : template :=
  Template "Azure AI Foundry"
    ["AZURE_AI_FOUNDRY_ENDPOINT"; "AZURE_AI_FOUNDRY_API_KEY"]
    (fun a => Json.Obj
       ([("type", Json.Str "openai-compat")] ++ base_url a ++
        [("api_key", Json.Str "$AZURE_AI_FOUNDRY_API_KEY");
         ("models", Json.Arr [model a "gpt-4" "GPT-4 (Azure AI Foundry)" true])])).

Definition openai_compat : template :=
  Template "OpenAI-Compatible API"
    ["CUSTOM_LLM_API_KEY"]
    (fun a => Json.Obj
       ([("type", Json.Str "openai-compat")] ++ base_url a ++
        [("api_key", Json.Str "$CUSTOM_LLM_API_KEY");
         ("models", Json.Arr [model a "default" "Custom Model" true])])).

Definition ollama : template :=
  Template "Ollama (Local)"
    []
    (fun a => Json.Obj
       [("name", Json.Str "Ollama");
        ("type", Json.Str "openai-compat");
        ("base_url", Json.Str (js_or (endpoint a) "http://localhost:11434/v1/"));
        ("models", Json.Arr [model a "llama3:70b" "Llama 3 70B" false])]).

(** The own properties of [PROVIDER_TEMPLATES]. *)
Definition PROVIDER_TEMPLATES : list (string * template) :=
  [("azure-openai", azure_openai);
   ("azure-foundry", azure_foundry);
   ("openai-compat", openai_compat);
   ("ollama", ollama)].

(** The properties every object literal inherits from [Object.prototype]. *)
Definition object_prototype : list string :=
  ["constructor"; "__defineGetter__"; "__defineSetter__"; "hasOwnProperty";
   "__lookupGetter__"; "__lookupSetter__"; "isPrototypeOf";
   "propertyIsEnumerable"; "toString"; "valueOf"; "__proto__";
   "toLocaleString"].

(** [PROVIDER_TEMPLATES[key]]: a template, a value inherited from
    [Object.prototype] (truthy, and without a [config] property), or
    [undefined]. *)
Inductive property :=
| Own (t : template)
| Inherited
| Undefined.

Fixpoint own_property (key : string) (tbl : list (string * template)) : option template :=
  match tbl with
  | [] => None
  | (k, t) :: rest => if decide (k = key) then Some t else own_property key rest
  end.

Definition get_template (key : string) : property :=
  match own_property key PROVIDER_TEMPLATES with
  | Some t => Own t
  | None => if bool_decide (key ∈ object_prototype) then Inherited else Undefined
  end.

(** The configuration directory and file; the name of the file,
    [CONFIG_FILE], is only printed. *)
Record fsys := Fsys {
  config_dir : bool;             (* CONFIG_DIR exists *)
  config_file : option string    (* the content of CONFIG_FILE *)
}.

(** How [quickSetup] ends. *)
Inductive completion :=
| Exited (code : Z)        (* process.exit(code) *)
| Threw (error : string)   (* the promise is rejected *)
| Returned.

Record outcome := Outcome {
  how : completion;
  files : fsys;
  console : list string
}.

Definition usage : list string :=
  ["Usage: crush-setup quick <provider-type> <endpoint> [deployment]";
   EmptyString;
   "Provider types: azure-openai, azure-foundry, openai-compat, ollama";
   EmptyString;
   "Example:";
   "  crush-setup quick azure-foundry https://my-resource.openai.azure.com/ gpt-4"].

Definition quickSetup (CONFIG_FILE : string) (args : list string) (fs : fsys) : outcome :=
  let providerType := js_or (args !! 0%nat) "azure-foundry" in
  let endpoint := args !! 1%nat in
  let deployment := js_or (args !! 2%nat) "gpt-4" in
  if negb (truthy endpoint) then Outcome (Exited 1) fs usage
  else match get_template providerType with
  | Undefined =>
      Outcome (Exited 1) fs
        ["Unknown provider type: " +:+ providerType;
         "Valid types: " +:+ Json.join ", " (map fst PROVIDER_TEMPLATES)]
  | Inherited =>
      Outcome (Threw "TypeError: template.config is not a function") fs []
  | Own template =>
      let cfg := Json.Obj
        (Json.set "providers"
           (Json.Obj [(providerType,
                       config template (Answers endpoint (Some deployment) (Some deployment)))])
           OFFLINE_CONFIG) in
      let fs1 := if config_dir fs then fs else Fsys true (config_file fs) in
      let fs2 := Fsys (config_dir fs1) (Some (Json.stringify cfg)) in
      Outcome Returned fs2
        (["Configuration saved to: " +:+ CONFIG_FILE; EmptyString;
          "Required environment variables:"]
         ++ map (fun v => "  " +:+ v) (envVars template))
  end.

(** [main] with [quick] as its command, then [main().catch(console.error)]:
    the exit status of the process and what it leaves behind. *)
Definition main_quick (CONFIG_FILE : string) (args : list string) (fs : fsys)
  : Z * fsys * list string :=
  let o := quickSetup CONFIG_FILE args fs in
  match how o with
  | Exited code => (code, files o, console o)
  | Threw error => (0%Z, files o, console o ++ [error])
  | Returned => (0%Z, files o, console o)
  end.

End Setup.

(** * The package builder *)

Module Builder.

(** What a file holds: an opaque blob, a gzipped tar archive or a zip archive
    with its members (regular files, each with the blob it holds), or text. *)
Inductive fdata :=
| Blob (id : nat)
| Tgz (members : list (path * nat))
| Zip (members : list (path * nat))
| Text (s : string).

Inductive node :=
| Dir
| File (d : fdata).

(** The tree below [DIST_DIR], paths relative to it; [[]] is [DIST_DIR]
    itself. *)
Abbreviation tree := (gmap path node).

(** ** The tables *)

Definition PLATFORMS : list (string * string) :=
  [("Linux_x86_64", "linux-x64");
   ("Linux_arm64", "linux-arm64");
   ("Darwin_x86_64", "darwin-x64");
   ("Darwin_arm64", "darwin-arm64");
   ("Windows_x86_64", "win32-x64");
   ("Windows_arm64", "win32-arm64")].

Definition OS_MAP : list (string * string) :=
  [("linux-x64", "linux");
   ("linux-arm64", "linux");
   ("darwin-x64", "darwin");
   ("darwin-arm64", "darwin");
   ("win32-x64", "win32");
   ("win32-arm64", "win32")].

Definition CPU_MAP : list (string * string) :=
  [("linux-x64", "x64");
   ("linux-arm64", "arm64");
   ("darwin-x64", "x64");
   ("darwin-arm64", "arm64");
   ("win32-x64", "x64");
   ("win32-arm64", "arm64")].

Fixpoint assoc (key : string) (tbl : list (string * string)) : option string :=
  match tbl with
  | [] => None
  | (k, v) :: rest => if decide (k = key) then Some v else assoc key rest
  end.

Definition PACKAGE_SCOPE : string := "@anthropic-ai/crush-corp".

(** ** File-system commands *)

(** [rm -rf d] *)
Definition rm_rf (d : path) (t : tree) : tree :=
  filter (fun kv => ¬ d `prefix_of` kv.1) t.

(** [rm -f p] on a file *)
Definition rm_f (p : path) (t : tree) : tree := delete p t.

(** All prefixes of a path, the path itself first. *)
Fixpoint ancestors (n : nat) (p : path) : list path :=
  match n with
  | O => [p]
  | S n' => p :: ancestors n' (removelast p)
  end.

Definition mkdir_one (p : path) (t : tree) : tree :=
  match t !! p with
  | None => <[p := Dir]> t
  | Some _ => t
  end.

(** [mkdir -p d]: what exists stays as it is. *)
Definition mkdir_p (d : path) (t : tree) : tree :=
  foldr mkdir_one t (ancestors (length d) d).

(** [[ -f p ]] *)
Definition is_file (t : tree) (p : path) : bool :=
  match t !! p with
  | Some (File _) => true
  | _ => false
  end.

(** Writing a file whose directory exists. *)
Definition write (p : path) (d : fdata) (t : tree) : tree := <[p := File d]> t.

(** One archive member put below [root] at the relative path [rel]. *)
Definition put (root : path) (t : tree) (m : path * nat) : tree :=
  <[root ++ m.1 := File (Blob m.2)]> (mkdir_p (root ++ removelast m.1) t).

Definition put_all (root : path) (ms : list (path * nat)) (t : tree) : tree :=
  foldl (put root) t ms.

(** ** The archive tools

    A tool returns its exit status (0 is success) and the tree it leaves. *)

Definition read_tgz (t : tree) (p : path) : option (list (path * nat)) :=
  match t !! p with
  | Some (File (Tgz ms)) => Some ms
  | _ => None
  end.

Definition read_zip (t : tree) (p : path) : option (list (path * nat)) :=
  match t !! p with
  | Some (File (Zip ms)) => Some ms
  | _ => None
  end.

(** [tar -xzf archive -C bin --strip-components=1 --wildcards "*/name"].
    In GNU tar the [*] of a member pattern matches [/] as well, and a pattern
    that matches a leading directory of a member selects the member: the
    members selected are those with a segment [name] after the first one.
    Each is extracted without its first segment.  No member selected, or an
    unreadable archive, is exit status 2. *)
Definition tar_wild_strip1 (archive bin : path) (name : string) (t : tree) : Z * tree :=
  match read_tgz t archive with
  | None => (2%Z, t)
  | Some ms =>
      match List.filter (fun m : path * nat => bool_decide (name ∈ tail m.1)) ms with
      | [] => (2%Z, t)
      | hit => (0%Z, put_all bin (map (fun m : path * nat => (tail m.1, m.2)) hit) t)
      end
  end.

(** [tar -xzf archive -C bin name]: the member [name], and the members below
    a directory [name]. *)
Definition tar_exact (archive bin : path) (name : string) (t : tree) : Z * tree :=
  match read_tgz t archive with
  | None => (2%Z, t)
  | Some ms =>
      match List.filter (fun m : path * nat => bool_decide (head m.1 = Some name)) ms with
      | [] => (2%Z, t)
      | hit => (0%Z, put_all bin hit t)
      end
  end.

(** [tar -xzf archive -C dir] *)
Definition tar_all (archive dir : path) (t : tree) : Z * tree :=
  match read_tgz t archive with
  | None => (2%Z, t)
  | Some ms => (0%Z, put_all dir ms t)
  end.

(** One member extracted by [unzip].  Onto a path that exists, [unzip] asks
    whether to replace it; the script is taken to run where nobody answers:
    the member is skipped, and [unzip] will end with status 1. *)
Definition unzip_put (root : path) (acc : bool * tree) (m : path * nat) : bool * tree :=
  match acc.2 !! (root ++ m.1) with
  | Some _ => (true, acc.2)
  | None => (acc.1, put root acc.2 m)
  end.

(** The members in the order of the archive; the status is 1 when one was
    skipped. *)
Definition unzip_members (root : path) (ms : list (path * nat)) (t : tree) : Z * tree :=
  let r := foldl (unzip_put root) (false, t) ms in
  ((if r.1 then 1 else 0)%Z, r.2).

(** [unzip -q -j archive "*/name" -d bin/]: the members whose name ends in
    [/name] ([*] matches [/] too), each extracted as [bin/name].  No member
    selected is exit status 11, an unreadable archive 9. *)
Definition unzip_junk_wild (archive bin : path) (name : string) (t : tree) : Z * tree :=
  match read_zip t archive with
  | None => (9%Z, t)
  | Some ms =>
      match List.filter
              (fun m : path * nat => bool_decide ((2 <= length m.1)%nat ∧ last m.1 = Some name)) ms with
      | [] => (11%Z, t)
      | hit => unzip_members bin (map (fun m : path * nat => ([name], m.2)) hit) t
      end
  end.

(** [unzip -q -j archive "name" -d bin/] *)
Definition unzip_junk_exact (archive bin : path) (name : string) (t : tree) : Z * tree :=
  match read_zip t archive with
  | None => (9%Z, t)
  | Some ms =>
      match List.filter (fun m : path * nat => bool_decide (m.1 = [name])) ms with
      | [] => (11%Z, t)
      | hit => unzip_members bin hit t
      end
  end.

(** [unzip -q archive -d dir] *)
Definition unzip_all (archive dir : path) (t : tree) : Z * tree :=
  match read_zip t archive with
  | None => (9%Z, t)
  | Some ms => unzip_members dir ms (mkdir_p dir t)
  end.

(** What [find root -name name] visits: files and directories. *)
Definition find_named (root : path) (name : string) (t : tree) : list (path * node) :=
  List.filter
    (fun kv : path * node => bool_decide (root `prefix_of` kv.1 ∧ last kv.1 = Some name))
    (map_to_list t).

(** Something is below [p]. *)
Definition occupied (p : path) (t : tree) : bool :=
  existsb (fun kv : path * node => bool_decide (p `prefix_of` kv.1 ∧ kv.1 ≠ p))
          (map_to_list t).

(** [mv src dstdir/]: whether it moves, and the tree afterwards.  What is
    moved is the node and what is below it.  [mv] refuses to move a file
    onto itself, a directory into itself, a directory onto a file or onto a
    directory that is not empty, and a file onto a directory; a [src] that
    is not there moves nothing. *)
Definition mv_into (dstdir : path) (t : tree) (src : path) : bool * tree :=
  match last src, t !! src with
  | Some n, Some x =>
      let target := dstdir ++ [n] in
      let refused :=
        bool_decide (src = target)
        || bool_decide (src `prefix_of` dstdir)
        || match x, t !! target with
           | Dir, Some (File _) => true
           | Dir, Some Dir => occupied target t
           | File _, Some Dir => true
           | _, _ => false
           end in
      if refused then (false, t)
      else (true,
            foldr
              (fun (kv : path * node) (m : tree) =>
                 <[target ++ drop (length src) kv.1 := kv.2]> m)
              (rm_rf src t)
              (List.filter (fun kv : path * node => bool_decide (src `prefix_of` kv.1))
                           (map_to_list t)))
  | _, _ => (false, t)
  end.

Definition is_dir (x : option node) : bool :=
  match x with
  | Some Dir => true
  | _ => false
  end.

(** One path that [find] has to visit: [mv] is run on it if it is still
    there; a directory that was moved away cannot be entered, which [find]
    reports in its status. *)
Definition find_visit (dstdir : path) (acc : bool * tree) (src : path) : bool * tree :=
  let r := mv_into dstdir acc.2 src in
  (acc.1 || (r.1 && is_dir (acc.2 !! src)), r.2).

Definition shorter (a b : path) : Prop := (length a <= length b)%nat.

#[global] Instance shorter_dec (a b : path) : Decision (shorter a b) :=
  decide (length a <= length b)%nat.

(** [find root -name name -exec mv {} dstdir/ \;].  [find] visits a
    directory before what is below it; among the others the order is that
    of the file system, taken here by depth, then in the order of the map.
    What is below a directory that was moved away is not visited: it is no
    longer there.  A [mv] that refuses does not change the status of
    [find], which is 1 when it could not enter a directory. *)
Definition find_mv (root : path) (name : string) (dstdir : path) (t : tree) : Z * tree :=
  let hits := merge_sort shorter (map fst (find_named root name t)) in
  let r := foldl (find_visit dstdir) (false, t) hits in
  ((if r.1 then 1 else 0)%Z, r.2).

(** [find pkg -maxdepth 1 -type d -name "crush_*" -exec rm -rf {} \;] *)
Definition is_crush_dir (pkg : path) (kv : path * node) : bool :=
  match kv.2 with
  | Dir =>
      bool_decide (length kv.1 = S (length pkg) ∧ pkg `prefix_of` kv.1)
      && match last kv.1 with
         | Some n => String.prefix "crush_" n
         | None => false
         end
  | File _ => false
  end.

Definition find_rm_crush_dirs (pkg : path) (t : tree) : Z * tree :=
  (0%Z, foldl (fun m (kv : path * node) => rm_rf kv.1 m) t
          (List.filter (is_crush_dir pkg) (map_to_list t))).

(** [a || b] and [a && b] on commands. *)
Definition or_else (a : Z * tree) (b : tree -> Z * tree) : Z * tree :=
  if decide (a.1 = 0%Z) then a else b a.2.

Definition and_then (a : Z * tree) (b : tree -> Z * tree) : Z * tree :=
  if decide (a.1 = 0%Z) then b a.2 else a.

(** The third strategy of each branch, the part in parentheses. *)
Definition fallback_zip (archive pkg_dir : path) (name : string) (t : tree) : Z * tree :=
  and_then (unzip_all archive (pkg_dir ++ ["temp"]) t) (fun t1 =>
  and_then (find_mv (pkg_dir ++ ["temp"]) name (pkg_dir ++ ["bin"]) t1) (fun t2 =>
  (0%Z, rm_rf (pkg_dir ++ ["temp"]) t2))).

Definition fallback_tar (archive pkg_dir : path) (name : string) (t : tree) : Z * tree :=
  and_then (tar_all archive pkg_dir t) (fun t1 =>
  and_then (find_mv pkg_dir name (pkg_dir ++ ["bin"]) t1) (fun t2 =>
  find_rm_crush_dirs pkg_dir t2)).

(** The whole [if [ "$os" = "win32" ]] command of the extraction. *)
Definition extract (win : bool) (archive pkg_dir : path) (name : string) (t : tree)
  : Z * tree :=
  if win then
    or_else (unzip_junk_wild archive (pkg_dir ++ ["bin"]) name t) (fun t1 =>
    or_else (unzip_junk_exact archive (pkg_dir ++ ["bin"]) name t1) (fun t2 =>
    fallback_zip archive pkg_dir name t2))
  else
    or_else (tar_wild_strip1 archive (pkg_dir ++ ["bin"]) name t) (fun t1 =>
    or_else (tar_exact archive (pkg_dir ++ ["bin"]) name t1) (fun t2 =>
    fallback_tar archive pkg_dir name t2)).

(** ** One platform *)

(** [continue] (and the normal end of the loop body), or the end of the script
    under [set -e] with the status of the command that failed. *)
Inductive ctl :=
| Continue
| Abort (status : Z).

(** The tree below [DIST_DIR] and [BUILT_PLATFORMS]. *)
Record bstate := BState { fs : tree; built : list string }.

(** What the release server answers to a GET: the file, or a failure that may
    leave part of a file behind. *)
Inductive fetch :=
| Fetched (d : fdata)
| Failed (partial : option fdata).

(** [curl -fsSL -o dst url] *)
Definition curl (net : string -> fetch) (url : string) (dst : path) (t : tree) : Z * tree :=
  match net url with
  | Fetched d => (0%Z, write dst d t)
  | Failed None => (22%Z, t)
  | Failed (Some d) => (22%Z, write dst d t)
  end.

Definition q (s : string) : string := Json.dquote +:+ s +:+ Json.dquote.

Definition lines (l : list string) : string :=
  String.concat EmptyString (map (fun s => s +:+ Json.nl) l).

Definition package_json (npm_platform VERSION os cpu : string) : string :=
  lines
    ["{";
     "  " +:+ q "name" +:+ ": " +:+ q (PACKAGE_SCOPE +:+ "-" +:+ npm_platform) +:+ ",";
     "  " +:+ q "version" +:+ ": " +:+ q VERSION +:+ ",";
     "  " +:+ q "description" +:+ ": " +:+ q ("Crush binary for " +:+ npm_platform) +:+ ",";
     "  " +:+ q "license" +:+ ": " +:+ q "FSL-1.1-MIT" +:+ ",";
     "  " +:+ q "repository" +:+ ": {";
     "    " +:+ q "type" +:+ ": " +:+ q "git" +:+ ",";
     "    " +:+ q "url" +:+ ": " +:+ q "git+https://github.com/kj55-dev/crush-npm.git";
     "  },";
     "  " +:+ q "os" +:+ ": [" +:+ q os +:+ "],";
     "  " +:+ q "cpu" +:+ ": [" +:+ q cpu +:+ "],";
     "  " +:+ q "files" +:+ ": [" +:+ q "bin/" +:+ "],";
     "  " +:+ q "preferUnplugged" +:+ ": true";
     "}"].

Definition readme (npm_platform : string) : string :=
  lines
    ["# " +:+ PACKAGE_SCOPE +:+ "-" +:+ npm_platform;
     EmptyString;
     "Platform-specific binary package for Crush on " +:+ npm_platform +:+ ".";
     EmptyString;
     "This package is automatically installed as a dependency of `"
       +:+ PACKAGE_SCOPE +:+ "`.";
     "You should not need to install this package directly.";
     EmptyString;
     "## About Crush";
     EmptyString;
     "Crush is a glamorous agentic coding assistant for your terminal.";
     "Learn more at https://charm.sh/crush"].

Definition archive_name (VERSION archive_suffix : string) (win : bool) : string :=
  "crush_" +:+ VERSION +:+ "_" +:+ archive_suffix +:+ (if win then ".zip" else ".tar.gz").

Definition binary_name (win : bool) : string :=
  if win then "crush.exe" else "crush".

Definition download_url (VERSION name : string) : string :=
  "https://github.com/charmbracelet/crush/releases/download/v" +:+ VERSION +:+ "/" +:+ name.

Definition pkg_dir (npm_platform : string) : path :=
  ["packages"; "crush-corp-" +:+ npm_platform].

(** The download step: its status and tree, and what it prints. *)
Definition download (net : string -> fetch) (VERSION name : string) (t : tree)
  : Z * tree * list string :=
  if is_file t [name] then (0%Z, t, [])
  else (curl net (download_url VERSION name) [name] t, ["  Downloading " +:+ name +:+ "..."]).

(** The body of the loop for one key of [PLATFORMS]. *)
Definition buildOne (VERSION : string) (net : string -> fetch) (archive_suffix : string)
    (st : bstate) : ctl * bstate * list string :=
  match assoc archive_suffix PLATFORMS with
  | None => (Abort 1, st, [])
  | Some npm_platform =>
    match assoc npm_platform OS_MAP, assoc npm_platform CPU_MAP with
    | Some os, Some cpu =>
      let win := bool_decide (os = "win32") in
      let name := archive_name VERSION archive_suffix win in
      let log0 := [EmptyString; "Processing " +:+ npm_platform +:+ "..."] in
      let '(dl, t1, log1) := download net VERSION name (fs st) in
      if negb (bool_decide (dl = 0%Z)) then
        (Continue, BState (rm_f [name] t1) (built st),
         log0 ++ log1 ++ ["  Skipping " +:+ npm_platform +:+ ": download failed"])
      else
        let dir := pkg_dir npm_platform in
        let t2 := mkdir_p (dir ++ ["bin"]) t1 in
        let log2 := log0 ++ log1 ++ ["  Extracting binary..."] in
        let '(ex, t3) := extract win [name] dir (binary_name win) t2 in
        if negb (bool_decide (ex = 0%Z)) then (Abort ex, BState t3 (built st), log2)
        else
          (* chmod +x ... || true changes a mode only *)
          if negb (is_file t3 (dir ++ ["bin"; binary_name win])) then
            (Continue, BState (rm_rf dir t3) (built st),
             log2 ++ ["  ERROR: Failed to extract binary for " +:+ npm_platform])
          else
            let t4 := write (dir ++ ["package.json"])
                            (Text (package_json npm_platform VERSION os cpu)) t3 in
            let t5 := write (dir ++ ["README.md"]) (Text (readme npm_platform)) t4 in
            (Continue, BState t5 (built st ++ [npm_platform]),
             log2 ++ ["  Built crush-corp-" +:+ npm_platform])
    | _, _ => (Abort 1, st, [])
    end
  end.

(** The loop; [order] is the order in which bash enumerates the keys. *)
Fixpoint buildLoop (VERSION : string) (net : string -> fetch) (order : list string)
    (st : bstate) : ctl * bstate * list string :=
  match order with
  | [] => (Continue, st, [])
  | archive_suffix :: rest =>
      match buildOne VERSION net archive_suffix st with
      | (Abort status, st', log) => (Abort status, st', log)
      | (Continue, st', log) =>
          let '(c, st'', log') := buildLoop VERSION net rest st' in
          (c, st'', log ++ log')
      end
  end.

(** ** The root manifest *)

(** [for (const dep in x) x[dep] = v]: the properties of an object and the
    elements of an array are assigned; a primitive value has nothing that
    could be assigned. *)
Definition for_in_assign (v : string) (x : Json.value) : Json.value :=
  match x with
  | Json.Obj deps => Json.Obj (map (fun kv : string * Json.value => (kv.1, Json.Str v)) deps)
  | Json.Arr items => Json.Arr (map (fun _ => Json.Str v) items)
  | other => other
  end.

(** ** The version pasted into the script

    [VERSION] is pasted between single quotes into the text of the script,
    twice: what the script assigns is what JavaScript makes of that text.
    It is modelled for one form of text: terms joined by [+], each a string
    literal between single quotes, of ASCII characters other than quote,
    backslash and line break, or the name [pkg.version].  A version without
    such a character makes one literal, whose value is the version.  Any
    other text - a syntax error, or code of any kind - is not modelled. *)
Inductive term :=
| Lit (s : string)
| PkgVersion.

Definition plain_char (c : Ascii.ascii) : bool :=
  let n := Ascii.nat_of_ascii c in
  bool_decide (n < 128) && negb (bool_decide (n = 39 ∨ n = 92 ∨ n = 10 ∨ n = 13)).

Fixpoint plain_version (v : string) : bool :=
  match v with
  | EmptyString => true
  | String c v' => plain_char c && plain_version v'
  end.

Definition is_quote (c : Ascii.ascii) : bool := bool_decide (Ascii.nat_of_ascii c = 39).

Definition is_plus (c : Ascii.ascii) : bool := bool_decide (Ascii.nat_of_ascii c = 43).

(** A letter or the dot. *)
Definition name_char (c : Ascii.ascii) : bool :=
  let n := Ascii.nat_of_ascii c in
  bool_decide (n = 46 ∨ (65 <= n ∧ n <= 90) ∨ (97 <= n ∧ n <= 122)).

Definition single (c : Ascii.ascii) : string := String c EmptyString.

(** Where the reader of the pasted text is. *)
Inductive reading :=
| InLit (acc : string)     (* inside a literal *)
| AfterTerm                (* after a term: [+] or the end *)
| BeforeTerm               (* a term is due *)
| InName (acc : string).   (* inside a name *)

Fixpoint read_terms (here : reading) (seen : list term) (s : string) : option (list term) :=
  match s with
  | EmptyString =>
      match here with
      | AfterTerm => Some seen
      | _ => None
      end
  | String c rest =>
      match here with
      | InLit acc =>
          if is_quote c then read_terms AfterTerm (seen ++ [Lit acc]) rest
          else if plain_char c then read_terms (InLit (acc +:+ single c)) seen rest
          else None
      | AfterTerm => if is_plus c then read_terms BeforeTerm seen rest else None
      | BeforeTerm =>
          if is_quote c then read_terms (InLit EmptyString) seen rest
          else if name_char c then read_terms (InName (single c)) seen rest
          else None
      | InName acc =>
          if name_char c then read_terms (InName (acc +:+ single c)) seen rest
          else if is_plus c && String.eqb acc "pkg.version"
               then read_terms BeforeTerm (seen ++ [PkgVersion]) rest
               else None
      end
  end.

(** The expression that ['${VERSION}'] makes; [None] when it is not of the
    form modelled. *)
Definition read_pasted (VERSION : string) : option (list term) :=
  read_terms BeforeTerm [] ("'" +:+ VERSION +:+ "'").

Definition reads_version (ts : list term) : bool :=
  existsb (fun t => match t with PkgVersion => true | Lit _ => false end) ts.

(** The string that [+] makes of a value of [pkg.version], [None] standing
    for [undefined]; not modelled for a number, an array or an object. *)
Definition text_of (x : option Json.value) : option string :=
  match x with
  | None => Some "undefined"
  | Some (Json.Str s) => Some s
  | Some Json.Null => Some "null"
  | Some (Json.Bool true) => Some "true"
  | Some (Json.Bool false) => Some "false"
  | Some _ => None
  end.

(** The terms joined, [pkg.version] having the text [version]. *)
Fixpoint joined (ts : list term) (version : string) : string :=
  match ts with
  | [] => EmptyString
  | Lit s :: rest => s +:+ joined rest version
  | PkgVersion :: rest => version +:+ joined rest version
  end.

(** The value of the expression where [pkg.version] has the value
    [version]. *)
Definition value_of (ts : list term) (version : option Json.value) : option string :=
  if reads_version ts then option_map (joined ts) (text_of version)
  else Some (joined ts EmptyString).

(** What the assignments of the script do. *)
Inductive rewritten :=
| Wrote (pkg : Json.value)    (* the value that is written back *)
| Throws                      (* an exception *)
| NotModelled.

(** The assignments of the script on the value of [require('./package.json')],
    for the expression [ts] that the pasted version makes.  The first
    assignment reads [pkg.version] as it was, the assignments of the loop
    read it as the first has left it.  Assigning a property of [null]
    throws; on an array or a primitive value the assignment does not show in
    the JSON text, and [pkg.version] reads as [undefined]. *)
Definition update_pkg (ts : list term) (pkg : Json.value) : rewritten :=
  match pkg with
  | Json.Null => Throws
  | Json.Obj props =>
      match value_of ts (Json.get "version" props) with
      | None => NotModelled
      | Some v1 =>
          let props1 := Json.set "version" (Json.Str v1) props in
          match Json.get "optionalDependencies" props1 with
          | Some deps =>
              Wrote (Json.Obj (Json.set "optionalDependencies"
                                 (for_in_assign (joined ts v1) deps) props1))
          | None => Wrote (Json.Obj props1)
          end
      end
  | other => Wrote other
  end.

Record result := Result {
  status : Z;
  dist : tree;
  manifest : option string;
  platforms_built : list string;
  output : list string
}.

Section Script.

(** [require('./package.json')] on the text of the file: the value that
    [JSON.parse] makes of it, or [None] when [require] throws - on a text
    that is not JSON and, in the versions of Node that read the manifest of
    the package as well, on a manifest that is not an object. *)
Variable parse : string -> option Json.value.

(** What [node -e] does when the script is not modelled: its exit status
    and the manifest file afterwards, from the version and the manifest
    file before.  It can be anything. *)
Variable other : string -> option string -> Z * option string.

(** [node -e "..."]: its exit status and the manifest file afterwards. *)
Definition node_rewrite (VERSION : string) (text : option string) : Z * option string :=
  match read_pasted VERSION with
  | None => other VERSION text
  | Some ts =>
      match text with
      | None => (1%Z, None)
      | Some s =>
          match parse s with
          | None => (1%Z, Some s)
          | Some pkg =>
              match update_pkg ts pkg with
              | Wrote pkg' => (0%Z, Some (Json.stringify pkg' +:+ Json.nl))
              | Throws => (1%Z, Some s)
              | NotModelled => other VERSION text
              end
          end
      end
  end.

(** The script. [argv] is [$0], [$1], ...; [dist0] and [manifest0] are
    [DIST_DIR] and the root [package.json] before the run. *)
Definition buildAll (order : list string) (net : string -> fetch) (argv : list string)
    (dist0 : tree) (manifest0 : option string) : result :=
  let VERSION := default EmptyString (argv !! 1%nat) in
  let script := default EmptyString (argv !! 0%nat) in
  if String.eqb VERSION EmptyString then
    Result 1 dist0 manifest0 []
      ["Usage: " +:+ script +:+ " <version>"; "Example: " +:+ script +:+ " 0.43.0"]
  else
    let log0 := ["Building npm packages for Crush v" +:+ VERSION] in
    let t0 := mkdir_p ["packages"] (rm_rf [] dist0) in
    match buildLoop VERSION net order (BState t0 []) with
    | (Abort c, st, log) => Result c (fs st) manifest0 (built st) (log0 ++ log)
    | (Continue, st, log) =>
        let log1 := log0 ++ log
                    ++ [EmptyString; "Updating main package version to " +:+ VERSION +:+ "..."] in
        let '(c, m) := node_rewrite VERSION manifest0 in
        if bool_decide (c = 0%Z) then
          Result 0 (fs st) m (built st)
            (log1 ++ [EmptyString; "Build complete!";
                      "Platforms built:"
                      +:+ String.concat EmptyString (map (fun p => " " +:+ p) (built st))])
        else Result c (fs st) m (built st) log1
    end.

End Script.

End Builder.

(** * Concrete inputs *)

Module Inputs.

Import Launcher.

(** The [@offlinecli] launcher installed unscoped, on Linux; nothing
    resolves. *)
Definition unscoped_env : env :=
  Env "linux" "x64" ["app"; "node_modules"; "crush"; "bin"] (fun _ => None).

(** The conventional nested location for the [@offlinecli] launcher, as the
    [@anthropic-ai] launcher computes its own. *)
Definition offline_nested_dir (e : env) : path :=
  path_join (dirname e)
    [".."; ".."; remove_first "@offlinecli/" (Offline.getPlatformPackage e); "bin"].

Definition permissive : perms := Perms (fun _ => false) (fun _ => false).

Definition read_only : perms := Perms (fun _ => true) (fun _ => true).

Definition nested_only_fs : gmap path bool :=
  {[ offline_nested_dir unscoped_env ++ ["crush"] := true ]}.

(** The [@offlinecli] launcher in its scoped place. *)
Definition linux_env : env :=
  Env "linux" "x64" ["app"; "node_modules"; "@offlinecli"; "crush"; "bin"] (fun _ => None).

Definition win_env : env :=
  Env "win32" "x64" ["app"; "node_modules"; "@offlinecli"; "crush"; "bin"] (fun _ => None).

Definition linux_bin : path :=
  ["app"; "node_modules"; "@offlinecli"; "crush-linux-x64"; "bin"].

Definition win_bin : path :=
  ["app"; "node_modules"; "@offlinecli"; "crush-win32-x64"; "bin"].

Definition both_fs : gmap path bool :=
  {[ linux_bin ++ ["crush"] := true; linux_bin ++ ["crush.bin"] := false ]}.

Definition disguised_fs : gmap path bool :=
  {[ linux_bin ++ ["crush.bin"] := false ]}.

Definition win_disguised_fs : gmap path bool :=
  {[ win_bin ++ ["crush.bin"] := false ]}.

(** The [@anthropic-ai] launcher in its scoped place, the platform package
    found by [require.resolve] only. *)
Definition corp_env : env :=
  Env "darwin" "arm64" ["app"; "node_modules"; "@anthropic-ai"; "crush-corp"; "bin"]
      (fun s => if String.eqb s "@anthropic-ai/crush-corp-darwin-arm64/package.json"
                then Some ["store"; "crush-corp-darwin-arm64"; "package.json"]
                else None).

Definition corp_fs : gmap path bool :=
  {[ ["store"; "crush-corp-darwin-arm64"; "bin"; "crush"] := true ]}.

End Inputs.

Module BuildInputs.

Import Builder.

(** The keys of [PLATFORMS] in the order of the table. *)
Definition table_order : list string := map fst PLATFORMS.

(** A server given by a table from URL to answer; what is not in the table
    cannot be fetched. *)
Fixpoint answer (tbl : list (string * fetch)) (url : string) : fetch :=
  match tbl with
  | [] => Failed None
  | (u, f) :: rest => if String.eqb u url then f else answer rest url
  end.

Definition url (VERSION archive_suffix : string) (win : bool) : string :=
  download_url VERSION (archive_name VERSION archive_suffix win).

(** A release whose archives have the expected layout. *)
Definition good_tgz (VERSION archive_suffix : string) : fdata :=
  Tgz [(["crush_" +:+ VERSION +:+ "_" +:+ archive_suffix; "crush"], 1%nat);
       (["crush_" +:+ VERSION +:+ "_" +:+ archive_suffix; "LICENSE.md"], 2%nat)].

Definition good_zip (VERSION archive_suffix : string) : fdata :=
  Zip [(["crush_" +:+ VERSION +:+ "_" +:+ archive_suffix; "crush.exe"], 1%nat);
       (["crush_" +:+ VERSION +:+ "_" +:+ archive_suffix; "LICENSE.md"], 2%nat)].

Definition release (VERSION : string) : list (string * fetch) :=
  [(url VERSION "Linux_x86_64" false, Fetched (good_tgz VERSION "Linux_x86_64"));
   (url VERSION "Linux_arm64" false, Fetched (good_tgz VERSION "Linux_arm64"));
   (url VERSION "Darwin_x86_64" false, Fetched (good_tgz VERSION "Darwin_x86_64"));
   (url VERSION "Darwin_arm64" false, Fetched (good_tgz VERSION "Darwin_arm64"));
   (url VERSION "Windows_x86_64" true, Fetched (good_zip VERSION "Windows_x86_64"));
   (url VERSION "Windows_arm64" true, Fetched (good_zip VERSION "Windows_arm64"))].

(** The binary two directories deep below a folder with an unexpected name. *)
Definition deep_tgz : fdata :=
  Tgz [(["weird"; "inner"; "crush"], 1%nat); (["weird"; "LICENSE.md"], 2%nat)].

Definition deep_zip : fdata :=
  Zip [(["weird"; "inner"; "crush.exe"], 1%nat); (["weird"; "LICENSE.md"], 2%nat)].

(** The release with only the Windows x86_64 archive, of that layout. *)
Definition deep_windows (VERSION : string) : list (string * fetch) :=
  [(url VERSION "Windows_x86_64" true, Fetched deep_zip)].

(** The same release with the Linux x86_64 archive replaced. *)
Definition release_with (VERSION : string) (f : fetch) : list (string * fetch) :=
  (url VERSION "Linux_x86_64" false, f) :: release VERSION.

(** [DIST_DIR] after the clean-up at the start of the script. *)
Definition clean : tree := mkdir_p ["packages"] (rm_rf [] ∅).

(** The paths of a tree at or below [d]. *)
Definition below (d : path) (t : tree) : list path :=
  map fst (List.filter (fun kv : path * node => bool_decide (d `prefix_of` kv.1))
                       (map_to_list t)).

(** The tree when the extraction for Linux x86_64 starts, the archive
    [deep_tgz] downloaded. *)
Definition staged : tree :=
  mkdir_p (pkg_dir "linux-x64" ++ ["bin"])
    (write ["crush_1.2.3_Linux_x86_64.tar.gz"] deep_tgz clean).

(** A root manifest, its text, and a reader that knows this text and the text
    the script writes for version 1.2.3. *)
Definition root_pkg (v : string) : Json.value :=
  Json.Obj
    [("name", Json.Str "@anthropic-ai/crush-corp");
     ("version", Json.Str v);
     ("bin", Json.Obj [("crush", Json.Str "bin/crush.js")]);
     ("optionalDependencies", Json.Obj
        [("@anthropic-ai/crush-corp-linux-x64", Json.Str v);
         ("@anthropic-ai/crush-corp-linux-arm64", Json.Str v);
         ("@anthropic-ai/crush-corp-darwin-x64", Json.Str v);
         ("@anthropic-ai/crush-corp-darwin-arm64", Json.Str v);
         ("@anthropic-ai/crush-corp-win32-x64", Json.Str v);
         ("@anthropic-ai/crush-corp-win32-arm64", Json.Str v)])].

Definition root_text (v : string) : string := Json.stringify (root_pkg v) +:+ Json.nl.

Definition reader (s : string) : option Json.value :=
  if String.eqb s (root_text "0.43.0") then Some (root_pkg "0.43.0")
  else if String.eqb s (root_text "1.2.3") then Some (root_pkg "1.2.3")
  else None.

(** A [node] that stops with status 1 on every script that is not modelled
    and leaves the manifest alone. *)
Definition stops (VERSION : string) (text : option string) : Z * option string :=
  (1%Z, text).

(** A root manifest whose entries have another version than the package,
    and a reader that knows the texts of two of them as well. *)
Definition drifted_pkg (v d : string) : Json.value :=
  Json.Obj
    [("name", Json.Str "@anthropic-ai/crush-corp");
     ("version", Json.Str v);
     ("optionalDependencies", Json.Obj
        [("@anthropic-ai/crush-corp-linux-x64", Json.Str d)])].

Definition drifted_text (v d : string) : string :=
  Json.stringify (drifted_pkg v d) +:+ Json.nl.

Definition drifted_reader (s : string) : option Json.value :=
  if String.eqb s (drifted_text "1" "1") then Some (drifted_pkg "1" "1")
  else if String.eqb s (drifted_text "1x" "1xx") then Some (drifted_pkg "1x" "1xx")
  else reader s.

End BuildInputs.

(** * Observations on runs *)

Module Observed.

(** How many times a list of actions sends a signal to the child. *)
Definition forwards (acts : list Launcher.Lifecycle.action) : nat :=
  length (List.filter
            (fun a => match a with Launcher.Lifecycle.KillChild _ => true | _ => false end)
            acts).


(** The package of a platform as the builder leaves it when it reports the
    platform built: the binary under its name in [bin], the manifest and the
    description. *)
Definition has_package (VERSION : string) (t : Builder.tree) (npm : string) : Prop :=
  exists os cpu,
    Builder.assoc npm Builder.OS_MAP = Some os
    /\ Builder.assoc npm Builder.CPU_MAP = Some cpu
    /\ Builder.is_file t
         (Builder.pkg_dir npm ++ ["bin"; Builder.binary_name (bool_decide (os = "win32"))])
       = true
    /\ t !! (Builder.pkg_dir npm ++ ["package.json"])
       = Some (Builder.File (Builder.Text (Builder.package_json npm VERSION os cpu)))
    /\ t !! (Builder.pkg_dir npm ++ ["README.md"])
       = Some (Builder.File (Builder.Text (Builder.readme npm))).

(** A candidate directory on which a round of [findBinary] changes nothing:
    the proper name exists, or the disguised one does not, or the rename is
    refused and the [chmod] of the disguised file is not done, is refused, or
    has been done. *)
Definition settled (e : Launcher.env) (pm : Launcher.perms) (fs : gmap path bool)
    (d : path) : Prop :=
  is_Some (fs !! Launcher.Offline.finalPath e d)
  \/ fs !! Launcher.Offline.disguisedPath d = None
  \/ (Launcher.rename_refused pm (Launcher.Offline.disguisedPath d) = true
      /\ (Launcher.is_win32 e = true
          \/ Launcher.chmod_refused pm (Launcher.Offline.disguisedPath d) = true
          \/ fs !! Launcher.Offline.disguisedPath d = Some true)).

End Observed.

(** * The setup wizard, interactive mode *)

Module Wizard.

(** ** Strings

    A string is UTF-8 text. *)

Fixpoint str (l : list nat) : string :=
  match l with
  | [] => EmptyString
  | n :: rest => String (Ascii.ascii_of_nat n) (str rest)
  end.

(** The white space and the line terminators of ECMAScript, each in UTF-8:
    U+0009 to U+000D, U+0020, U+00A0, U+1680, U+2000 to U+200A, U+2028,
    U+2029, U+202F, U+205F, U+3000 and U+FEFF. *)
Definition white_space : list (list nat) :=
  [[9]; [10]; [11]; [12]; [13]; [32]; [194; 160]; [225; 154; 128];
   [226; 128; 128]; [226; 128; 129]; [226; 128; 130]; [226; 128; 131];
   [226; 128; 132]; [226; 128; 133]; [226; 128; 134]; [226; 128; 135];
   [226; 128; 136]; [226; 128; 137]; [226; 128; 138];
   [226; 128; 168]; [226; 128; 169]; [226; 128; 175]; [226; 129; 159];
   [227; 128; 128]; [239; 187; 191]].

Definition drop_string (n : nat) (s : string) : string :=
  String.substring n (String.length s - n) s.

(** The string without one of the sequences at its start, if it starts with
    one. *)
Fixpoint strip_one (seqs : list string) (s : string) : option string :=
  match seqs with
  | [] => None
  | w :: rest =>
      if String.prefix w s then Some (drop_string (String.length w) s)
      else strip_one rest s
  end.

Fixpoint strip_all (fuel : nat) (seqs : list string) (s : string) : string :=
  match fuel with
  | O => s
  | S fuel' =>
      match strip_one seqs s with
      | Some r => strip_all fuel' seqs r
      | None => s
      end
  end.

Definition reverse (s : string) : string :=
  String.string_of_list_ascii (rev (String.list_ascii_of_string s)).

Definition trimStart (s : string) : string :=
  strip_all (String.length s) (map str white_space) s.

Definition trimEnd (s : string) : string :=
  reverse (strip_all (String.length s) (map (fun w => str (rev w)) white_space) (reverse s)).

(** [s.trim()] *)
Definition trim (s : string) : string := trimEnd (trimStart s).

(** [s.endsWith('/')] *)
Fixpoint ends_with_slash (s : string) : bool :=
  match s with
  | EmptyString => false
  | String c EmptyString => bool_decide (Ascii.nat_of_ascii c = 47)
  | String _ rest => ends_with_slash rest
  end.

(** [s.toLowerCase().startsWith('y')]: the first character is [y] or [Y]. *)
Definition starts_with_y (s : string) : bool :=
  match s with
  | EmptyString => false
  | String c _ =>
      bool_decide (Ascii.nat_of_ascii c = 121 \/ Ascii.nat_of_ascii c = 89)
  end.

(** ** Numbers *)

(** The result of [parseInt]: [NaN], an integer up to 2^53 in size, which
    the number of JavaScript holds exactly, or a larger one, which it
    rounds. *)
Inductive jsnum :=
| NaN
| Int (z : Z)
| Unsafe.

Definition digit_value (radix : Z) (c : Ascii.ascii) : option Z :=
  let n := Z.of_nat (Ascii.nat_of_ascii c) in
  if (48 <=? n)%Z && (n <=? 57)%Z then Some (n - 48)%Z
  else if (radix =? 16)%Z && (97 <=? n)%Z && (n <=? 102)%Z then Some (n - 87)%Z
  else if (radix =? 16)%Z && (65 <=? n)%Z && (n <=? 70)%Z then Some (n - 55)%Z
  else None.

(** The value of the digits the string starts with; [acc] is [None] until a
    digit has been read. *)
Fixpoint leading_digits (radix : Z) (s : string) (acc : option Z) : option Z :=
  match s with
  | EmptyString => acc
  | String c rest =>
      match digit_value radix c with
      | Some d => leading_digits radix rest (Some (default 0%Z acc * radix + d)%Z)
      | None => acc
      end
  end.

(** [parseInt(s)] *)
Definition parseInt (s : string) : jsnum :=
  let s1 := trimStart s in
  let '(negative, s2) :=
    if String.prefix "-" s1 then (true, drop_string 1 s1)
    else if String.prefix "+" s1 then (false, drop_string 1 s1)
    else (false, s1) in
  let '(radix, s3) :=
    if String.prefix "0x" s2 || String.prefix "0X" s2
    then (16%Z, drop_string 2 s2) else (10%Z, s2) in
  match leading_digits radix s3 None with
  | None => NaN
  | Some m =>
      if (m <=? 2 ^ 53)%Z then Int (if negative then (- m)%Z else m) else Unsafe
  end.

(** [parseInt(s) || d] as it goes into the configuration; [None] when the
    number is not held exactly. *)
Definition number_or (s : string) (d : Z) : option Z :=
  match parseInt s with
  | NaN => Some d
  | Int z => if (z =? 0)%Z then Some d else Some z
  | Unsafe => None
  end.

(** ** Objects *)

Fixpoint all_digits (s : string) : bool :=
  match s with
  | EmptyString => true
  | String c rest =>
      let n := Ascii.nat_of_ascii c in
      bool_decide (48 <= n /\ n <= 57)%nat && all_digits rest
  end.

(** The array indices among the property names: the decimal numerals up to
    2^32 - 2, without a leading zero. *)
Definition index_of (k : string) : option Z :=
  match k with
  | EmptyString => None
  | String c rest =>
      if all_digits k
         && (negb (bool_decide (Ascii.nat_of_ascii c = 48)) || String.eqb rest EmptyString)
      then match leading_digits 10 k None with
           | Some z => if (z <=? 4294967294)%Z then Some z else None
           | None => None
           end
      else None
  end.

(** A new property goes to its place in the enumeration order: the array
    indices come first, in ascending order, then the other names in the order
    of their creation. *)
Fixpoint place (k : string) (v : Json.value) (props : list (string * Json.value))
  : list (string * Json.value) :=
  match props with
  | [] => [(k, v)]
  | (k', v') :: rest =>
      match index_of k, index_of k' with
      | Some i, Some i' =>
          if (i <? i')%Z then (k, v) :: props else (k', v') :: place k v rest
      | Some _, None => (k, v) :: props
      | None, _ => (k', v') :: place k v rest
      end
  end.

(** Defining a property: an own property keeps its place and takes the
    value. *)
Definition define (k : string) (v : Json.value) (props : list (string * Json.value))
  : list (string * Json.value) :=
  match Json.get k props with
  | Some _ => Json.set k v props
  | None => place k v props
  end.

(** [{...target, ...source}] for the properties of [source]. *)
Definition copy_into (source target : list (string * Json.value))
  : list (string * Json.value) :=
  foldl (fun acc (kv : string * Json.value) => define kv.1 kv.2 acc) target source.

(** The elements of an array as properties. *)
Fixpoint indexed (i : nat) (items : list Json.value) : list (string * Json.value) :=
  match items with
  | [] => []
  | x :: rest => (pretty i, x) :: indexed (S i) rest
  end.

(** What the spread of a value copies: the own properties of an object, the
    elements of an array, nothing for a number, a boolean, [null] or the
    empty string; the characters of another string are not modelled. *)
Definition spread (v : Json.value) : option (list (string * Json.value)) :=
  match v with
  | Json.Obj props => Some props
  | Json.Arr items => Some (indexed 0 items)
  | Json.Str s => if String.eqb s EmptyString then Some [] else None
  | _ => Some []
  end.

Definition truthy (v : Json.value) : bool :=
  match v with
  | Json.Null => false
  | Json.Bool b => b
  | Json.Num n => negb (n =? 0)%Z
  | Json.Str s => negb (String.eqb s EmptyString)
  | Json.Arr _ | Json.Obj _ => true
  end.

(** [v.key] for a key that no prototype has: [None] is the [TypeError] on
    [null]; [Some None] is [undefined]. *)
Definition member (v : Json.value) (key : string) : option (option Json.value) :=
  match v with
  | Json.Null => None
  | Json.Obj props => Some (Json.get key props)
  | _ => Some None
  end.

(** [x || {}] *)
Definition or_empty (x : option Json.value) : Json.value :=
  match x with
  | Some v => if truthy v then v else Json.Obj []
  | None => Json.Obj []
  end.

(** ** The provider templates, with all the answers *)

Record answers := Answers {
  endpoint : string;
  deployment : string;
  modelName : string;
  contextWindow : string;
  maxTokens : string
}.

(** [a || b] on strings *)
Definition or_string (a b : string) : string :=
  if String.eqb a EmptyString then b else a.

(** The entry of [models]; [None] when a number is not held exactly. *)
Definition model (a : answers) (id name : string) (attachments : bool)
  : option Json.value :=
  match number_or (contextWindow a) 128000, number_or (maxTokens a) 4096 with
  | Some cw, Some mt =>
      Some (Json.Obj
        [("id", Json.Str (or_string (deployment a) id));
         ("name", Json.Str (or_string (modelName a) name));
         ("context_window", Json.Num cw);
         ("default_max_tokens", Json.Num mt);
         ("cost_per_1m_in", Json.Num 0);
         ("cost_per_1m_out", Json.Num 0);
         ("cost_per_1m_in_cached", Json.Num 0);
         ("cost_per_1m_out_cached", Json.Num 0);
         ("can_reason", Json.Bool false);
         ("supports_attachments", Json.Bool attachments);
         ("options", Json.Obj [])])
  | _, _ => None
  end.

Record template := Template {
  name : string;
  envVars : list string;
  config : answers -> option Json.value
}.

Definition azure_openai : template :=
  Template "Azure OpenAI"
    ["AZURE_OPENAI_API_ENDPOINT"; "AZURE_OPENAI_API_KEY"; "AZURE_OPENAI_API_VERSION"]
    (fun a =>
       match model a "gpt-4" "GPT-4 (Azure)" true with
       | Some m =>
           Some (Json.Obj [("type", Json.Str "azure");
                           ("base_url", Json.Str (endpoint a));
                           ("api_key", Json.Str "$AZURE_OPENAI_API_KEY");
                           ("models", Json.Arr [m])])
       | None => None
       end).

Definition azure_foundry : template :=
  Template "Azure AI Foundry"
    ["AZURE_AI_FOUNDRY_ENDPOINT"; "AZURE_AI_FOUNDRY_API_KEY"]
    (fun a =>
       match model a "gpt-4" "GPT-4 (Azure AI Foundry)" true with
       | Some m =>
           Some (Json.Obj [("type", Json.Str "openai-compat");
                           ("base_url", Json.Str (endpoint a));
                           ("api_key", Json.Str "$AZURE_AI_FOUNDRY_API_KEY");
                           ("models", Json.Arr [m])])
       | None => None
       end).

Definition openai_compat : template :=
  Template "OpenAI-Compatible API"
    ["CUSTOM_LLM_API_KEY"]
    (fun a =>
       match model a "default" "Custom Model" true with
       | Some m =>
           Some (Json.Obj [("type", Json.Str "openai-compat");
                           ("base_url", Json.Str (endpoint a));
                           ("api_key", Json.Str "$CUSTOM_LLM_API_KEY");
                           ("models", Json.Arr [m])])
       | None => None
       end).

Definition ollama : template :=
  Template "Ollama (Local)"
    []
    (fun a =>
       match model a "llama3:70b" "Llama 3 70B" false with
       | Some m =>
           Some (Json.Obj [("name", Json.Str "Ollama");
                           ("type", Json.Str "openai-compat");
                           ("base_url",
                            Json.Str (or_string (endpoint a) "http://localhost:11434/v1/"));
                           ("models", Json.Arr [m])])
       | None => None
       end).

Definition PROVIDER_TEMPLATES : list (string * template) :=
  [("azure-openai", azure_openai);
   ("azure-foundry", azure_foundry);
   ("openai-compat", openai_compat);
   ("ollama", ollama)].

(** ** The dialogue *)

(** The files the wizard writes: [CONFIG_DIR], [CONFIG_FILE], and
    [crush.json] and [.env.example] in the current directory, which is taken
    not to be [CONFIG_DIR]. *)
Record files := Files {
  config_dir : bool;
  config_file : option string;
  local_file : option string;
  env_example : option string
}.

(** What the wizard creates or writes. *)
Inductive target :=
| ConfigDir      (* mkdirSync(CONFIG_DIR) *)
| ConfigFile     (* writeFileSync(CONFIG_FILE) *)
| LocalFile      (* writeFileSync('crush.json') *)
| EnvExample.    (* writeFileSync('.env.example') *)

(** How the wizard ends: it runs to its end, it calls [process.exit], it
    throws a [TypeError], the system refuses to create the directory or to
    write a file and [mkdirSync] or [writeFileSync] throws, it waits for a
    line that does not come, or it leaves what is modelled (a number that is
    not held exactly, the spread of a string, a configuration file with such
    a number). *)
Inductive ended :=
| Finished
| Exited (code : Z)
| Threw (error : string)
| WriteFailed (what : target)
| Stalled
| Unmodelled.

(** What the existing configuration file holds, for [JSON.parse]. *)
Inductive parsed :=
| Parsed (v : Json.value)
| SyntaxError
| Unrepresentable.

Inductive step (A : Type) :=
| Next (a : A) (inputs : list string) (fs : files)
| End (e : ended) (fs : files).
Arguments Next {A} a inputs fs.
Arguments End {A} e fs.

(** A part of the dialogue: from the lines still to come and the files. *)
Definition M (A : Type) : Type := list string -> files -> step A.

Definition ret {A} (a : A) : M A := fun inputs fs => Next a inputs fs.

Definition bind {A B} (m : M A) (k : A -> M B) : M B :=
  fun inputs fs =>
    match m inputs fs with
    | Next a inputs' fs' => k a inputs' fs'
    | End e fs' => End e fs'
    end.

Definition stop {A} (e : ended) : M A := fun _ fs => End e fs.

Local Notation "'let*' x := m 'in' k" := (bind m (fun x => k))
  (at level 10, x name, m at level 100, k at level 200).

(** [question(prompt, defaultValue)]: the next line, trimmed, or the
    default when nothing is left of it. *)
Definition question (defaultValue : string) : M string :=
  fun inputs fs =>
    match inputs with
    | [] => End Stalled fs
    | answer :: rest => Next (or_string (trim answer) defaultValue) rest fs
    end.

(** [confirm(prompt, defaultYes)] *)
Definition confirm (defaultYes : bool) : M bool :=
  let* answer := question EmptyString in
  ret (if String.eqb answer EmptyString then defaultYes else starts_with_y answer).

(** [select(prompt, options)]; [None] is [undefined], the first element of
    an empty list. *)
Definition select {A} (options : list A) : M (option A) :=
  let* answer := question EmptyString in
  ret (match parseInt answer with
       | Int z =>
           if (0 <=? z - 1)%Z && (z - 1 <? Z.of_nat (length options))%Z
           then options !! Z.to_nat (z - 1)
           else head options
       | _ => head options
       end).

Definition read_config : M (option string) :=
  fun inputs fs => Next (config_file fs) inputs fs.

(** The writes are outside any [try]: where the system refuses one, which
    [refuse] tells, the exception ends the run, and what was to be created or
    written is left as it was.

    [mkdirSync(CONFIG_DIR)] when it does not exist, then
    [writeFileSync(CONFIG_FILE, text)] *)
Definition save_config (refuse : target -> bool) (text : string) : M unit :=
  fun inputs fs =>
    if negb (config_dir fs) && refuse ConfigDir then End (WriteFailed ConfigDir) fs
    else if refuse ConfigFile then
      End (WriteFailed ConfigFile)
        (Files true (config_file fs) (local_file fs) (env_example fs))
    else Next tt inputs (Files true (Some text) (local_file fs) (env_example fs)).

Definition save_local (refuse : target -> bool) (text : string) : M unit :=
  fun inputs fs =>
    if refuse LocalFile then End (WriteFailed LocalFile) fs
    else Next tt inputs
           (Files (config_dir fs) (config_file fs) (Some text) (env_example fs)).

Definition save_env (refuse : target -> bool) (text : string) : M unit :=
  fun inputs fs =>
    if refuse EnvExample then End (WriteFailed EnvExample) fs
    else Next tt inputs
           (Files (config_dir fs) (config_file fs) (local_file fs) (Some text)).

Section Run.

(** [JSON.parse] on the text of the existing configuration file. *)
Variable parse : string -> parsed.

(** The writes that the system refuses. *)
Variable refuse : target -> bool.

(** The existing configuration, or the empty object. *)
Definition existing_config : M Json.value :=
  let* text := read_config in
  match text with
  | None => ret (Json.Obj [])
  | Some s =>
      let* overwrite := confirm false in
      if overwrite then ret (Json.Obj [])
      else match parse s with
           | Parsed v => ret v
           | SyntaxError => ret (Json.Obj [])
           | Unrepresentable => stop Unmodelled
           end
  end.

(** The endpoint: asked with its default for Ollama; required for the
    others, and given a [/] at its end when it has none. *)
Definition ask_endpoint (key : string) : M string :=
  if String.eqb key "ollama" then question "http://localhost:11434/v1/"
  else
    let* e := question EmptyString in
    if String.eqb e EmptyString then stop (Exited 1)
    else ret (if ends_with_slash e then e else e +:+ "/").

Definition ask_answers (key : string) : M answers :=
  let* e := ask_endpoint key in
  let* d := question "gpt-4" in
  let* n := question d in
  let* cw := question "128000" in
  let* mt := question "4096" in
  ret (Answers e d n cw mt).

Definition offline_options : list (string * Json.value) :=
  match Json.get "options" Setup.OFFLINE_CONFIG with
  | Some (Json.Obj props) => props
  | _ => []
  end.

(** The object literal of [config]: its [options] object, and the whole. *)
Definition build_config (existing : Json.value) (key : string) (t : template)
    (a : answers) : M (list (string * Json.value) * list (string * Json.value)) :=
  match spread existing with
  | None => stop Unmodelled
  | Some eprops =>
    let top := copy_into eprops (copy_into Setup.OFFLINE_CONFIG []) in
    match member existing "options" with
    | None => stop (Threw "TypeError: Cannot read properties of null (reading 'options')")
    | Some eo =>
      match spread (or_empty eo) with
      | None => stop Unmodelled
      | Some eoprops =>
        let options := copy_into eoprops (copy_into offline_options []) in
        match spread (or_empty (default None (member existing "providers"))) with
        | None => stop Unmodelled
        | Some epprops =>
          match config t a with
          | None => stop Unmodelled
          | Some pc =>
              let providers := define key pc (copy_into epprops []) in
              ret (options,
                   define "providers" (Json.Obj providers)
                     (define "options" (Json.Obj options) top))
          end
        end
      end
    end
  end.

(** [config.options.disabled_tools = []] and the two [push]. *)
Definition disable_tools (disableFetch disableSourcegraph : bool)
    (options : list (string * Json.value)) : list (string * Json.value) :=
  if disableFetch || disableSourcegraph then
    define "disabled_tools"
      (Json.Arr ((if disableFetch then [Json.Str "fetch"] else [])
                 ++ (if disableSourcegraph then [Json.Str "sourcegraph"] else [])))
      options
  else options.

Definition env_content (t : template) : string :=
  "# Crush environment variables for offline/enterprise use" +:+ Json.nl +:+ Json.nl
  +:+ "# Disable telemetry and auto-updates" +:+ Json.nl
  +:+ "CRUSH_DISABLE_METRICS=1" +:+ Json.nl
  +:+ "CRUSH_DISABLE_PROVIDER_AUTO_UPDATE=1" +:+ Json.nl
  +:+ "DO_NOT_TRACK=1" +:+ Json.nl +:+ Json.nl
  +:+ match envVars t with
      | [] => EmptyString
      | vars =>
          "# " +:+ name t +:+ " credentials" +:+ Json.nl
          +:+ String.concat EmptyString (map (fun v => v +:+ "=" +:+ Json.nl) vars)
      end.

(** From the question about the web fetch tool to the end. *)
Definition finish (t : template) (options config : list (string * Json.value)) : M unit :=
  let* disableFetch := confirm true in
  let* disableSourcegraph := confirm true in
  let config' :=
    define "options" (Json.Obj (disable_tools disableFetch disableSourcegraph options))
      config in
  let text := Json.stringify (Json.Obj config') in
  let* saveConfig := confirm true in
  let* saved :=
    if saveConfig then
      let* written := save_config refuse text in
      let* saveLocal := confirm false in
      if saveLocal then save_local refuse text else ret tt
    else ret tt in
  let* generateEnv := confirm true in
  if generateEnv then save_env refuse (env_content t) else ret tt.

(** Up to the configuration object: the provider chosen, its template, the
    [options] object and the whole object. *)
Definition gather
  : M (string * template * (list (string * Json.value) * list (string * Json.value))) :=
  let* existing := existing_config in
  let* selected := select PROVIDER_TEMPLATES in
  match selected with
  | None => stop (Threw "TypeError: Cannot read properties of undefined (reading 'key')")
  | Some (key, t) =>
      let* a := ask_answers key in
      let* built := build_config existing key t a in
      ret (key, t, built)
  end.

(** [run()].  What is printed is left out. *)
Definition wizard : M unit :=
  let* g := gather in
  finish g.1.2 g.2.1 g.2.2.

Definition run (inputs : list string) (fs : files) : ended * files :=
  match wizard inputs fs with
  | Next _ _ fs' => (Finished, fs')
  | End e fs' => (e, fs')
  end.

End Run.

End Wizard.

Module WizardInputs.

Import Wizard.

(** A part of the dialogue that writes no file and, when it ends the
    process, ends it with status 1. *)
Definition careful {A} (m : M A) : Prop :=
  forall inputs fs,
    match m inputs fs with
    | Next _ _ fs' => fs' = fs
    | End e fs' => fs' = fs /\ forall c, e = Exited c -> c = 1%Z
    end.

(** A part of the dialogue that ends early only for want of a line or by a
    refused write. *)
Definition patient {A} (m : M A) : Prop :=
  forall inputs fs e fs',
    m inputs fs = End e fs' -> e = Stalled \/ exists what, e = WriteFailed what.

(** An existing configuration with a provider, an option of its own and a
    top-level property, and a reader that knows its text. *)
Definition old_config : Json.value :=
  Json.Obj
    [("options", Json.Obj [("auto_lsp", Json.Bool false); ("debug", Json.Bool true)]);
     ("providers", Json.Obj [("ollama", Json.Obj [("type", Json.Str "openai-compat")])]);
     ("lsp", Json.Obj [])].

Definition old_text : string := Json.stringify old_config.

Definition reader (s : string) : parsed :=
  if String.eqb s old_text then Parsed old_config else SyntaxError.

Definition no_files : files := Files false None None None.

Definition old_files : files := Files true (Some old_text) None None.

(** A system that refuses nothing, and one where the current directory
    cannot be written. *)
Definition writable (what : target) : bool := false.

Definition read_only_here (what : target) : bool :=
  match what with
  | LocalFile | EnvExample => true
  | ConfigDir | ConfigFile => false
  end.

End WizardInputs.

(** * The launcher: finding the binary *)

Section FindBinary.

Import Launcher.

Implicit Types (e : env) (pm : perms) (fs : gmap path bool) (d : path).

Lemma finalPath_app e d : Offline.finalPath e d = d ++ [Offline.getBinaryName e].
Proof.
  unfold Offline.finalPath, path_join, Offline.getBinaryName. simpl.
  unfold join_seg. destruct (is_win32 e); by rewrite decide_False.
Qed.

Lemma disguisedPath_app d : Offline.disguisedPath d = d ++ ["crush.bin"].
Proof. reflexivity. Qed.

Lemma final_ne_disguised e d d' : Offline.finalPath e d ≠ Offline.disguisedPath d'.
Proof.
  rewrite finalPath_app, disguisedPath_app. intros H.
  apply app_inj_tail in H. destruct H as [_ H]. revert H.
  unfold Offline.getBinaryName. by destruct (is_win32 e).
Qed.

Lemma final_inj e d d' : Offline.finalPath e d = Offline.finalPath e d' -> d = d'.
Proof. rewrite !finalPath_app. intros H. apply app_inj_tail in H. tauto. Qed.

Lemma disguised_inj d d' : Offline.disguisedPath d = Offline.disguisedPath d' -> d = d'.
Proof. rewrite !disguisedPath_app. intros H. apply app_inj_tail in H. tauto. Qed.

Lemma existsSync_true fs p : existsSync fs p = true <-> is_Some (fs !! p).
Proof. unfold existsSync. by rewrite bool_decide_eq_true. Qed.

Lemma existsSync_false fs p : existsSync fs p = false <-> fs !! p = None.
Proof.
  unfold existsSync. rewrite bool_decide_eq_false. by rewrite eq_None_not_Some.
Qed.

(** A directory that holds the binary under neither name is passed over. *)
Lemma probe_empty e pm d fs :
  fs !! Offline.finalPath e d = None ->
  fs !! Offline.disguisedPath d = None ->
  Offline.probe e pm d fs = (None, fs).
Proof.
  intros Hf Hd. unfold Offline.probe.
  apply existsSync_false in Hf. apply existsSync_false in Hd.
  by rewrite Hf, Hd.
Qed.

Lemma probe_final e pm d fs :
  is_Some (fs !! Offline.finalPath e d) ->
  Offline.probe e pm d fs = (Some (Offline.finalPath e d), fs).
Proof.
  intros Hf. unfold Offline.probe. apply existsSync_true in Hf. by rewrite Hf.
Qed.

(** One round touches the two names of its own directory only. *)
Lemma probe_frame e pm d fs q :
  q ≠ Offline.finalPath e d -> q ≠ Offline.disguisedPath d ->
  (Offline.probe e pm d fs).2 !! q = fs !! q.
Proof.
  intros Hq1 Hq2. unfold Offline.probe, Offline.rename_catch, renameSync, chmodSync.
  repeat (case_match; simplify_eq; simpl; try done);
    rewrite ?lookup_insert_ne, ?lookup_delete_ne by done; done.
Qed.

Lemma probe_all_skip e pm pre rest fs :
  (forall d, d ∈ pre ->
     fs !! Offline.finalPath e d = None /\ fs !! Offline.disguisedPath d = None) ->
  Offline.probe_all e pm (pre ++ rest) fs = Offline.probe_all e pm rest fs.
Proof.
  induction pre as [|d pre IH]; intros H; [done|].
  simpl. destruct (H d) as [Hf Hd]; [set_solver|].
  rewrite probe_empty by done. apply IH. intros d' Hd'. apply H. set_solver.
Qed.

Lemma probe_result e pm d fs p :
  (Offline.probe e pm d fs).1 = Some p ->
  (p = Offline.finalPath e d \/ p = Offline.disguisedPath d)
  /\ is_Some ((Offline.probe e pm d fs).2 !! p).
Proof.
  unfold Offline.probe, Offline.rename_catch, renameSync, chmodSync.
  repeat (case_match; simplify_eq; simpl; try done); intros [= <-];
    (split; [tauto|]);
    rewrite ?lookup_insert_eq; try done;
    try (by apply existsSync_true).
Qed.

Lemma first_existing_Some fs locs l :
  Corp.first_existing fs locs = Some l <->
  exists pre post, locs = pre ++ l :: post /\ is_Some (fs !! l)
                   /\ forall x, x ∈ pre -> fs !! x = None.
Proof.
  induction locs as [|x locs IH]; simpl.
  - split; [done|]. intros (pre & post & H & _). by destruct pre.
  - destruct (existsSync fs x) eqn:Hx.
    + split.
      * intros [= <-]. exists [], locs. split_and!; [done| by apply existsSync_true |set_solver].
      * intros (pre & post & H & Hl & Hpre). destruct pre as [|y pre]; simplify_eq/=; [done|].
        apply existsSync_true in Hx. rewrite (Hpre y) in Hx by set_solver.
        by destruct Hx.
    + rewrite IH. apply existsSync_false in Hx. split.
      * intros (pre & post & -> & Hl & Hpre). exists (x :: pre), post.
        split_and!; [done|done|]. intros y [->|?]%elem_of_cons; auto.
      * intros (pre & post & H & Hl & Hpre). destruct pre as [|y pre]; simplify_eq/=.
        -- rewrite Hx in Hl. by destruct Hl.
        -- exists pre, post. split_and!; [done|done|]. intros z ?. apply Hpre. set_solver.
Qed.

Lemma first_existing_None fs locs :
  Corp.first_existing fs locs = None <-> forall x, x ∈ locs -> fs !! x = None.
Proof.
  induction locs as [|x locs IH]; simpl; [set_solver|].
  destruct (existsSync fs x) eqn:Hx.
  - apply existsSync_true in Hx. split; [done|]. intros H.
    rewrite (H x) in Hx by set_solver. by destruct Hx.
  - apply existsSync_false in Hx. rewrite IH. split.
    + intros H y [->|?]%elem_of_cons; auto.
    + intros H y ?. apply H. set_solver.
Qed.

Lemma probe_all_result e pm dirs fs p :
  (Offline.probe_all e pm dirs fs).1 = Some p ->
  exists d, d ∈ dirs /\ (p = Offline.finalPath e d \/ p = Offline.disguisedPath d)
            /\ is_Some ((Offline.probe_all e pm dirs fs).2 !! p).
Proof.
  revert fs. induction dirs as [|d dirs IH]; intros fs; simpl; [done|].
  destruct (Offline.probe e pm d fs) as [[q|] fs'] eqn:Hp.
  - simpl. intros [= ->]. pose proof (probe_result e pm d fs p) as H.
    rewrite Hp in H. destruct (H eq_refl) as [H1 H2].
    exists d. split_and!; [set_solver|done|done].
  - intros H. destruct (IH fs' H) as (d' & ? & ? & ?). exists d'.
    split_and!; [set_solver|done|done].
Qed.

(** A directory that holds both names keeps both, wherever it stands in the
    list, and the path returned is not its disguised file. *)
Lemma probe_all_both e pm dirs fs d :
  d ∈ dirs ->
  is_Some (fs !! Offline.finalPath e d) ->
  is_Some (fs !! Offline.disguisedPath d) ->
  (exists p, (Offline.probe_all e pm dirs fs).1 = Some p /\ p ≠ Offline.disguisedPath d)
  /\ (Offline.probe_all e pm dirs fs).2 !! Offline.disguisedPath d
     = fs !! Offline.disguisedPath d
  /\ (Offline.probe_all e pm dirs fs).2 !! Offline.finalPath e d
     = fs !! Offline.finalPath e d.
Proof.
  revert fs. induction dirs as [|d' dirs IH]; intros fs Hin Hf Hd; [by apply elem_of_nil in Hin|].
  simpl. destruct (decide (d' = d)) as [->|Hne].
  - rewrite probe_final by done. simpl. split_and!; [|done|done].
    eexists. split; [done|]. apply final_ne_disguised.
  - assert (Hfr1 : (Offline.probe e pm d' fs).2 !! Offline.disguisedPath d
                   = fs !! Offline.disguisedPath d).
    { apply probe_frame.
      - intros H. symmetry in H. by apply final_ne_disguised in H.
      - intros H. by apply disguised_inj in H. }
    assert (Hfr2 : (Offline.probe e pm d' fs).2 !! Offline.finalPath e d
                   = fs !! Offline.finalPath e d).
    { apply probe_frame.
      - intros H. by apply final_inj in H.
      - apply final_ne_disguised. }
    pose proof (probe_result e pm d' fs) as Hres.
    destruct (Offline.probe e pm d' fs) as [[q|] fs'] eqn:Hp; simpl in *.
    + split_and!; [|done|done]. eexists. split; [done|].
      destruct (Hres q eq_refl) as [[->| ->] _].
      * apply final_ne_disguised.
      * intros H. by apply disguised_inj in H.
    + destruct (IH fs') as (H1 & H2 & H3).
      * apply elem_of_cons in Hin as [?|?]; [by subst|done].
      * by rewrite Hfr2.
      * by rewrite Hfr1.
      * split_and!; [done|congruence|congruence].
Qed.

End FindBinary.

(** C6, as stated, fails on the [@offlinecli] launcher: its list has three
    directories, the conventional nested location is not one of them, and a
    binary that is installed there, and only there, is not found. *)
Lemma C6_offline_misses_nested :
  Launcher.existsSync Inputs.nested_only_fs
    (Inputs.offline_nested_dir Inputs.unscoped_env ++ ["crush"]) = true
  /\ (Inputs.offline_nested_dir Inputs.unscoped_env
       ∉ Launcher.Offline.baseDirs Inputs.unscoped_env)
  /\ length (Launcher.Offline.raw_baseDirs Inputs.unscoped_env) = 3%nat
  /\ (Launcher.Offline.findBinary Inputs.unscoped_env Inputs.permissive
        Inputs.nested_only_fs).1 = None.
Proof.
  split_and!; [by vm_compute| |done|by vm_compute].
  vm_compute. intros H. repeat (apply elem_of_cons in H as [H|H]; [discriminate H|]).
  by apply elem_of_nil in H.
Qed.

(** C6, amended.  The [@anthropic-ai] launcher probes, in this order, the
    nested, the scoped and the hoisted location and, when the manifest of the
    platform package resolves, the location derived from it; it returns the
    first of them at which a file exists, and [null] exactly when none exists.
    The [@offlinecli] launcher probes the scoped and the hoisted directory
    and, when the manifest resolves, the directory derived from it: it returns
    [null] and changes nothing when none of them holds the binary under either
    name, and a path it returns is the proper or the disguised name in one of
    these directories, at which a file then exists. *)
Theorem C6_candidates (e : Launcher.env) (pm : Launcher.perms) (fs : gmap path bool) :
  Launcher.Corp.locations e
    = [Launcher.Corp.nested_location e; Launcher.Corp.scoped_location e;
       Launcher.Corp.hoisted_location e]
      ++ option_list (Launcher.Corp.resolved_location e)
  /\ (forall l, Launcher.Corp.findBinary e fs = Some l <->
        exists pre post, Launcher.Corp.locations e = pre ++ l :: post
                         /\ is_Some (fs !! l) /\ forall x, x ∈ pre -> fs !! x = None)
  /\ (Launcher.Corp.findBinary e fs = None <->
        forall x, x ∈ Launcher.Corp.locations e -> fs !! x = None)
  /\ Launcher.Offline.baseDirs e
       = [Launcher.Offline.scoped_dir e; Launcher.Offline.hoisted_dir e]
         ++ option_list (Launcher.Offline.resolved_dir e)
  /\ ((forall d, d ∈ Launcher.Offline.baseDirs e ->
         fs !! Launcher.Offline.finalPath e d = None
         /\ fs !! Launcher.Offline.disguisedPath d = None) ->
      Launcher.Offline.findBinary e pm fs = (None, fs))
  /\ (forall p, (Launcher.Offline.findBinary e pm fs).1 = Some p ->
        exists d, d ∈ Launcher.Offline.baseDirs e
                  /\ (p = Launcher.Offline.finalPath e d
                      \/ p = Launcher.Offline.disguisedPath d)
                  /\ is_Some ((Launcher.Offline.findBinary e pm fs).2 !! p)).
Proof.
  split_and!.
  - unfold Launcher.Corp.locations, Launcher.Corp.raw_locations. simpl.
    by destruct (Launcher.Corp.resolved_location e).
  - intros l. apply first_existing_Some.
  - apply first_existing_None.
  - unfold Launcher.Offline.baseDirs, Launcher.Offline.raw_baseDirs. simpl.
    by destruct (Launcher.Offline.resolved_dir e).
  - intros H. unfold Launcher.Offline.findBinary.
    rewrite <- (app_nil_r (Launcher.Offline.baseDirs e)).
    by rewrite probe_all_skip.
  - intros p. apply probe_all_result.
Qed.

(** The [@anthropic-ai] launcher finds a binary that only the registry
    resolution reaches, as the fourth candidate. *)
Lemma C6_candidates_witness :
  Launcher.Corp.findBinary Inputs.corp_env Inputs.corp_fs
    = Some ["store"; "crush-corp-darwin-arm64"; "bin"; "crush"]
  /\ length (Launcher.Corp.locations Inputs.corp_env) = 4%nat.
Proof.
  destruct (C6_candidates Inputs.corp_env Inputs.permissive Inputs.corp_fs)
    as (Hl & Hs & _).
  split; [|rewrite Hl; by vm_compute].
  apply Hs. exists (take 3 (Launcher.Corp.locations Inputs.corp_env)), [].
  split_and!; [by vm_compute|vm_compute; by eexists|].
  intros x Hx. vm_compute in Hx.
  repeat (apply elem_of_cons in Hx as [->|Hx]; [by vm_compute|]).
  by apply elem_of_nil in Hx.
Defined.

(** C7.  In a candidate directory that holds both the properly named binary
    and the disguised file, [findBinary] leaves both files as they are and
    returns a path that is not the disguised file; when no earlier candidate
    holds the binary under either name, it returns the properly named binary
    of that directory and changes nothing at all. *)
Theorem C7_proper_name_wins (e : Launcher.env) (pm : Launcher.perms)
    (fs : gmap path bool) (d : path) :
  d ∈ Launcher.Offline.baseDirs e ->
  is_Some (fs !! Launcher.Offline.finalPath e d) ->
  is_Some (fs !! Launcher.Offline.disguisedPath d) ->
  (exists p, (Launcher.Offline.findBinary e pm fs).1 = Some p
             /\ p ≠ Launcher.Offline.disguisedPath d)
  /\ (Launcher.Offline.findBinary e pm fs).2 !! Launcher.Offline.disguisedPath d
     = fs !! Launcher.Offline.disguisedPath d
  /\ (Launcher.Offline.findBinary e pm fs).2 !! Launcher.Offline.finalPath e d
     = fs !! Launcher.Offline.finalPath e d
  /\ (forall pre post,
        Launcher.Offline.baseDirs e = pre ++ d :: post ->
        (forall d', d' ∈ pre ->
           fs !! Launcher.Offline.finalPath e d' = None
           /\ fs !! Launcher.Offline.disguisedPath d' = None) ->
        Launcher.Offline.findBinary e pm fs = (Some (Launcher.Offline.finalPath e d), fs)).
Proof.
  intros Hin Hf Hd. unfold Launcher.Offline.findBinary.
  destruct (probe_all_both e pm _ fs d Hin Hf Hd) as (H1 & H2 & H3).
  split_and!; [done|done|done|].
  intros pre post -> Hpre. rewrite probe_all_skip by done.
  simpl. by rewrite probe_final.
Qed.

Lemma C7_proper_name_wins_witness :
  Launcher.Offline.findBinary Inputs.linux_env Inputs.read_only Inputs.both_fs
    = (Some (Inputs.linux_bin ++ ["crush"]), Inputs.both_fs).
Proof.
  assert (Hin : Inputs.linux_bin ∈ Launcher.Offline.baseDirs Inputs.linux_env).
  { vm_compute. apply elem_of_cons. by right; left. }
  assert (Hf : is_Some (Inputs.both_fs
                          !! Launcher.Offline.finalPath Inputs.linux_env Inputs.linux_bin)).
  { vm_compute. by eexists. }
  assert (Hd : is_Some (Inputs.both_fs !! Launcher.Offline.disguisedPath Inputs.linux_bin)).
  { vm_compute. by eexists. }
  destruct (C7_proper_name_wins Inputs.linux_env Inputs.read_only Inputs.both_fs
              Inputs.linux_bin Hin Hf Hd) as (_ & _ & _ & H).
  apply (H [Launcher.Offline.scoped_dir Inputs.linux_env] []).
  - by vm_compute.
  - intros d' Hd'. apply list_elem_of_singleton in Hd'. subst d'. by vm_compute.
Defined.

(** C8, as stated, fails on Windows: the directory holds the disguised file
    only and the rename is refused, yet the path of the disguised file is not
    what [findBinary] returns (it returns [null]). *)
Lemma C8_windows_rename_refused :
  Inputs.win_disguised_fs !! Launcher.Offline.finalPath Inputs.win_env Inputs.win_bin = None
  /\ Inputs.win_disguised_fs !! Launcher.Offline.disguisedPath Inputs.win_bin = Some false
  /\ Inputs.win_bin ∈ Launcher.Offline.baseDirs Inputs.win_env
  /\ Launcher.rename_refused Inputs.read_only
       (Launcher.Offline.disguisedPath Inputs.win_bin) = true
  /\ (Launcher.Offline.findBinary Inputs.win_env Inputs.read_only
        Inputs.win_disguised_fs).1
     ≠ Some (Launcher.Offline.disguisedPath Inputs.win_bin)
  /\ (Launcher.Offline.findBinary Inputs.win_env Inputs.read_only
        Inputs.win_disguised_fs).1 = None.
Proof.
  split_and!; try by vm_compute.
  vm_compute. apply elem_of_cons. right. apply elem_of_cons. by left.
Qed.

(** C8, amended.  Let a candidate directory hold the disguised file only, no
    earlier candidate holding the binary under either name.  If the rename is
    not refused and, off Windows, neither is the [chmod] of the renamed file,
    [findBinary] returns the properly named file, which then exists (and is
    executable off Windows), and the disguised file is gone.  If the rename is
    refused then, off Windows and with a [chmod] that is not refused, the
    disguised file is still there, is executable, and its path is returned; on
    Windows, or with that [chmod] refused too, the directory is passed over
    unchanged and the search goes on with the candidates after it. *)
Theorem C8_disguised_only (e : Launcher.env) (pm : Launcher.perms) (fs : gmap path bool)
    (d : path) (pre post : list path) (x : bool) :
  Launcher.Offline.baseDirs e = pre ++ d :: post ->
  (forall d', d' ∈ pre ->
     fs !! Launcher.Offline.finalPath e d' = None
     /\ fs !! Launcher.Offline.disguisedPath d' = None) ->
  fs !! Launcher.Offline.finalPath e d = None ->
  fs !! Launcher.Offline.disguisedPath d = Some x ->
  (Launcher.rename_refused pm (Launcher.Offline.disguisedPath d) = false ->
   Launcher.is_win32 e = true
   \/ Launcher.chmod_refused pm (Launcher.Offline.finalPath e d) = false ->
   (Launcher.Offline.findBinary e pm fs).1 = Some (Launcher.Offline.finalPath e d)
   /\ (Launcher.Offline.findBinary e pm fs).2 !! Launcher.Offline.finalPath e d
      = Some (if Launcher.is_win32 e then x else true)
   /\ (Launcher.Offline.findBinary e pm fs).2 !! Launcher.Offline.disguisedPath d = None)
  /\ (Launcher.rename_refused pm (Launcher.Offline.disguisedPath d) = true ->
      Launcher.is_win32 e = false ->
      Launcher.chmod_refused pm (Launcher.Offline.disguisedPath d) = false ->
      (Launcher.Offline.findBinary e pm fs).1 = Some (Launcher.Offline.disguisedPath d)
      /\ (Launcher.Offline.findBinary e pm fs).2 !! Launcher.Offline.disguisedPath d
         = Some true
      /\ (Launcher.Offline.findBinary e pm fs).2 !! Launcher.Offline.finalPath e d = None)
  /\ (Launcher.rename_refused pm (Launcher.Offline.disguisedPath d) = true ->
      Launcher.is_win32 e = true
      \/ Launcher.chmod_refused pm (Launcher.Offline.disguisedPath d) = true ->
      Launcher.Offline.findBinary e pm fs = Launcher.Offline.probe_all e pm post fs).
Proof.
  intros Hdirs Hpre Hf Hd. unfold Launcher.Offline.findBinary.
  rewrite Hdirs, probe_all_skip by done. simpl.
  pose proof (final_ne_disguised e d d) as Hne.
  unfold Launcher.Offline.probe.
  rewrite (proj2 (existsSync_false fs _) Hf).
  rewrite (proj2 (existsSync_true fs _)) by (by rewrite Hd).
  unfold Launcher.renameSync. rewrite Hd.
  split_and!.
  - intros -> Hch. unfold Launcher.chmodSync. rewrite lookup_insert_eq.
    destruct (Launcher.is_win32 e) eqn:Hw; simpl.
    + rewrite lookup_insert_eq, lookup_insert_ne, lookup_delete_eq by done. done.
    + destruct Hch as [?| ->]; [done|]. simpl.
      rewrite lookup_insert_eq, !lookup_insert_ne, lookup_delete_eq by done. done.
  - intros -> Hw Hch. unfold Launcher.Offline.rename_catch, Launcher.chmodSync.
    rewrite Hw, Hd, Hch. simpl.
    rewrite lookup_insert_eq, lookup_insert_ne by done. done.
  - intros -> Hor. unfold Launcher.Offline.rename_catch, Launcher.chmodSync.
    rewrite Hd. destruct (Launcher.is_win32 e); [done|].
    destruct Hor as [?| ->]; done.
Qed.

Lemma C8_disguised_only_witness :
  (Launcher.Offline.findBinary Inputs.linux_env Inputs.permissive Inputs.disguised_fs).1
    = Some (Inputs.linux_bin ++ ["crush"])
  /\ (Launcher.Offline.findBinary Inputs.linux_env Inputs.read_only Inputs.disguised_fs).1
    = None.
Proof.
  assert (Hdirs : Launcher.Offline.baseDirs Inputs.linux_env
                  = [Launcher.Offline.scoped_dir Inputs.linux_env]
                    ++ Inputs.linux_bin :: []) by (by vm_compute).
  assert (Hpre : forall d', d' ∈ [Launcher.Offline.scoped_dir Inputs.linux_env] ->
            Inputs.disguised_fs !! Launcher.Offline.finalPath Inputs.linux_env d' = None
            /\ Inputs.disguised_fs !! Launcher.Offline.disguisedPath d' = None).
  { intros d' Hd'. apply list_elem_of_singleton in Hd'. subst d'. by vm_compute. }
  assert (Hf : Inputs.disguised_fs
               !! Launcher.Offline.finalPath Inputs.linux_env Inputs.linux_bin = None)
    by (by vm_compute).
  assert (Hd : Inputs.disguised_fs !! Launcher.Offline.disguisedPath Inputs.linux_bin
               = Some false) by (by vm_compute).
  split.
  - destruct (C8_disguised_only Inputs.linux_env Inputs.permissive Inputs.disguised_fs
                Inputs.linux_bin _ _ false Hdirs Hpre Hf Hd) as (H & _ & _).
    destruct H as (H & _); [done|by right|]. exact H.
  - destruct (C8_disguised_only Inputs.linux_env Inputs.read_only Inputs.disguised_fs
                Inputs.linux_bin _ _ false Hdirs Hpre Hf Hd) as (_ & _ & H).
    rewrite H; [done|done|by right].
Defined.

(** * The launcher: the child's lifecycle *)

Section LifecycleSteps.

Import Launcher.Lifecycle.

(** The handlers are guarded by [!child.killed]: the first interrupt is
    forwarded and sets [killed]; the child keeps running, the launcher too,
    and the next interrupt is not forwarded. *)
Lemma second_signal_not_forwarded :
  (step spawned (Received "SIGINT")).1 = [KillChild "SIGINT"]
  /\ alive (step spawned (Received "SIGINT")).2 = true
  /\ running (the_child (step spawned (Received "SIGINT")).2) = true
  /\ (step (step spawned (Received "SIGINT")).2 (Received "SIGINT")).1 = []
  /\ (run spawned [Received "SIGINT"; Received "SIGINT"]).1 = [KillChild "SIGINT"].
Proof. split_and!; by vm_compute. Qed.

(** While the launcher runs: an error of the child prints a message and ends
    the launcher with status 1; a normal exit of the child ends it with the
    child's code, 1 when there is none; and an interrupt, terminate or hangup
    signal that reaches the launcher while the child runs is forwarded to the
    child as long as [killed] is false, and is dropped after that. *)
Lemma lifecycle_steps (l : launcher) :
  ended l = None ->
  (forall m,
     step l (ChildError m)
     = ([Print ("Failed to execute Crush: " +:+ m); Exit 1],
        Launcher' (the_child l) (Some (Status 1))))
  /\ (forall code,
        (step l (ChildExit code None)).1 = [Exit (default 1%Z code)]
        /\ ended (step l (ChildExit code None)).2 = Some (Status (default 1%Z code)))
  /\ (forall s, s ∈ forwarded -> running (the_child l) = true ->
        (step l (Received s)).1 = if killed (the_child l) then [] else [KillChild s]).
Proof.
  intros Ha. unfold step. rewrite Ha. split_and!.
  - done.
  - done.
  - intros s Hs Hr. unfold deliver. rewrite bool_decide_eq_true_2 by done.
    unfold on_signal, child_kill. rewrite Hr. by destruct (killed _).
Qed.

(** A child that does not run gets no signal. *)
Lemma on_signal_gone (s : string) (k : bool) :
  on_signal s (Child false k) = ([], Child false k).
Proof. unfold on_signal, child_kill. by destruct k. Qed.

(** The signal that the handler of ['exit'] sends to the launcher. *)
Lemma on_exit_signal (code : option Z) (s : string) (k : bool) :
  s ≠ EmptyString ->
  on_exit code (Some s) (Child false k)
  = ([KillSelf s], Child false k,
     if bool_decide (s ∈ forwarded ∨ s ∈ spared) then Status 0 else Signalled s).
Proof.
  intros Hs. unfold on_exit, truthy, deliver.
  destruct (String.eqb_spec s EmptyString) as [|_]; [done|]. cbn [negb].
  destruct (decide (s ∈ forwarded)) as [Hf|Hf].
  - rewrite (bool_decide_eq_true_2 (s ∈ forwarded)) by done.
    rewrite on_signal_gone. by rewrite bool_decide_eq_true_2 by by left.
  - rewrite (bool_decide_eq_false_2 (s ∈ forwarded)) by done.
    destruct (decide (s ∈ spared)) as [Hp|Hp].
    + rewrite (bool_decide_eq_true_2 (s ∈ spared)) by done.
      by rewrite bool_decide_eq_true_2 by by right.
    + rewrite (bool_decide_eq_false_2 (s ∈ spared)) by done.
      by rewrite bool_decide_eq_false_2 by tauto.
Qed.

Lemma forwarded_not_empty (s : string) : s ∈ forwarded -> s ≠ EmptyString.
Proof.
  unfold forwarded. intros Hin ->.
  repeat (apply elem_of_cons in Hin as [Hin|Hin]; [done|]).
  by apply elem_of_nil in Hin.
Qed.

End LifecycleSteps.

(** C9.  The signal that the launcher sends to itself after its child was
    ended by an interrupt, terminate or hangup signal does not end the
    launcher: the launcher's own handler for that signal takes it, and the
    launcher ends with exit status 0.  Apart from the signals that Node
    spares, a child ended by another signal does end the launcher by that
    signal. *)
Theorem C9_raised_signal_is_swallowed (l : Launcher.Lifecycle.launcher)
    (code : option Z) (s : string) :
  Launcher.Lifecycle.ended l = None ->
  s ≠ EmptyString ->
  Launcher.Lifecycle.step l (Launcher.Lifecycle.ChildExit code (Some s))
  = ([Launcher.Lifecycle.KillSelf s],
     Launcher.Lifecycle.Launcher'
       (Launcher.Lifecycle.Child false
          (Launcher.Lifecycle.killed (Launcher.Lifecycle.the_child l)))
       (Some (if bool_decide (s ∈ Launcher.Lifecycle.forwarded
                             ∨ s ∈ Launcher.Lifecycle.spared)
              then Launcher.Lifecycle.Status 0
              else Launcher.Lifecycle.Signalled s))).
Proof.
  intros Ha Hs. unfold Launcher.Lifecycle.step. rewrite Ha.
  by rewrite on_exit_signal.
Qed.

Lemma C9_raised_signal_is_swallowed_witness :
  Launcher.Lifecycle.run Launcher.Lifecycle.spawned
    [Launcher.Lifecycle.Received "SIGINT";
     Launcher.Lifecycle.ChildExit None (Some "SIGINT")]
  = ([Launcher.Lifecycle.KillChild "SIGINT"; Launcher.Lifecycle.KillSelf "SIGINT"],
     Launcher.Lifecycle.Launcher' (Launcher.Lifecycle.Child false true)
       (Some (Launcher.Lifecycle.Status 0)))
  /\ Launcher.Lifecycle.step Launcher.Lifecycle.spawned
       (Launcher.Lifecycle.ChildExit None (Some "SIGTERM"))
     = ([Launcher.Lifecycle.KillSelf "SIGTERM"],
        Launcher.Lifecycle.Launcher' (Launcher.Lifecycle.Child false false)
          (Some (Launcher.Lifecycle.Status 0)))
  /\ Launcher.Lifecycle.step Launcher.Lifecycle.spawned
       (Launcher.Lifecycle.ChildExit None (Some "SIGKILL"))
     = ([Launcher.Lifecycle.KillSelf "SIGKILL"],
        Launcher.Lifecycle.Launcher' (Launcher.Lifecycle.Child false false)
          (Some (Launcher.Lifecycle.Signalled "SIGKILL"))).
Proof.
  split_and!.
  - by vm_compute.
  - by apply (C9_raised_signal_is_swallowed Launcher.Lifecycle.spawned None "SIGTERM").
  - by apply (C9_raised_signal_is_swallowed Launcher.Lifecycle.spawned None "SIGKILL").
Defined.

(** * The setup wizard *)

(** Without an endpoint, or with a provider type that is no property of the
    table at all, [quickSetup] exits with 1 and writes nothing. *)
Lemma quickSetup_rejects (cf : string) (args : list string) (fs : Setup.fsys) :
  Setup.truthy (args !! 1%nat) = false
  \/ Setup.get_template (Setup.js_or (args !! 0%nat) "azure-foundry") = Setup.Undefined ->
  Setup.how (Setup.quickSetup cf args fs) = Setup.Exited 1
  /\ Setup.files (Setup.quickSetup cf args fs) = fs.
Proof.
  unfold Setup.quickSetup. intros [H|H].
  - by rewrite H.
  - rewrite H. by destruct (Setup.truthy _).
Qed.

Lemma own_property_key (key : string) (tbl : list (string * Setup.template))
    (t : Setup.template) :
  Setup.own_property key tbl = Some t -> key ∈ map fst tbl.
Proof.
  induction tbl as [|[k t'] tbl IH]; simpl; [done|].
  case_decide; [subst; intros _; apply list_elem_of_here|].
  intros Hown. apply list_elem_of_further. by apply IH.
Qed.

(** X7.  The files change only when the endpoint is given and the provider
    type is one of the four templates. *)
Lemma quickSetup_writes_only_valid (cf : string) (args : list string) (fs : Setup.fsys) :
  Setup.files (Setup.quickSetup cf args fs) ≠ fs ->
  Setup.truthy (args !! 1%nat) = true
  /\ Setup.js_or (args !! 0%nat) "azure-foundry"
       ∈ ["azure-openai"; "azure-foundry"; "openai-compat"; "ollama"].
Proof.
  unfold Setup.quickSetup, Setup.get_template.
  destruct (Setup.truthy _); cbn [negb]; [|done].
  destruct (Setup.own_property _ Setup.PROVIDER_TEMPLATES) as [t|] eqn:E.
  - intros _. split; [done|]. by apply own_property_key in E.
  - by case_bool_decide.
Qed.

(** C10 at [crush-setup quick toString https://llm.example/]: [toString] is
    none of the four provider types, the endpoint is given; the lookup finds
    the function inherited from [Object.prototype], the check for an unknown
    type lets it through, the call of its missing [config] throws, and the
    process ends with status 0, nothing written. *)
Theorem C10_inherited_name_exits_zero (cf : string) (fs : Setup.fsys) :
  ("toString" ∉ map fst Setup.PROVIDER_TEMPLATES)
  /\ Setup.how (Setup.quickSetup cf ["toString"; "https://llm.example/"] fs)
     = Setup.Threw "TypeError: template.config is not a function"
  /\ (Setup.main_quick cf ["toString"; "https://llm.example/"] fs).1.1 = 0%Z
  /\ (Setup.main_quick cf ["toString"; "https://llm.example/"] fs).1.2 = fs.
Proof.
  split_and!; try done.
  simpl. intros H. repeat (apply elem_of_cons in H as [H|H]; [discriminate H|]).
  by apply elem_of_nil in H.
Qed.

(** * The builder: the root manifest *)

Section Manifest.

Implicit Types (props : list (string * Json.value)) (v : Json.value) (k : string).

Lemma get_set_eq k v props : Json.get k (Json.set k v props) = Some v.
Proof.
  induction props as [|[k' v'] props IH]; simpl.
  - by rewrite decide_True.
  - case_decide; simpl; [subst; by rewrite decide_True|by rewrite decide_False].
Qed.

Lemma get_set_ne k k' v props :
  k ≠ k' -> Json.get k' (Json.set k v props) = Json.get k' props.
Proof.
  intros Hne. induction props as [|[k'' v''] props IH]; simpl.
  - by rewrite decide_False.
  - case_decide; simpl; [subst; by rewrite !decide_False|].
    case_decide; [done|apply IH].
Qed.

(** Assigning the value a property already has changes nothing. *)
Lemma set_same k v props : Json.get k props = Some v -> Json.set k v props = props.
Proof.
  induction props as [|[k' v'] props IH]; simpl; [done|].
  case_decide; [by intros [= ->]|]. intros Hg. by rewrite IH.
Qed.

Lemma for_in_assign_idem (s : string) v :
  Builder.for_in_assign s (Builder.for_in_assign s v) = Builder.for_in_assign s v.
Proof.
  destruct v as [| | | |items|deps]; simpl; try done.
  - f_equal. rewrite map_map. done.
  - f_equal. rewrite map_map. done.
Qed.

Lemma append_empty (s : string) : s +:+ EmptyString = s.
Proof.
  induction s as [|c s IH]; [done|].
  change (String c (s +:+ EmptyString) = String c s). congruence.
Qed.

Lemma append_assoc (a b c : string) : (a +:+ b) +:+ c = a +:+ (b +:+ c).
Proof.
  induction a as [|x a IH]; [done|].
  change (String x ((a +:+ b) +:+ c) = String x (a +:+ (b +:+ c))). congruence.
Qed.

Lemma joined_literal (s x : string) : Builder.joined [Builder.Lit s] x = s.
Proof. apply append_empty. Qed.

Lemma value_of_literal (s : string) (x : option Json.value) :
  Builder.value_of [Builder.Lit s] x = Some s.
Proof.
  unfold Builder.value_of. cbn [Builder.reads_version existsb orb].
  by rewrite joined_literal.
Qed.

(** The assignments of the script on an object, for a version that is one
    literal. *)
Lemma update_pkg_literal (s : string) props :
  Builder.update_pkg [Builder.Lit s] (Json.Obj props)
  = Builder.Wrote
      (Json.Obj
         (match Json.get "optionalDependencies" (Json.set "version" (Json.Str s) props) with
          | Some deps =>
              Json.set "optionalDependencies" (Builder.for_in_assign s deps)
                (Json.set "version" (Json.Str s) props)
          | None => Json.set "version" (Json.Str s) props
          end)).
Proof.
  unfold Builder.update_pkg. rewrite value_of_literal, joined_literal.
  by destruct (Json.get "optionalDependencies" _).
Qed.

(** The assignments of the script for a version that is one literal, run on
    their own result, change nothing. *)
Lemma update_pkg_idem (s : string) v v' :
  Builder.update_pkg [Builder.Lit s] v = Builder.Wrote v' ->
  Builder.update_pkg [Builder.Lit s] v' = Builder.Wrote v'.
Proof.
  destruct v as [| | | |items|props]; try (by intros [= <-]).
  rewrite update_pkg_literal. intros [= <-]. rewrite update_pkg_literal.
  destruct (Json.get "optionalDependencies" (Json.set "version" (Json.Str s) props))
    as [deps|] eqn:Hdeps.
  - rewrite (set_same "version" (Json.Str s)).
    2:{ rewrite get_set_ne by done. apply get_set_eq. }
    rewrite get_set_eq, for_in_assign_idem.
    by rewrite (set_same "optionalDependencies") by apply get_set_eq.
  - rewrite (set_same "version" (Json.Str s)) by apply get_set_eq.
    by rewrite Hdeps.
Qed.

Lemma plain_not_quote (c : Ascii.ascii) :
  Builder.plain_char c = true -> Builder.is_quote c = false.
Proof.
  unfold Builder.plain_char, Builder.is_quote.
  intros [_ H]%andb_true_iff. apply negb_true_iff, bool_decide_eq_false in H.
  apply bool_decide_eq_false. tauto.
Qed.

Lemma read_terms_literal (v acc : string) (seen : list Builder.term) :
  Builder.plain_version v = true ->
  Builder.read_terms (Builder.InLit acc) seen (v +:+ "'")
  = Some (seen ++ [Builder.Lit (acc +:+ v)]).
Proof.
  revert acc. induction v as [|c v IH]; intros acc; cbn [Builder.plain_version].
  - intros _. by rewrite append_empty.
  - intros [Hc Hv]%andb_true_iff.
    change (String c v +:+ "'") with (String c (v +:+ "'")).
    cbn [Builder.read_terms]. rewrite (plain_not_quote c Hc), Hc, IH by done.
    by rewrite append_assoc.
Qed.

(** A version without quote, backslash, line break or byte above 127 is
    pasted as one literal, whose value it is. *)
Lemma read_pasted_plain (v : string) :
  Builder.plain_version v = true -> Builder.read_pasted v = Some [Builder.Lit v].
Proof.
  intros Hv. unfold Builder.read_pasted.
  change ("'" +:+ v +:+ "'") with (String (Ascii.ascii_of_nat 39) (v +:+ "'")).
  cbn [Builder.read_terms].
  change (Builder.is_quote (Ascii.ascii_of_nat 39)) with true. cbn iota.
  by rewrite read_terms_literal.
Qed.

End Manifest.

(** C5.  Pasted unquoted into the script, a version can read the manifest:
    for the version ['+pkg.version+'x] the script assigns the old version
    with an [x] after it, and the second run does not leave the text of the
    first. *)
Theorem C5_rewrite_not_idempotent
    (other : string -> option string -> Z * option string) :
  Builder.read_pasted "'+pkg.version+'x"
  = Some [Builder.Lit EmptyString; Builder.PkgVersion; Builder.Lit "x"]
  /\ Builder.node_rewrite BuildInputs.drifted_reader other "'+pkg.version+'x"
       (Some (BuildInputs.drifted_text "1" "1"))
     = (0%Z, Some (BuildInputs.drifted_text "1x" "1xx"))
  /\ Builder.node_rewrite BuildInputs.drifted_reader other "'+pkg.version+'x"
       (Some (BuildInputs.drifted_text "1x" "1xx"))
     = (0%Z, Some (BuildInputs.drifted_text "1xx" "1xxx"))
  /\ BuildInputs.drifted_text "1xx" "1xxx" ≠ BuildInputs.drifted_text "1x" "1xx".
Proof. split_and!; by vm_compute. Qed.

(** X22.  For a version without quote, backslash, line break or byte above
    127, and a reader that reads the text the script has written back to the
    value it was written from: running the rewrite on its own result leaves
    the manifest file with the same text, whether the first run wrote the
    file or failed and left it alone. *)
Theorem rewrite_idempotent_plain_version (parse : string -> option Json.value)
    (other : string -> option string -> Z * option string) (v : string)
    (file : option string) :
  Builder.plain_version v = true ->
  (forall s pkg pkg',
     file = Some s -> parse s = Some pkg ->
     Builder.update_pkg [Builder.Lit v] pkg = Builder.Wrote pkg' ->
     parse (Json.stringify pkg' +:+ Json.nl) = Some pkg') ->
  Builder.node_rewrite parse other v (Builder.node_rewrite parse other v file).2
  = Builder.node_rewrite parse other v file.
Proof.
  intros Hv Hread. unfold Builder.node_rewrite. rewrite (read_pasted_plain v Hv).
  destruct file as [s|]; [|done].
  destruct (parse s) as [pkg|] eqn:Hp; cbn [snd]; [|by rewrite Hp].
  assert (Hm : Builder.update_pkg [Builder.Lit v] pkg ≠ Builder.NotModelled).
  { destruct pkg as [| | | |items|props]; try done. by rewrite update_pkg_literal. }
  destruct (Builder.update_pkg [Builder.Lit v] pkg) as [pkg'| |] eqn:Hu; cbn [snd];
    [|by rewrite Hp, Hu|done].
  rewrite (Hread s pkg pkg') by done.
  by rewrite (update_pkg_idem _ _ _ Hu).
Qed.

Lemma rewrite_idempotent_plain_version_witness :
  Builder.node_rewrite BuildInputs.reader BuildInputs.stops "1.2.3"
    (Builder.node_rewrite BuildInputs.reader BuildInputs.stops "1.2.3"
       (Some (BuildInputs.root_text "0.43.0"))).2
  = (0%Z, Some (BuildInputs.root_text "1.2.3")).
Proof.
  rewrite (rewrite_idempotent_plain_version BuildInputs.reader BuildInputs.stops "1.2.3"
             (Some (BuildInputs.root_text "0.43.0"))).
  - by vm_compute.
  - by vm_compute.
  - intros s pkg pkg' [= <-] Hp Hu.
    vm_compute in Hp. injection Hp as <-.
    vm_compute in Hu. injection Hu as <-.
    by vm_compute.
Defined.

(** The loop does not stop with status 0. *)
Lemma buildOne_abort_status (VERSION : string) (net : string -> Builder.fetch)
    (archive_suffix : string) (st st' : Builder.bstate) (c : Z) (log : list string) :
  Builder.buildOne VERSION net archive_suffix st = (Builder.Abort c, st', log) -> c ≠ 0%Z.
Proof.
  unfold Builder.buildOne.
  repeat (case_match; simplify_eq; try done); intros [= <- _ _]; try done.
  match goal with
  | E : negb (bool_decide (_ = 0%Z)) = true |- _ =>
      by apply negb_true_iff, bool_decide_eq_false in E
  end.
Qed.

Lemma buildLoop_abort_status (VERSION : string) (net : string -> Builder.fetch)
    (order : list string) (st st' : Builder.bstate) (c : Z) (log : list string) :
  Builder.buildLoop VERSION net order st = (Builder.Abort c, st', log) -> c ≠ 0%Z.
Proof.
  revert st log. induction order as [|s order IH]; intros st log; simpl; [done|].
  destruct (Builder.buildOne VERSION net s st) as [[[|c1] st1] log1] eqn:E1.
  - destruct (Builder.buildLoop VERSION net order st1) as [[c2 st2] log2] eqn:E2.
    intros [= -> -> _]. by eapply IH.
  - intros [= -> -> _]. by eapply buildOne_abort_status.
Qed.

(** C4.  Pasted unquoted into the script, the version is read as
    JavaScript: with all six downloads succeeding, the run for the version
    [1'+'2] ends with status 0 and leaves the root manifest with the version
    [12], in the package and in every entry of [optionalDependencies]. *)
Theorem C4_pasted_version_is_evaluated
    (other : string -> option string -> Z * option string) :
  Builder.read_pasted "1'+'2" = Some [Builder.Lit "1"; Builder.Lit "2"]
  /\ Builder.status
       (Builder.buildAll BuildInputs.reader other BuildInputs.table_order
          (BuildInputs.answer (BuildInputs.release "1'+'2")) ["build.sh"; "1'+'2"] ∅
          (Some (BuildInputs.root_text "0.43.0"))) = 0%Z
  /\ length
       (Builder.platforms_built
          (Builder.buildAll BuildInputs.reader other BuildInputs.table_order
             (BuildInputs.answer (BuildInputs.release "1'+'2")) ["build.sh"; "1'+'2"] ∅
             (Some (BuildInputs.root_text "0.43.0")))) = 6%nat
  /\ Builder.manifest
       (Builder.buildAll BuildInputs.reader other BuildInputs.table_order
          (BuildInputs.answer (BuildInputs.release "1'+'2")) ["build.sh"; "1'+'2"] ∅
          (Some (BuildInputs.root_text "0.43.0")))
     = Some (BuildInputs.root_text "12")
  /\ BuildInputs.root_text "12" ≠ BuildInputs.root_text "1'+'2".
Proof. split_and!; by vm_compute. Qed.

(** X21.  For a version without quote, backslash, line break or byte above
    127 and a root
    manifest that holds a JSON object: when the script has run to its end with
    status 0, the manifest file is the JSON text, followed by a line break, of
    that object with its [version] set to the new version and every entry of
    its [optionalDependencies] object set to the new version, the names of the
    entries and all other properties as before; when the script has stopped
    with another status, the manifest file is as it was. *)
Theorem root_manifest_plain_version (parse : string -> option Json.value)
    (other : string -> option string -> Z * option string) (order : list string)
    (net : string -> Builder.fetch) (argv : list string) (dist0 : Builder.tree)
    (text v : string) (props : list (string * Json.value)) :
  argv !! 1%nat = Some v ->
  Builder.plain_version v = true ->
  parse text = Some (Json.Obj props) ->
  (Builder.status (Builder.buildAll parse other order net argv dist0 (Some text)) = 0%Z ->
   exists props',
     Builder.manifest (Builder.buildAll parse other order net argv dist0 (Some text))
     = Some (Json.stringify (Json.Obj props') +:+ Json.nl)
     /\ Json.get "version" props' = Some (Json.Str v)
     /\ (forall deps,
           Json.get "optionalDependencies" props = Some (Json.Obj deps) ->
           Json.get "optionalDependencies" props'
           = Some (Json.Obj (map (fun kv : string * Json.value => (kv.1, Json.Str v)) deps)))
     /\ (forall k, k ≠ "version" -> k ≠ "optionalDependencies" ->
           Json.get k props' = Json.get k props))
  /\ (Builder.status (Builder.buildAll parse other order net argv dist0 (Some text)) ≠ 0%Z ->
      Builder.manifest (Builder.buildAll parse other order net argv dist0 (Some text))
      = Some text).
Proof.
  intros Hv Hplain Hparse. unfold Builder.buildAll. rewrite Hv. simpl.
  destruct (String.eqb v EmptyString); [by split|].
  destruct (Builder.buildLoop _ _ _ _) as [[[|c] st] log] eqn:Hloop.
  2:{ simpl. split; [|done]. intros ->. by apply buildLoop_abort_status in Hloop. }
  unfold Builder.node_rewrite.
  rewrite (read_pasted_plain v Hplain), Hparse, update_pkg_literal. simpl.
  destruct (Json.get "optionalDependencies" (Json.set "version" (Json.Str v) props))
    as [deps|] eqn:Hdeps; simpl.
  - split; [|done]. intros _. eexists. split; [done|].
    rewrite get_set_ne in Hdeps by done.
    split_and!.
    + rewrite get_set_ne by done. apply get_set_eq.
    + intros deps' Hd'. rewrite get_set_eq. rewrite Hdeps in Hd'. by injection Hd' as ->.
    + intros k Hk1 Hk2. by rewrite !get_set_ne.
  - split; [|done]. intros _. eexists. split; [done|].
    rewrite get_set_ne in Hdeps by done.
    split_and!.
    + apply get_set_eq.
    + intros deps'. by rewrite Hdeps.
    + intros k Hk1 Hk2. by rewrite get_set_ne.
Qed.

Lemma root_manifest_plain_version_witness :
  Builder.status
    (Builder.buildAll BuildInputs.reader BuildInputs.stops BuildInputs.table_order
       (BuildInputs.answer (BuildInputs.release "1.2.3")) ["build.sh"; "1.2.3"] ∅
       (Some (BuildInputs.root_text "0.43.0"))) = 0%Z
  /\ Builder.manifest
       (Builder.buildAll BuildInputs.reader BuildInputs.stops BuildInputs.table_order
          (BuildInputs.answer (BuildInputs.release "1.2.3")) ["build.sh"; "1.2.3"] ∅
          (Some (BuildInputs.root_text "0.43.0")))
     = Some (BuildInputs.root_text "1.2.3")
  /\ length
       (Builder.platforms_built
          (Builder.buildAll BuildInputs.reader BuildInputs.stops BuildInputs.table_order
             (BuildInputs.answer (BuildInputs.release "1.2.3")) ["build.sh"; "1.2.3"] ∅
             (Some (BuildInputs.root_text "0.43.0")))) = 6%nat.
Proof.
  assert (Hs : Builder.status
    (Builder.buildAll BuildInputs.reader BuildInputs.stops BuildInputs.table_order
       (BuildInputs.answer (BuildInputs.release "1.2.3")) ["build.sh"; "1.2.3"] ∅
       (Some (BuildInputs.root_text "0.43.0"))) = 0%Z) by (by vm_compute).
  split_and!; [done| |by vm_compute].
  destruct (root_manifest_plain_version BuildInputs.reader BuildInputs.stops
              BuildInputs.table_order
              (BuildInputs.answer (BuildInputs.release "1.2.3")) ["build.sh"; "1.2.3"] ∅
              (BuildInputs.root_text "0.43.0") "1.2.3" _ eq_refl eq_refl eq_refl)
    as [H _].
  destruct (H Hs) as (props' & Hm & _). rewrite Hm. by vm_compute.
Defined.

(** * The builder: extraction *)

(** C1 at the Linux x86_64 archive of version 1.2.3 with the members
    [weird/inner/crush] and [weird/LICENSE.md].  The first strategy selects
    the binary, ends with status 0 and leaves it at [bin/inner/crush], so the
    fallback is not run; the check for [bin/crush] fails, the package
    directory is removed and the platform is not built.  The fallback, run on
    its own on this archive, would move the binary to [bin/crush] and leave
    [weird/LICENSE.md] in the package directory, the folder not being named
    [crush_*]. *)
Theorem C1_nested_binary_not_extracted :
  (Builder.tar_wild_strip1 ["crush_1.2.3_Linux_x86_64.tar.gz"]
     (Builder.pkg_dir "linux-x64" ++ ["bin"]) "crush" BuildInputs.staged).1 = 0%Z
  /\ Builder.is_file
       (Builder.extract false ["crush_1.2.3_Linux_x86_64.tar.gz"]
          (Builder.pkg_dir "linux-x64") "crush" BuildInputs.staged).2
       (Builder.pkg_dir "linux-x64" ++ ["bin"; "inner"; "crush"]) = true
  /\ Builder.is_file
       (Builder.extract false ["crush_1.2.3_Linux_x86_64.tar.gz"]
          (Builder.pkg_dir "linux-x64") "crush" BuildInputs.staged).2
       (Builder.pkg_dir "linux-x64" ++ ["bin"; "crush"]) = false
  /\ (Builder.buildOne "1.2.3"
        (BuildInputs.answer
           (BuildInputs.release_with "1.2.3" (Builder.Fetched BuildInputs.deep_tgz)))
        "Linux_x86_64" (Builder.BState BuildInputs.clean [])).1.1 = Builder.Continue
  /\ Builder.built
       (Builder.buildOne "1.2.3"
          (BuildInputs.answer
             (BuildInputs.release_with "1.2.3" (Builder.Fetched BuildInputs.deep_tgz)))
          "Linux_x86_64" (Builder.BState BuildInputs.clean [])).1.2 = []
  /\ BuildInputs.below (Builder.pkg_dir "linux-x64")
       (Builder.fs
          (Builder.buildOne "1.2.3"
             (BuildInputs.answer
                (BuildInputs.release_with "1.2.3" (Builder.Fetched BuildInputs.deep_tgz)))
             "Linux_x86_64" (Builder.BState BuildInputs.clean [])).1.2) = []
  /\ (Builder.fallback_tar ["crush_1.2.3_Linux_x86_64.tar.gz"]
        (Builder.pkg_dir "linux-x64") "crush" BuildInputs.staged).1 = 0%Z
  /\ Builder.is_file
       (Builder.fallback_tar ["crush_1.2.3_Linux_x86_64.tar.gz"]
          (Builder.pkg_dir "linux-x64") "crush" BuildInputs.staged).2
       (Builder.pkg_dir "linux-x64" ++ ["bin"; "crush"]) = true
  /\ Builder.is_file
       (Builder.fallback_tar ["crush_1.2.3_Linux_x86_64.tar.gz"]
          (Builder.pkg_dir "linux-x64") "crush" BuildInputs.staged).2
       (Builder.pkg_dir "linux-x64" ++ ["weird"; "LICENSE.md"]) = true.
Proof. split_and!; by vm_compute. Qed.

(** The zip branch on the same layout: the first strategy drops the
    directories of the member, the binary arrives at [bin/crush.exe], and the
    package holds the binary, the manifest and the description only. *)
Lemma zip_nested_binary_extracted :
  Builder.built
    (Builder.buildOne "1.2.3" (BuildInputs.answer (BuildInputs.deep_windows "1.2.3"))
       "Windows_x86_64" (Builder.BState BuildInputs.clean [])).1.2 = ["win32-x64"]
  /\ forall q,
       q ∈ BuildInputs.below (Builder.pkg_dir "win32-x64")
             (Builder.fs
                (Builder.buildOne "1.2.3"
                   (BuildInputs.answer (BuildInputs.deep_windows "1.2.3"))
                   "Windows_x86_64" (Builder.BState BuildInputs.clean [])).1.2) <->
       q ∈ [Builder.pkg_dir "win32-x64";
            Builder.pkg_dir "win32-x64" ++ ["bin"];
            Builder.pkg_dir "win32-x64" ++ ["bin"; "crush.exe"];
            Builder.pkg_dir "win32-x64" ++ ["package.json"];
            Builder.pkg_dir "win32-x64" ++ ["README.md"]].
Proof.
  split; [by vm_compute|]. intros q.
  replace (BuildInputs.below _ _)
    with [Builder.pkg_dir "win32-x64" ++ ["package.json"];
          Builder.pkg_dir "win32-x64" ++ ["bin"];
          Builder.pkg_dir "win32-x64" ++ ["bin"; "crush.exe"];
          Builder.pkg_dir "win32-x64" ++ ["README.md"];
          Builder.pkg_dir "win32-x64"] by (by vm_compute).
  rewrite !elem_of_cons, !elem_of_nil. tauto.
Qed.

(** The fallback of the zip branch removes the whole of [temp]. *)
Lemma fallback_zip_clears_temp (archive dir : path) (name : string) (t : Builder.tree)
    (q : path) :
  (Builder.fallback_zip archive dir name t).1 = 0%Z ->
  (dir ++ ["temp"]) `prefix_of` q ->
  (Builder.fallback_zip archive dir name t).2 !! q = None.
Proof.
  unfold Builder.fallback_zip, Builder.and_then.
  repeat (case_decide; simpl; try done). intros _ Hq.
  unfold Builder.rm_rf. apply map_lookup_filter_None. right. intros x _. simpl. tauto.
Qed.

(** C3 at version 1.2.3 with a Linux x86_64 download that succeeds and is not
    an archive, that platform first in the loop, the other five archives
    available and well formed.  All three strategies fail, [set -e] ends the
    script with the status of [tar]: status 2, no platform built, no package
    directory but the unfinished one, the root manifest not rewritten.  The
    same run without that platform ends with status 0 and five platforms. *)
Theorem C3_failed_extraction_aborts :
  Builder.status
    (Builder.buildAll BuildInputs.reader BuildInputs.stops BuildInputs.table_order
       (BuildInputs.answer
          (BuildInputs.release_with "1.2.3" (Builder.Fetched (Builder.Blob 0))))
       ["build.sh"; "1.2.3"] ∅ (Some (BuildInputs.root_text "0.43.0"))) = 2%Z
  /\ Builder.platforms_built
       (Builder.buildAll BuildInputs.reader BuildInputs.stops BuildInputs.table_order
          (BuildInputs.answer
             (BuildInputs.release_with "1.2.3" (Builder.Fetched (Builder.Blob 0))))
          ["build.sh"; "1.2.3"] ∅ (Some (BuildInputs.root_text "0.43.0"))) = []
  /\ Builder.manifest
       (Builder.buildAll BuildInputs.reader BuildInputs.stops BuildInputs.table_order
          (BuildInputs.answer
             (BuildInputs.release_with "1.2.3" (Builder.Fetched (Builder.Blob 0))))
          ["build.sh"; "1.2.3"] ∅ (Some (BuildInputs.root_text "0.43.0")))
     = Some (BuildInputs.root_text "0.43.0")
  /\ BuildInputs.below (Builder.pkg_dir "linux-arm64")
       (Builder.dist
          (Builder.buildAll BuildInputs.reader BuildInputs.stops BuildInputs.table_order
             (BuildInputs.answer
                (BuildInputs.release_with "1.2.3" (Builder.Fetched (Builder.Blob 0))))
             ["build.sh"; "1.2.3"] ∅ (Some (BuildInputs.root_text "0.43.0")))) = []
  /\ Builder.status
       (Builder.buildAll BuildInputs.reader BuildInputs.stops (tail BuildInputs.table_order)
          (BuildInputs.answer
             (BuildInputs.release_with "1.2.3" (Builder.Fetched (Builder.Blob 0))))
          ["build.sh"; "1.2.3"] ∅ (Some (BuildInputs.root_text "0.43.0"))) = 0%Z
  /\ Builder.platforms_built
       (Builder.buildAll BuildInputs.reader BuildInputs.stops (tail BuildInputs.table_order)
          (BuildInputs.answer
             (BuildInputs.release_with "1.2.3" (Builder.Fetched (Builder.Blob 0))))
          ["build.sh"; "1.2.3"] ∅ (Some (BuildInputs.root_text "0.43.0")))
     = ["linux-arm64"; "darwin-x64"; "darwin-arm64"; "win32-x64"; "win32-arm64"].
Proof. split_and!; by vm_compute. Qed.

(** * The builder: what one platform leaves alone *)

Section Footprint.

Import Builder.

(** A package directory [D], and a path [q] that is neither in it nor above
    it. *)
Variables (D q : path).
Hypothesis HDq : ¬ D `prefix_of` q.
Hypothesis HqD : ¬ q `prefix_of` D.

Implicit Types (t : tree) (d root : path).

Lemma outside_below d : D `prefix_of` d -> ¬ q `prefix_of` d.
Proof.
  intros HDd Hqd. destruct (prefix_weak_total _ _ _ HDd Hqd); tauto.
Qed.

Lemma outside_ne d : D `prefix_of` d -> d ≠ q.
Proof. intros HDd ->. tauto. Qed.

Lemma ancestors_prefix (n : nat) d a : a ∈ ancestors n d -> a `prefix_of` d.
Proof.
  revert d. induction n as [|n IH]; intros d; simpl.
  - intros ->%list_elem_of_singleton. done.
  - intros [->|Ha]%elem_of_cons; [done|].
    apply IH in Ha. etrans; [done|].
    destruct d as [|x d] using rev_ind; [done|].
    rewrite removelast_last. by apply prefix_app_r.
Qed.

Lemma mkdir_one_other a t : a ≠ q -> mkdir_one a t !! q = t !! q.
Proof.
  intros Ha. unfold mkdir_one. destruct (t !! a); [done|]. by rewrite lookup_insert_ne.
Qed.

Lemma mkdir_p_outside d t : ¬ q `prefix_of` d -> mkdir_p d t !! q = t !! q.
Proof.
  intros Hqd. unfold mkdir_p.
  assert (H : forall a, a ∈ ancestors (length d) d -> a ≠ q).
  { intros a Ha%ancestors_prefix ->. tauto. }
  induction (ancestors (length d) d) as [|a l IH]; simpl; [done|].
  rewrite mkdir_one_other by (apply H; set_solver).
  apply IH. intros a' Ha'. apply H. set_solver.
Qed.

Lemma put_outside root t (m : path * nat) :
  D `prefix_of` root -> put root t m !! q = t !! q.
Proof.
  intros HD. unfold put.
  rewrite lookup_insert_ne by (apply outside_ne; by apply prefix_app_r).
  apply mkdir_p_outside, outside_below. by apply prefix_app_r.
Qed.

Lemma put_all_outside root ms t :
  D `prefix_of` root -> put_all root ms t !! q = t !! q.
Proof.
  intros HD. unfold put_all. revert t.
  induction ms as [|m ms IH]; intros t; simpl; [done|].
  by rewrite IH, put_outside.
Qed.

Lemma rm_rf_absent d t p : t !! p = None -> rm_rf d t !! p = None.
Proof. intros Ht. unfold rm_rf. apply map_lookup_filter_None. by left. Qed.

Lemma unzip_put_outside root (acc : bool * tree) (m : path * nat) :
  D `prefix_of` root -> (unzip_put root acc m).2 !! q = acc.2 !! q.
Proof.
  intros HD. unfold unzip_put. destruct (acc.2 !! (root ++ m.1)); [done|].
  by apply put_outside.
Qed.

Lemma unzip_members_outside root ms t :
  D `prefix_of` root -> (unzip_members root ms t).2 !! q = t !! q.
Proof.
  intros HD. unfold unzip_members. cbn [snd].
  change t with (false, t).2 at 2. generalize (false, t).
  induction ms as [|m ms IH]; intros acc; simpl; [done|].
  by rewrite IH, unzip_put_outside.
Qed.

Lemma mv_into_absent dstdir t src :
  D `prefix_of` dstdir -> t !! q = None -> (mv_into dstdir t src).2 !! q = None.
Proof.
  intros HD Ht. unfold mv_into.
  destruct (last src) as [n|]; [|done]. destruct (t !! src) as [x|]; [|done].
  match goal with |- context [if ?b then _ else _] => destruct b end; [done|].
  cbn [snd]. induction (List.filter _ _) as [|kv l IH]; simpl.
  - by apply rm_rf_absent.
  - rewrite lookup_insert_ne; [done|].
    apply outside_ne. by do 2 apply prefix_app_r.
Qed.

Lemma find_mv_absent root name dstdir t :
  D `prefix_of` dstdir -> t !! q = None -> (find_mv root name dstdir t).2 !! q = None.
Proof.
  intros HD. unfold find_mv. cbn [snd].
  generalize (merge_sort shorter (map fst (find_named root name t))). intros l.
  change t with (false, t).2 at 1. generalize (false, t).
  induction l as [|src l IH]; intros acc Ht; simpl; [done|].
  apply IH. unfold find_visit. cbn [snd]. by apply mv_into_absent.
Qed.

Lemma find_rm_crush_dirs_absent pkg t :
  t !! q = None -> (find_rm_crush_dirs pkg t).2 !! q = None.
Proof.
  unfold find_rm_crush_dirs. simpl.
  generalize (List.filter (is_crush_dir pkg) (map_to_list t)). intros l. revert t.
  induction l as [|kv l IH]; intros t Ht; simpl; [done|].
  apply IH. by apply rm_rf_absent.
Qed.

End Footprint.

Section ExtractFootprint.

Import Builder.

Variables (D q : path).
Hypothesis HDq : ¬ D `prefix_of` q.
Hypothesis HqD : ¬ q `prefix_of` D.

Implicit Types (t : tree) (archive : path) (name : string).

Local Ltac tool_absent :=
  intros; repeat (case_match; cbn [snd]; try done);
  rewrite ?(unzip_members_outside D q), ?(put_all_outside D q), ?(mkdir_p_outside D q)
    by (try done; try (by apply prefix_app_r); try (by apply (outside_below D q), prefix_app_r));
  done.

Lemma tar_wild_strip1_absent archive name t :
  t !! q = None -> (tar_wild_strip1 archive (D ++ ["bin"]) name t).2 !! q = None.
Proof. unfold tar_wild_strip1. tool_absent. Qed.

Lemma tar_exact_absent archive name t :
  t !! q = None -> (tar_exact archive (D ++ ["bin"]) name t).2 !! q = None.
Proof. unfold tar_exact. tool_absent. Qed.

Lemma tar_all_absent archive t :
  t !! q = None -> (tar_all archive D t).2 !! q = None.
Proof. unfold tar_all. tool_absent. Qed.

Lemma unzip_junk_wild_absent archive name t :
  t !! q = None -> (unzip_junk_wild archive (D ++ ["bin"]) name t).2 !! q = None.
Proof. unfold unzip_junk_wild. tool_absent. Qed.

Lemma unzip_junk_exact_absent archive name t :
  t !! q = None -> (unzip_junk_exact archive (D ++ ["bin"]) name t).2 !! q = None.
Proof. unfold unzip_junk_exact. tool_absent. Qed.

Lemma unzip_all_absent archive t :
  t !! q = None -> (unzip_all archive (D ++ ["temp"]) t).2 !! q = None.
Proof. unfold unzip_all. tool_absent. Qed.

Lemma fallback_zip_absent archive name t :
  t !! q = None -> (fallback_zip archive D name t).2 !! q = None.
Proof.
  intros Ht. unfold fallback_zip, and_then.
  pose proof (unzip_all_absent archive t Ht) as H1.
  case_decide; [|done]. 
  pose proof (find_mv_absent D q HDq (D ++ ["temp"]) name (D ++ ["bin"]) _
                (prefix_app_r _ _ _ (reflexivity D)) H1) as H2.
  case_decide; [|done]. simpl. by apply rm_rf_absent.
Qed.

Lemma fallback_tar_absent archive name t :
  t !! q = None -> (fallback_tar archive D name t).2 !! q = None.
Proof.
  intros Ht. unfold fallback_tar, and_then.
  pose proof (tar_all_absent archive t Ht) as H1.
  case_decide; [|done].
  pose proof (find_mv_absent D q HDq D name (D ++ ["bin"]) _
                (prefix_app_r _ _ _ (reflexivity D)) H1) as H2.
  case_decide; [|done]. by apply find_rm_crush_dirs_absent.
Qed.

(** The extraction creates nothing outside the package directory. *)
Lemma extract_absent (win : bool) archive name t :
  t !! q = None -> (extract win archive D name t).2 !! q = None.
Proof.
  intros Ht. unfold extract, or_else. destruct win.
  - pose proof (unzip_junk_wild_absent archive name t Ht) as H1.
    case_decide; [done|].
    pose proof (unzip_junk_exact_absent archive name _ H1) as H2.
    case_decide; [done|]. by apply fallback_zip_absent.
  - pose proof (tar_wild_strip1_absent archive name t Ht) as H1.
    case_decide; [done|].
    pose proof (tar_exact_absent archive name _ H1) as H2.
    case_decide; [done|]. by apply fallback_tar_absent.
Qed.

End ExtractFootprint.

(** * The builder: a download that fails *)

Section FailedDownload.

Import Builder.

Implicit Types (st : bstate) (t : tree) (net : string -> fetch) (q : path)
  (v s npm os : string).

Lemma append_cancel (p a b : string) : p +:+ a = p +:+ b -> a = b.
Proof. induction p as [|c p IH]; simpl; [done|]. intros [= H]. by apply IH. Qed.

(** The keys of [PLATFORMS]. *)
Lemma assoc_PLATFORMS s npm :
  assoc s PLATFORMS = Some npm ->
  (s, npm) ∈ PLATFORMS.
Proof.
  unfold PLATFORMS. simpl.
  repeat (case_decide; [intros [= <-]; subst; set_solver|]). done.
Qed.

Local Ltac platforms H :=
  apply assoc_PLATFORMS in H; unfold PLATFORMS in H;
  repeat (apply elem_of_cons in H as [H|H]; [simplify_eq|]);
  try (by apply elem_of_nil in H).

Lemma archive_name_inj v s s' npm npm' (w w' : bool) :
  assoc s PLATFORMS = Some npm -> assoc s' PLATFORMS = Some npm' ->
  archive_name v s w = archive_name v s' w' -> s = s'.
Proof.
  intros H H' Heq. unfold archive_name in Heq. simpl in Heq.
  injection Heq as Heq. apply append_cancel in Heq.
  platforms H; platforms H'; try done; destruct w, w'; by simplify_eq/=.
Qed.

Lemma PLATFORMS_inj s s' npm :
  assoc s PLATFORMS = Some npm -> assoc s' PLATFORMS = Some npm -> s = s'.
Proof. intros H H'. platforms H; platforms H'; done. Qed.

Lemma pkg_dir_prefix_inj npm npm' q :
  pkg_dir npm `prefix_of` q -> pkg_dir npm' `prefix_of` q -> npm = npm'.
Proof.
  intros [k ->] [k' Hk]. unfold pkg_dir in Hk. by simplify_eq/=.
Qed.

Lemma download_absent net v name t q :
  q ≠ [name] -> t !! q = None -> (download net v name t).1.2 !! q = None.
Proof.
  intros Hq Ht. unfold download, curl, write. destruct (is_file t [name]); [done|].
  repeat (case_match; simpl; try done); by rewrite lookup_insert_ne.
Qed.

(** What one round of the loop leaves absent: every path that is not the
    archive of the platform and is neither in nor above its package
    directory. *)
Lemma buildOne_absent v net s st npm q :
  assoc s PLATFORMS = Some npm ->
  ¬ pkg_dir npm `prefix_of` q ->
  ¬ q `prefix_of` pkg_dir npm ->
  (forall w, q ≠ [archive_name v s w]) ->
  fs st !! q = None ->
  fs (buildOne v net s st).1.2 !! q = None.
Proof.
  intros Hs HDq HqD Hname Hq. unfold buildOne. rewrite Hs.
  destruct (assoc npm OS_MAP) as [os|]; [|done].
  destruct (assoc npm CPU_MAP) as [cpu|]; [|done].
  set (w := bool_decide (os = "win32")).
  pose proof (download_absent net v (archive_name v s w) (fs st) q (Hname w) Hq) as Hdl.
  destruct (download net v (archive_name v s w) (fs st)) as [[dl t1] log1].
  cbn [fst snd] in Hdl.
  destruct (negb (bool_decide (dl = 0%Z))); cbn [fst snd fs].
  { unfold rm_f. apply lookup_delete_None. by right. }
  assert (H2 : mkdir_p (pkg_dir npm ++ ["bin"]) t1 !! q = None).
  { rewrite (mkdir_p_outside (pkg_dir npm) q); try done.
    apply (outside_below (pkg_dir npm) q); try done. by apply prefix_app_r. }
  pose proof (extract_absent (pkg_dir npm) q HDq HqD w [archive_name v s w]
                (binary_name w) _ H2) as H3.
  destruct (extract w [archive_name v s w] (pkg_dir npm) (binary_name w)
              (mkdir_p (pkg_dir npm ++ ["bin"]) t1)) as [ex t3].
  cbn [fst snd] in H3.
  destruct (negb (bool_decide (ex = 0%Z))); cbn [fst snd fs]; [done|].
  destruct (negb (is_file t3 _)); cbn [fst snd fs].
  { by apply rm_rf_absent. }
  unfold write.
  rewrite !lookup_insert_ne; [done| |];
    apply (outside_ne (pkg_dir npm) q); try done; by apply prefix_app_r.
Qed.

(** One round adds its own platform to [BUILT_PLATFORMS], or nothing. *)
Lemma buildOne_built v net s st npm :
  assoc s PLATFORMS = Some npm ->
  built (buildOne v net s st).1.2 = built st
  \/ built (buildOne v net s st).1.2 = built st ++ [npm].
Proof.
  intros Hs. unfold buildOne. rewrite Hs.
  repeat (case_match; simpl; try tauto).
Qed.

Lemma buildOne_unknown v net s st :
  assoc s PLATFORMS = None -> buildOne v net s st = (Abort 1, st, []).
Proof. intros Hs. unfold buildOne. by rewrite Hs. Qed.

(** The round of a platform whose download fails: [continue], and the state
    as before. *)
Lemma buildOne_failed_download v net s st npm os partial :
  assoc s PLATFORMS = Some npm ->
  assoc npm OS_MAP = Some os ->
  net (download_url v (archive_name v s (bool_decide (os = "win32")))) = Failed partial ->
  fs st !! [archive_name v s (bool_decide (os = "win32"))] = None ->
  (buildOne v net s st).1 = (Continue, st).
Proof.
  intros Hs Hos Hnet Hfs. unfold buildOne. rewrite Hs, Hos.
  assert (Hcpu : is_Some (assoc npm CPU_MAP)).
  { platforms Hs; by eexists. }
  destruct Hcpu as [cpu ->].
  unfold download, is_file, curl. rewrite Hfs, Hnet.
  destruct st as [t b]. simpl in *.
  destruct partial as [d|]; simpl; f_equal; f_equal; unfold rm_f, write.
  - rewrite delete_insert_eq. by apply delete_id.
  - by apply delete_id.
Qed.

End FailedDownload.

Section SkippedPlatform.

Import Builder.

(** A platform [P] of the table whose archive cannot be fetched. *)
Variables (v : string) (net : string -> fetch) (P npmP osP : string)
  (partial : option fdata).
Hypothesis HP : assoc P PLATFORMS = Some npmP.
Hypothesis Hos : assoc npmP OS_MAP = Some osP.
Hypothesis Hnet :
  net (download_url v (archive_name v P (bool_decide (osP = "win32")))) = Failed partial.

Local Abbreviation nameP := (archive_name v P (bool_decide (osP = "win32"))).

(** Neither the archive of [P] nor anything in its package directory exists,
    and [P] is not in [BUILT_PLATFORMS]: every round of the loop keeps it
    so. *)
Lemma buildOne_keeps_skipped (s : string) (st : bstate) :
  fs st !! [nameP] = None ->
  (forall q, pkg_dir npmP `prefix_of` q -> fs st !! q = None) ->
  npmP ∉ built st ->
  fs (buildOne v net s st).1.2 !! [nameP] = None
  /\ (forall q, pkg_dir npmP `prefix_of` q -> fs (buildOne v net s st).1.2 !! q = None)
  /\ npmP ∉ built (buildOne v net s st).1.2.
Proof.
  intros Ha Hd Hb. destruct (decide (s = P)) as [->|Hne].
  { by rewrite (buildOne_failed_download v net P st npmP osP partial). }
  destruct (assoc s PLATFORMS) as [npm|] eqn:Hs.
  2:{ by rewrite buildOne_unknown. }
  assert (Hnpm : npm ≠ npmP).
  { intros ->. apply Hne. by eapply PLATFORMS_inj. }
  split_and!.
  - apply (buildOne_absent v net s st npm); try done.
    + intros Hpre. apply prefix_length in Hpre. simpl in Hpre. lia.
    + intros [k Hk]. unfold archive_name, pkg_dir in Hk. simplify_eq/=.
    + intros w Heq. apply Hne. symmetry.
      apply (archive_name_inj v P s npmP npm (bool_decide (osP = "win32")) w HP Hs).
      congruence.
  - intros q Hq. apply (buildOne_absent v net s st npm); try done.
    + intros Hpre. apply Hnpm. by eapply pkg_dir_prefix_inj.
    + intros Hpre. apply Hnpm. symmetry.
      eapply (pkg_dir_prefix_inj _ _ (pkg_dir npm)); [by etrans|done].
    + intros w ->. apply prefix_length in Hq. simpl in Hq. lia.
    + by apply Hd.
  - destruct (buildOne_built v net s st npm Hs) as [-> | ->]; [done|].
    intros [?|Hin]%elem_of_app; [done|].
    by apply list_elem_of_singleton in Hin.
Qed.

Lemma buildLoop_keeps_skipped (order : list string) (st : bstate) :
  fs st !! [nameP] = None ->
  (forall q, pkg_dir npmP `prefix_of` q -> fs st !! q = None) ->
  npmP ∉ built st ->
  fs (buildLoop v net order st).1.2 !! [nameP] = None
  /\ (forall q, pkg_dir npmP `prefix_of` q -> fs (buildLoop v net order st).1.2 !! q = None)
  /\ npmP ∉ built (buildLoop v net order st).1.2.
Proof.
  revert st. induction order as [|s order IH]; intros st Ha Hd Hb; simpl; [done|].
  pose proof (buildOne_keeps_skipped s st Ha Hd Hb) as (Ha1 & Hd1 & Hb1).
  destruct (buildOne v net s st) as [[[|c] st1] log1]; simpl in *; [|done].
  specialize (IH st1 Ha1 Hd1 Hb1).
  by destruct (buildLoop v net order st1) as [[c2 st2] log2].
Qed.

(** The loop ends as the loop over the other platforms does. *)
Lemma buildLoop_without_skipped (order : list string) (st : bstate) :
  fs st !! [nameP] = None ->
  (forall q, pkg_dir npmP `prefix_of` q -> fs st !! q = None) ->
  npmP ∉ built st ->
  (buildLoop v net order st).1
  = (buildLoop v net (filter (fun s => s ≠ P) order) st).1.
Proof.
  revert st. induction order as [|s order IH]; intros st Ha Hd Hb; [done|].
  destruct (decide (s = P)) as [->|Hne].
  - rewrite filter_cons_False by (intros H; by apply H).
    rewrite <- IH by done. simpl.
    pose proof (buildOne_failed_download v net P st npmP osP partial HP Hos Hnet Ha) as H1.
    destruct (buildOne v net P st) as [[c1 st1] log1]. simpl in H1.
    injection H1 as -> ->.
    by destruct (buildLoop v net order st) as [[c2 st2] log2].
  - rewrite filter_cons_True by done. simpl.
    pose proof (buildOne_keeps_skipped s st Ha Hd Hb) as (Ha1 & Hd1 & Hb1).
    destruct (buildOne v net s st) as [[[|c] st1] log1]; simpl in *; [|done].
    specialize (IH st1 Ha1 Hd1 Hb1).
    destruct (buildLoop v net order st1) as [[c2 st2] log2].
    destruct (buildLoop v net (filter _ order) st1) as [[c3 st3] log3].
    simpl in IH. by injection IH as -> ->.
Qed.

(** After the clean-up at the start. *)
Lemma clean_start (dist0 : tree) :
  mkdir_p ["packages"] (rm_rf [] dist0) !! [nameP] = None
  /\ (forall q, pkg_dir npmP `prefix_of` q ->
        mkdir_p ["packages"] (rm_rf [] dist0) !! q = None).
Proof.
  assert (He : forall q, rm_rf [] dist0 !! q = None).
  { intros q. unfold rm_rf. apply map_lookup_filter_None. right.
    intros x _ Hn. apply Hn. apply prefix_nil. }
  assert (Hm : forall q, q ≠ [] -> q ≠ ["packages"] ->
            mkdir_p ["packages"] (rm_rf [] dist0) !! q = None).
  { intros q H1 H2. unfold mkdir_p. simpl. unfold mkdir_one.
    repeat (case_match; rewrite ?lookup_insert_ne by done; try done). }
  split.
  - apply Hm; [done|]. unfold archive_name. by intros [= ?].
  - intros q [k ->]. apply Hm; done.
Qed.

End SkippedPlatform.

(** C2.  Let the script run with a non-empty version, and let the download of
    the archive of a platform [P] of the table fail, with or without a partial
    file left behind.  Then, however the run ends and in whatever order the
    platforms are taken: the archive file of [P] does not exist, nothing
    exists at or below the package directory of [P], [P] is not among the
    platforms built, and the run ends exactly as the run over the other
    platforms does: same exit status, same output directory, same root
    manifest, same platforms built. *)
Theorem C2_failed_download_is_skipped (parse : string -> option Json.value)
    (other : string -> option string -> Z * option string)
    (order : list string) (net : string -> Builder.fetch) (argv : list string)
    (dist0 : Builder.tree) (manifest0 : option string) (v P npmP osP : string)
    (partial : option Builder.fdata) :
  argv !! 1%nat = Some v ->
  v ≠ EmptyString ->
  Builder.assoc P Builder.PLATFORMS = Some npmP ->
  Builder.assoc npmP Builder.OS_MAP = Some osP ->
  net (Builder.download_url v
         (Builder.archive_name v P (bool_decide (osP = "win32")))) = Builder.Failed partial ->
  Builder.dist (Builder.buildAll parse other order net argv dist0 manifest0)
    !! [Builder.archive_name v P (bool_decide (osP = "win32"))] = None
  /\ (forall q, Builder.pkg_dir npmP `prefix_of` q ->
        Builder.dist (Builder.buildAll parse other order net argv dist0 manifest0) !! q = None)
  /\ (npmP ∉ Builder.platforms_built (Builder.buildAll parse other order net argv dist0 manifest0))
  /\ Builder.status (Builder.buildAll parse other order net argv dist0 manifest0)
     = Builder.status
         (Builder.buildAll parse other (filter (fun s => s ≠ P) order) net argv dist0 manifest0)
  /\ Builder.dist (Builder.buildAll parse other order net argv dist0 manifest0)
     = Builder.dist
         (Builder.buildAll parse other (filter (fun s => s ≠ P) order) net argv dist0 manifest0)
  /\ Builder.manifest (Builder.buildAll parse other order net argv dist0 manifest0)
     = Builder.manifest
         (Builder.buildAll parse other (filter (fun s => s ≠ P) order) net argv dist0 manifest0)
  /\ Builder.platforms_built (Builder.buildAll parse other order net argv dist0 manifest0)
     = Builder.platforms_built
         (Builder.buildAll parse other (filter (fun s => s ≠ P) order) net argv dist0 manifest0).
Proof.
  intros Hv Hne HP Hos Hnet. unfold Builder.buildAll. rewrite Hv. simpl.
  destruct (String.eqb v EmptyString) eqn:E; [by apply String.eqb_eq in E|].
  destruct (clean_start v P npmP osP dist0) as [Ha Hd].
  assert (Hb : npmP ∉ @nil string) by apply not_elem_of_nil.
  set (st0 := Builder.BState _ []) in *.
  pose proof (buildLoop_keeps_skipped v net P npmP osP partial HP Hos Hnet order st0
                Ha Hd Hb) as (Ha1 & Hd1 & Hb1).
  pose proof (buildLoop_without_skipped v net P npmP osP partial HP Hos Hnet order st0
                Ha Hd Hb) as Heq.
  destruct (Builder.buildLoop v net order st0) as [[c st] log].
  destruct (Builder.buildLoop v net (filter _ order) st0) as [[c' st'] log'].
  simpl in *. injection Heq as <- <-.
  destruct c as [|code]; simpl; [|done].
  destruct (Builder.node_rewrite parse other v manifest0) as [code m].
  by destruct (bool_decide (code = 0%Z)).
Qed.

Lemma C2_failed_download_is_skipped_witness :
  Builder.platforms_built
    (Builder.buildAll BuildInputs.reader BuildInputs.stops BuildInputs.table_order
       (BuildInputs.answer
          (BuildInputs.release_with "1.2.3" (Builder.Failed (Some (Builder.Blob 9)))))
       ["build.sh"; "1.2.3"] ∅ (Some (BuildInputs.root_text "0.43.0")))
  = ["linux-arm64"; "darwin-x64"; "darwin-arm64"; "win32-x64"; "win32-arm64"]
  /\ Builder.dist
       (Builder.buildAll BuildInputs.reader BuildInputs.stops BuildInputs.table_order
          (BuildInputs.answer
             (BuildInputs.release_with "1.2.3" (Builder.Failed (Some (Builder.Blob 9)))))
          ["build.sh"; "1.2.3"] ∅ (Some (BuildInputs.root_text "0.43.0")))
     !! ["crush_1.2.3_Linux_x86_64.tar.gz"] = None.
Proof.
  destruct (C2_failed_download_is_skipped BuildInputs.reader BuildInputs.stops
              BuildInputs.table_order
              (BuildInputs.answer
                 (BuildInputs.release_with "1.2.3" (Builder.Failed (Some (Builder.Blob 9)))))
              ["build.sh"; "1.2.3"] ∅ (Some (BuildInputs.root_text "0.43.0"))
              "1.2.3" "Linux_x86_64" "linux-x64" "linux" (Some (Builder.Blob 9))
              eq_refl ltac:(done) eq_refl eq_refl eq_refl)
    as (Ha & _ & _ & _ & _ & _ & Hb).
  split; [|exact Ha].
  rewrite Hb. by vm_compute.
Defined.

(** Without a version the script prints its usage, ends with status 1 and
    touches nothing. *)
Lemma buildAll_usage (parse : string -> option Json.value)
    (other : string -> option string -> Z * option string) (order : list string)
    (net : string -> Builder.fetch) (script : string) (dist0 : Builder.tree)
    (manifest0 : option string) :
  Builder.buildAll parse other order net [script] dist0 manifest0
  = Builder.Result 1 dist0 manifest0 []
      ["Usage: " +:+ script +:+ " <version>"; "Example: " +:+ script +:+ " 0.43.0"].
Proof. reflexivity. Qed.

(** * Further properties of the launcher *)

Section FindBinaryKeeps.

Import Launcher.

Implicit Types (e : env) (pm : perms) (fs : gmap path bool) (d : path).

(** One round keeps the binary of every directory, under one name or the
    other. *)
Lemma probe_keeps_binary e pm d' fs d :
  is_Some (fs !! Offline.finalPath e d) \/ is_Some (fs !! Offline.disguisedPath d) ->
  is_Some ((Offline.probe e pm d' fs).2 !! Offline.finalPath e d)
  \/ is_Some ((Offline.probe e pm d' fs).2 !! Offline.disguisedPath d).
Proof.
  intros H. destruct (decide (d' = d)) as [->|Hne].
  - pose proof (final_ne_disguised e d d) as Hfd.
    unfold Offline.probe, Offline.rename_catch, renameSync, chmodSync.
    destruct (existsSync fs (Offline.finalPath e d)) eqn:Ef; [done|].
    apply existsSync_false in Ef. rewrite Ef in H.
    destruct H as [[? [=]]|[x Hx]].
    rewrite (proj2 (existsSync_true fs _)) by (by rewrite Hx). rewrite Hx.
    repeat (case_match; simplify_eq; simpl;
            rewrite ?lookup_insert_eq, ?Hx; try (by left); try (by right)).
  - rewrite !probe_frame; [done| | | |].
    + intros E. symmetry in E. by apply final_ne_disguised in E.
    + intros E. by apply disguised_inj in E.
    + intros E. by apply final_inj in E.
    + apply final_ne_disguised.
Qed.

Lemma probe_all_keeps_binary e pm dirs fs d :
  is_Some (fs !! Offline.finalPath e d) \/ is_Some (fs !! Offline.disguisedPath d) ->
  is_Some ((Offline.probe_all e pm dirs fs).2 !! Offline.finalPath e d)
  \/ is_Some ((Offline.probe_all e pm dirs fs).2 !! Offline.disguisedPath d).
Proof.
  revert fs. induction dirs as [|d' dirs IH]; intros fs H; simpl; [done|].
  pose proof (probe_keeps_binary e pm d' fs d H) as H'.
  destruct (Offline.probe e pm d' fs) as [[p|] fs']; simpl in *; [done|].
  by apply IH.
Qed.

Lemma probe_all_frame e pm dirs fs q :
  (forall d, d ∈ dirs -> q ≠ Offline.finalPath e d /\ q ≠ Offline.disguisedPath d) ->
  (Offline.probe_all e pm dirs fs).2 !! q = fs !! q.
Proof.
  revert fs. induction dirs as [|d dirs IH]; intros fs H; simpl; [done|].
  destruct (H d) as [H1 H2]; [set_solver|].
  pose proof (probe_frame e pm d fs q H1 H2) as Hfr.
  destruct (Offline.probe e pm d fs) as [[p|] fs']; simpl in *; [done|].
  rewrite IH; [done|]. intros d' Hd'. apply H. set_solver.
Qed.

End FindBinaryKeeps.

(** X1.  [findBinary] of the [@offlinecli] launcher never loses a binary and
    touches nothing else: a directory that holds the binary, under its proper
    or its disguised name, still holds it under one of the two names
    afterwards, whatever is refused on the way; and every path that is not one
    of the two names in a candidate directory is as it was. *)
Theorem findBinary_keeps_binary (e : Launcher.env) (pm : Launcher.perms)
    (fs : gmap path bool) :
  (forall d,
     is_Some (fs !! Launcher.Offline.finalPath e d)
     \/ is_Some (fs !! Launcher.Offline.disguisedPath d) ->
     is_Some ((Launcher.Offline.findBinary e pm fs).2 !! Launcher.Offline.finalPath e d)
     \/ is_Some ((Launcher.Offline.findBinary e pm fs).2
                   !! Launcher.Offline.disguisedPath d))
  /\ (forall q,
        (forall d, d ∈ Launcher.Offline.baseDirs e ->
           q ≠ Launcher.Offline.finalPath e d /\ q ≠ Launcher.Offline.disguisedPath d) ->
        (Launcher.Offline.findBinary e pm fs).2 !! q = fs !! q).
Proof.
  split.
  - intros d. apply probe_all_keeps_binary.
  - intros q. apply probe_all_frame.
Qed.

Section FindBinarySettles.

Import Launcher.

Implicit Types (e : env) (pm : perms) (fs : gmap path bool) (d : path).

Lemma settled_probe_same e pm d fs :
  Observed.settled e pm fs d -> (Offline.probe e pm d fs).2 = fs.
Proof.
  unfold Observed.settled, Offline.probe, Offline.rename_catch, renameSync, chmodSync.
  intros [Hf|[Hd|(Hr & H)]].
  - by rewrite (proj2 (existsSync_true fs _) Hf).
  - destruct (existsSync fs (Offline.finalPath e d)); [done|].
    by rewrite (proj2 (existsSync_false fs _) Hd).
  - destruct (existsSync fs (Offline.finalPath e d)); [done|].
    destruct (existsSync fs (Offline.disguisedPath d)); [|done].
    destruct (fs !! Offline.disguisedPath d) as [x|] eqn:Hx; [|by destruct (is_win32 e)].
    rewrite Hr. destruct (is_win32 e); [done|].
    destruct (chmod_refused pm (Offline.disguisedPath d)); [done|].
    destruct H as [?|[?|H]]; try done. simpl. apply insert_id. congruence.
Qed.

Lemma probe_settles e pm d fs :
  Observed.settled e pm (Offline.probe e pm d fs).2 d.
Proof.
  pose proof (final_ne_disguised e d d) as Hfd.
  unfold Observed.settled, Offline.probe, Offline.rename_catch, renameSync, chmodSync.
  destruct (existsSync fs (Offline.finalPath e d)) eqn:Ef.
  { left. by apply existsSync_true. }
  destruct (existsSync fs (Offline.disguisedPath d)) eqn:Ed.
  2:{ right; left. by apply existsSync_false. }
  apply existsSync_true in Ed as [x Hx]. rewrite Hx.
  destruct (rename_refused pm (Offline.disguisedPath d)) eqn:Hr;
    destruct (is_win32 e) eqn:Hw;
    try destruct (chmod_refused pm (Offline.disguisedPath d)) eqn:Hc;
    try destruct (chmod_refused pm (Offline.finalPath e d)) eqn:Hc2;
    repeat (simpl; first [rewrite lookup_insert_eq | rewrite Hx
                         | rewrite lookup_insert_ne by done | rewrite lookup_delete_eq]);
    simpl.
  all: try (left; by rewrite ?lookup_insert_eq).
  all: right; right; split; [done|];
    first [by left | by right; left | right; right; by rewrite ?lookup_insert_eq].
Qed.

Lemma settled_agree e pm d fs fs' :
  fs' !! Offline.finalPath e d = fs !! Offline.finalPath e d ->
  fs' !! Offline.disguisedPath d = fs !! Offline.disguisedPath d ->
  Observed.settled e pm fs d -> Observed.settled e pm fs' d.
Proof. unfold Observed.settled. by intros -> ->. Qed.

Lemma probe_keeps_settled e pm d' fs d :
  Observed.settled e pm fs d -> Observed.settled e pm (Offline.probe e pm d' fs).2 d.
Proof.
  intros H. destruct (decide (d' = d)) as [->|Hne]; [apply probe_settles|].
  apply (settled_agree e pm d fs); [| |done]; apply probe_frame.
  - intros E. by apply final_inj in E.
  - apply final_ne_disguised.
  - intros E. symmetry in E. by apply final_ne_disguised in E.
  - intros E. by apply disguised_inj in E.
Qed.

Lemma probe_all_keeps_settled e pm dirs fs d :
  Observed.settled e pm fs d -> Observed.settled e pm (Offline.probe_all e pm dirs fs).2 d.
Proof.
  revert fs. induction dirs as [|d' dirs IH]; intros fs H; simpl; [done|].
  pose proof (probe_keeps_settled e pm d' fs d H) as H'.
  destruct (Offline.probe e pm d' fs) as [[p|] fs']; simpl in *; [done|].
  by apply IH.
Qed.

(** A round that has returned a path returns a path when it is run again. *)
Lemma probe_found_again e pm d fs p :
  (Offline.probe e pm d fs).1 = Some p ->
  is_Some (Offline.probe e pm d (Offline.probe e pm d fs).2).1.
Proof.
  pose proof (final_ne_disguised e d d) as Hfd.
  unfold Offline.probe at 1 3.
  destruct (existsSync fs (Offline.finalPath e d)) eqn:Ef.
  { intros _. simpl. unfold Offline.probe. by rewrite Ef. }
  destruct (existsSync fs (Offline.disguisedPath d)) eqn:Ed; [|done].
  apply existsSync_true in Ed as [x Hx].
  unfold renameSync. rewrite Hx.
  assert (Hfin : forall fs1, is_Some (fs1 !! Offline.finalPath e d) ->
            is_Some (Offline.probe e pm d fs1).1).
  { intros fs1 H1. by rewrite probe_final. }
  destruct (rename_refused pm (Offline.disguisedPath d)) eqn:Hr.
  - unfold Offline.rename_catch, chmodSync. rewrite Hx.
    destruct (is_win32 e) eqn:Hw; [done|].
    destruct (chmod_refused pm (Offline.disguisedPath d)) eqn:Hc; [done|].
    intros _. simpl. unfold Offline.probe.
    rewrite (proj2 (existsSync_false _ (Offline.finalPath e d)))
      by (rewrite lookup_insert_ne by done; by apply existsSync_false).
    rewrite (proj2 (existsSync_true _ (Offline.disguisedPath d)))
      by (by rewrite lookup_insert_eq).
    unfold renameSync. rewrite lookup_insert_eq, Hr.
    unfold Offline.rename_catch, chmodSync. by rewrite Hw, lookup_insert_eq, Hc.
  - destruct (is_win32 e) eqn:Hw.
    { intros _. apply Hfin. simpl. by rewrite lookup_insert_eq. }
    unfold chmodSync. rewrite lookup_insert_eq.
    destruct (chmod_refused pm (Offline.finalPath e d)).
    + unfold Offline.rename_catch, chmodSync. rewrite Hw.
      rewrite lookup_insert_ne, lookup_delete_eq by done. done.
    + intros _. apply Hfin. simpl. by rewrite lookup_insert_eq.
Qed.

Lemma probe_all_settles e pm dirs fs :
  (Offline.probe_all e pm dirs (Offline.probe_all e pm dirs fs).2).2
  = (Offline.probe_all e pm dirs fs).2
  /\ (is_Some (Offline.probe_all e pm dirs fs).1 ->
      is_Some (Offline.probe_all e pm dirs (Offline.probe_all e pm dirs fs).2).1).
Proof.
  revert fs. induction dirs as [|d dirs IH]; intros fs; simpl; [done|].
  pose proof (probe_settles e pm d fs) as Hs.
  pose proof (probe_found_again e pm d fs) as Hagain.
  destruct (Offline.probe e pm d fs) as [[p|] fs1] eqn:Hp; simpl in *.
  - pose proof (settled_probe_same e pm d fs1 Hs) as Hsame.
    destruct (Hagain p eq_refl) as [p' Hp'].
    destruct (Offline.probe e pm d fs1) as [r fs2]. simpl in *. subst. done.
  - destruct (IH fs1) as [IH1 IH2].
    pose proof (probe_all_keeps_settled e pm dirs fs1 d Hs) as Hs2.
    pose proof (settled_probe_same e pm d _ Hs2) as Hsame.
    destruct (Offline.probe e pm d (Offline.probe_all e pm dirs fs1).2) as [[p'|] fs2];
      simpl in *; subst; done.
Qed.

End FindBinarySettles.

(** X2.  [findBinary] of the [@offlinecli] launcher settles after one call:
    a second call changes no file, and it finds a binary whenever the first
    call found one. *)
Theorem findBinary_settles (e : Launcher.env) (pm : Launcher.perms) (fs : gmap path bool) :
  (Launcher.Offline.findBinary e pm (Launcher.Offline.findBinary e pm fs).2).2
  = (Launcher.Offline.findBinary e pm fs).2
  /\ (is_Some (Launcher.Offline.findBinary e pm fs).1 ->
      is_Some (Launcher.Offline.findBinary e pm (Launcher.Offline.findBinary e pm fs).2).1).
Proof. apply probe_all_settles. Qed.

Section LifecycleRuns.

Import Launcher.Lifecycle.

Lemma forwards_app (a b : list action) :
  Observed.forwards (a ++ b) = (Observed.forwards a + Observed.forwards b)%nat.
Proof. unfold Observed.forwards. by rewrite List.filter_app, length_app. Qed.

(** The handler of ['exit'] sends nothing to the child. *)
Lemma on_exit_forwards code sig k :
  Observed.forwards (on_exit code sig (Child false k)).1.1 = 0%nat
  /\ (on_exit code sig (Child false k)).1.2 = Child false k.
Proof.
  unfold on_exit. destruct sig as [s|]; [|done].
  destruct (truthy (Some s)); [|done].
  unfold deliver. case_bool_decide; [by rewrite on_signal_gone|].
  by case_bool_decide.
Qed.

(** One event forwards at most one signal, and none once [killed] is set;
    [killed] stays set. *)
Lemma step_forwards (l : launcher) (ev : event) :
  (killed (the_child l) = true ->
   Observed.forwards (step l ev).1 = 0%nat /\ killed (the_child (step l ev).2) = true)
  /\ (killed (the_child l) = false ->
      Observed.forwards (step l ev).1 = 0%nat
      \/ (Observed.forwards (step l ev).1 = 1%nat
          /\ killed (the_child (step l ev).2) = true)).
Proof.
  unfold step. destruct (ended l); simpl; [by split; [|left]|].
  destruct ev as [m|code sig|sig]; simpl.
  - by split; [|left].
  - pose proof (on_exit_forwards code sig (killed (the_child l))) as [H1 H2].
    destruct (on_exit code sig _) as [[acts c] e]. simpl in *. subst c.
    by split; [|left].
  - unfold deliver. case_bool_decide; simpl;
      [|case_bool_decide; simpl; by split; [|left]].
    unfold on_signal, child_kill.
    destruct (killed (the_child l)) eqn:Hk; simpl; [by split|].
    split; [done|]. intros _. destruct (running (the_child l)); simpl; [by right|by left].
Qed.

Lemma run_forwards (l : launcher) (evs : list event) :
  (Observed.forwards (run l evs).1 <= (if killed (the_child l) then 0 else 1))%nat.
Proof.
  revert l. induction evs as [|ev evs IH]; intros l; simpl.
  { destruct (killed (the_child l)); unfold Observed.forwards; simpl; lia. }
  pose proof (step_forwards l ev) as [H1 H2].
  specialize (IH (step l ev).2).
  destruct (step l ev) as [acts l']. simpl in IH.
  destruct (run l' evs) as [acts' l''].
  simpl in *. rewrite forwards_app.
  destruct (killed (the_child l)).
  - destruct (H1 eq_refl) as [-> Hk]. rewrite Hk in IH. lia.
  - destruct (H2 eq_refl) as [->|[-> Hk]].
    + destruct (killed (the_child l')); lia.
    + rewrite Hk in IH. lia.
Qed.





End LifecycleRuns.

(** X3.  Over any sequence of events after the spawn, the launcher sends at
    most one signal to the child: once a signal has been forwarded, [killed]
    is set and every later interrupt, terminate or hangup is dropped. *)
Theorem at_most_one_signal_forwarded (evs : list Launcher.Lifecycle.event) :
  (Observed.forwards (Launcher.Lifecycle.run Launcher.Lifecycle.spawned evs).1 <= 1)%nat.
Proof. apply (run_forwards Launcher.Lifecycle.spawned). Qed.




(** * The candidate paths in a scoped install *)

Section ScopedInstall.

Import Launcher.

Lemma prefix_append (p r : string) : String.prefix p (p +:+ r) = true.
Proof.
  induction p as [|c p IH]; simpl; [by destruct r|].
  destruct (Ascii.ascii_dec c c); [done|congruence].
Qed.

Lemma substring_all (r : string) : String.substring 0 (String.length r) r = r.
Proof. induction r as [|c r IH]; simpl; [done|]. by rewrite IH. Qed.

Lemma substring_skip (p r : string) (n : nat) :
  String.substring (String.length p) n (p +:+ r) = String.substring 0 n r.
Proof. induction p as [|c p IH]; simpl; [done|apply IH]. Qed.

Lemma length_append (p r : string) :
  String.length (p +:+ r) = (String.length p + String.length r)%nat.
Proof. induction p as [|c p IH]; simpl; [done|]. by rewrite IH. Qed.

(** Removing a prefix that is there. *)
Lemma remove_first_prefix (p r : string) : remove_first p (p +:+ r) = r.
Proof.
  assert (Heq : forall s, remove_first p s
            = if String.prefix p s
              then String.substring (String.length p) (String.length s - String.length p) s
              else match s with
                   | EmptyString => EmptyString
                   | String c s' => String c (remove_first p s')
                   end).
  { intros s. by destruct s. }
  rewrite Heq, prefix_append, substring_skip, length_append.
  replace (String.length p + String.length r - String.length p)%nat
    with (String.length r) by lia.
  apply substring_all.
Qed.

Lemma join_up (base : path) (x : string) (segs : list string) :
  path_join (base ++ [x]) (".." :: segs) = path_join base segs.
Proof. unfold path_join. simpl. unfold join_seg at 2. simpl. by rewrite removelast_last. Qed.

Lemma join_down (base : path) (x : string) (segs : list string) :
  x ≠ ".." -> path_join base (x :: segs) = path_join (base ++ [x]) segs.
Proof. intros Hx. unfold path_join. simpl. unfold join_seg at 2. by rewrite decide_False. Qed.

Lemma join_end (base : path) : path_join base [] = base.
Proof. done. Qed.

Lemma binaryName_not_up (e : env) : Corp.binaryName e ≠ "..".
Proof. unfold Corp.binaryName. by destruct (is_win32 e). Qed.

Lemma getBinaryName_not_up (e : env) : Offline.getBinaryName e ≠ "..".
Proof. unfold Offline.getBinaryName. by destruct (is_win32 e). Qed.

End ScopedInstall.

(** X5.  The [@anthropic-ai] launcher installed as
    [<base>/@anthropic-ai/<package>/bin]: its first and its third candidate
    are the same path, [<base>/@anthropic-ai/crush-corp-<platform>-<arch>/bin/<binary>],
    and its second candidate, the one for the scoped package, has the scope
    twice. *)
Theorem corp_candidates_in_scoped_install (e : Launcher.env) (base : path) (pkg : string) :
  Launcher.dirname e = base ++ ["@anthropic-ai"; pkg; "bin"] ->
  Launcher.Corp.nested_location e
  = base ++ ["@anthropic-ai";
             "crush-corp-" +:+ Launcher.platform e +:+ "-" +:+ Launcher.arch e;
             "bin"; Launcher.Corp.binaryName e]
  /\ Launcher.Corp.hoisted_location e = Launcher.Corp.nested_location e
  /\ Launcher.Corp.scoped_location e
     = base ++ ["@anthropic-ai"; "@anthropic-ai";
                "crush-corp-" +:+ Launcher.platform e +:+ "-" +:+ Launcher.arch e;
                "bin"; Launcher.Corp.binaryName e].
Proof.
  intros Hd.
  assert (Hpkg : Launcher.remove_first "@anthropic-ai/" (Launcher.Corp.getPlatformPackage e)
                 = "crush-corp-" +:+ Launcher.platform e +:+ "-" +:+ Launcher.arch e).
  { apply (remove_first_prefix "@anthropic-ai/"). }
  pose proof (binaryName_not_up e) as Hb.
  unfold Launcher.Corp.nested_location, Launcher.Corp.hoisted_location,
    Launcher.Corp.scoped_location.
  rewrite Hpkg, Hd.
  replace (base ++ ["@anthropic-ai"; pkg; "bin"])
    with (((base ++ ["@anthropic-ai"]) ++ [pkg]) ++ ["bin"])
    by (by rewrite <- !app_assoc).
  rewrite !join_up. rewrite !join_down by done. rewrite !join_end.
  rewrite <- !app_assoc. done.
Qed.

Lemma corp_candidates_in_scoped_install_witness :
  Launcher.Corp.hoisted_location Inputs.corp_env
  = Launcher.Corp.nested_location Inputs.corp_env.
Proof.
  destruct (corp_candidates_in_scoped_install Inputs.corp_env ["app"; "node_modules"]
              "crush-corp" eq_refl) as (_ & H & _).
  exact H.
Defined.

(** X6.  The [@offlinecli] launcher installed as
    [<base>/@offlinecli/<package>/bin]: the platform package beside it,
    [<base>/@offlinecli/crush-<platform>-<arch>/bin], is its second candidate
    (the one for a hoisted package); its first candidate has the scope
    twice. *)
Theorem offline_candidates_in_scoped_install (e : Launcher.env) (base : path)
    (pkg : string) :
  Launcher.dirname e = base ++ ["@offlinecli"; pkg; "bin"] ->
  Launcher.Offline.hoisted_dir e
  = base ++ ["@offlinecli"; "crush-" +:+ Launcher.platform e +:+ "-" +:+ Launcher.arch e;
             "bin"]
  /\ Launcher.Offline.scoped_dir e
     = base ++ ["@offlinecli"; "@offlinecli";
                "crush-" +:+ Launcher.platform e +:+ "-" +:+ Launcher.arch e; "bin"].
Proof.
  intros Hd. unfold Launcher.Offline.hoisted_dir, Launcher.Offline.scoped_dir.
  rewrite Hd.
  replace (base ++ ["@offlinecli"; pkg; "bin"])
    with (((base ++ ["@offlinecli"]) ++ [pkg]) ++ ["bin"])
    by (by rewrite <- !app_assoc).
  rewrite !join_up. rewrite !join_down by done. rewrite !join_end.
  rewrite <- !app_assoc. done.
Qed.

Lemma offline_candidates_in_scoped_install_witness :
  Launcher.Offline.hoisted_dir Inputs.linux_env = Inputs.linux_bin.
Proof.
  destruct (offline_candidates_in_scoped_install Inputs.linux_env ["app"; "node_modules"]
              "crush" eq_refl) as [H _].
  exact H.
Defined.

(** * Further properties of the quick setup *)

Lemma quickSetup_writes_only_valid_witness :
  Setup.truthy (["ollama"; "http://localhost:11434/v1/"] !! 1%nat) = true
  /\ Setup.js_or (["ollama"; "http://localhost:11434/v1/"] !! 0%nat) "azure-foundry"
       ∈ ["azure-openai"; "azure-foundry"; "openai-compat"; "ollama"].
Proof.
  apply (quickSetup_writes_only_valid "crush.json" ["ollama"; "http://localhost:11434/v1/"]
           (Setup.Fsys false None)).
  vm_compute. discriminate.
Defined.



(** * Further properties of the builder *)

Lemma rm_rf_root (t : Builder.tree) : Builder.rm_rf [] t = ∅.
Proof.
  apply map_eq. intros q. rewrite lookup_empty. unfold Builder.rm_rf.
  apply map_lookup_filter_None. right. intros x _ Hn. apply Hn. apply prefix_nil.
Qed.

(** X9.  With a version given, what the output directory held before the run
    has no influence on the run: the script starts from an empty [dist], so an
    archive left there by an earlier run is never reused. *)
Theorem buildAll_starts_clean (parse : string -> option Json.value)
    (other : string -> option string -> Z * option string) (order : list string)
    (net : string -> Builder.fetch) (argv : list string) (dist0 : Builder.tree)
    (manifest0 : option string) (v : string) :
  argv !! 1%nat = Some v ->
  v ≠ EmptyString ->
  Builder.buildAll parse other order net argv dist0 manifest0
  = Builder.buildAll parse other order net argv ∅ manifest0.
Proof.
  intros Hv Hne. unfold Builder.buildAll. rewrite Hv. simpl.
  destruct (String.eqb v EmptyString) eqn:E; [by apply String.eqb_eq in E|].
  by rewrite !rm_rf_root.
Qed.

Lemma buildAll_starts_clean_witness :
  Builder.buildAll BuildInputs.reader BuildInputs.stops BuildInputs.table_order
    (BuildInputs.answer (BuildInputs.release "1.2.3")) ["build.sh"; "1.2.3"]
    {[ ["crush_1.2.3_Linux_x86_64.tar.gz"] := Builder.File BuildInputs.deep_tgz ]}
    (Some (BuildInputs.root_text "0.43.0"))
  = Builder.buildAll BuildInputs.reader BuildInputs.stops BuildInputs.table_order
      (BuildInputs.answer (BuildInputs.release "1.2.3")) ["build.sh"; "1.2.3"] ∅
      (Some (BuildInputs.root_text "0.43.0")).
Proof.
  apply (buildAll_starts_clean _ _ _ _ _ _ _ "1.2.3"); [reflexivity|discriminate].
Defined.

Lemma set_keys (k : string) (v : Json.value) (props : list (string * Json.value)) :
  map fst (Json.set k v props)
  = if bool_decide (k ∈ map fst props) then map fst props else map fst props ++ [k].
Proof.
  induction props as [|[k' v'] props IH]; [done|].
  cbn [Json.set map fst]. destruct (decide (k' = k)) as [->|Hk].
  - rewrite bool_decide_eq_true_2; [done|apply list_elem_of_here].
  - cbn [map fst]. rewrite IH. destruct (bool_decide (k ∈ map fst props)) eqn:E.
    + apply bool_decide_eq_true in E.
      rewrite bool_decide_eq_true_2; [done|by apply list_elem_of_further].
    + apply bool_decide_eq_false in E.
      rewrite bool_decide_eq_false_2; [done|].
      intros [?|?]%elem_of_cons; [by subst|done].
Qed.

(** X10.  For a pasted version of the form modelled - string literals and
    [pkg.version] joined by [+], a version without quote, backslash or line
    break among them - the rewrite of the root manifest neither removes,
    renames nor reorders a property: on a JSON object, what it writes is an
    object with the names of the properties in their order, [version] added
    at the end when the object had none, and with the names of the entries
    of [optionalDependencies] in their order.  Nothing is said of any other
    pasted text, which can be code that deletes a property. *)
Theorem update_pkg_keeps_properties (ts : list Builder.term)
    (props : list (string * Json.value)) (pkg' : Json.value) :
  Builder.update_pkg ts (Json.Obj props) = Builder.Wrote pkg' ->
  exists props',
    pkg' = Json.Obj props'
    /\ map fst props'
       = (if bool_decide ("version" ∈ map fst props)
          then map fst props else map fst props ++ ["version"])
    /\ (forall deps,
          Json.get "optionalDependencies" props = Some (Json.Obj deps) ->
          exists deps',
            Json.get "optionalDependencies" props' = Some (Json.Obj deps')
            /\ map fst deps' = map fst deps).
Proof.
  unfold Builder.update_pkg.
  destruct (Builder.value_of ts (Json.get "version" props)) as [v|]; [|done].
  destruct (Json.get "optionalDependencies" (Json.set "version" (Json.Str v) props))
    as [x|] eqn:Hx; rewrite get_set_ne in Hx by done; intros [= <-].
  - eexists. split; [done|]. split.
    + rewrite set_keys, set_keys.
      assert (Hin : "optionalDependencies"
                    ∈ (if bool_decide ("version" ∈ map fst props)
                       then map fst props else map fst props ++ ["version"])).
      { assert ("optionalDependencies" ∈ map fst props).
        { clear -Hx. induction props as [|[k w] props IH]; simpl in *; [done|].
          case_decide; [subst; apply list_elem_of_here|].
          apply list_elem_of_further. by apply IH. }
        destruct (bool_decide _); [done|]. apply elem_of_app. by left. }
      by rewrite bool_decide_eq_true_2.
    + intros deps Hd. rewrite Hd in Hx. injection Hx as <-.
      rewrite get_set_eq. cbn [Builder.for_in_assign]. eexists. split; [done|].
      rewrite map_map. done.
  - eexists. split; [done|]. split; [apply set_keys|].
    intros deps Hd. by rewrite Hd in Hx.
Qed.

Lemma update_pkg_keeps_properties_witness :
  exists props',
    BuildInputs.drifted_pkg "1x" "1xx" = Json.Obj props'
    /\ map fst props' = ["name"; "version"; "optionalDependencies"]
    /\ (forall deps,
          Some (Json.Obj [("@anthropic-ai/crush-corp-linux-x64", Json.Str "1")])
          = Some (Json.Obj deps) ->
          exists deps',
            Json.get "optionalDependencies" props' = Some (Json.Obj deps')
            /\ map fst deps' = map fst deps).
Proof.
  apply (update_pkg_keeps_properties
           [Builder.Lit EmptyString; Builder.PkgVersion; Builder.Lit "x"]
           [("name", Json.Str "@anthropic-ai/crush-corp");
            ("version", Json.Str "1");
            ("optionalDependencies",
             Json.Obj [("@anthropic-ai/crush-corp-linux-x64", Json.Str "1")])]);
    by vm_compute.
Defined.

(** * The builder: one platform leaves the others as they are *)

Section Frame.

Import Builder.

(** A package directory [D], and a path [q] that is neither in it nor above
    it. *)
Variables (D q : path).
Hypothesis HDq : ¬ D `prefix_of` q.
Hypothesis HqD : ¬ q `prefix_of` D.

Implicit Types (t : tree) (d root : path) (archive : path) (name : string).

Lemma rm_rf_outside d t : D `prefix_of` d -> rm_rf d t !! q = t !! q.
Proof.
  intros HD. unfold rm_rf. destruct (t !! q) as [x|] eqn:Hx.
  - apply map_lookup_filter_Some_2; [done|]. simpl. intros Hd. apply HDq. by etrans.
  - apply map_lookup_filter_None. by left.
Qed.

Lemma mv_into_outside dstdir t src :
  D `prefix_of` dstdir -> D `prefix_of` src -> (mv_into dstdir t src).2 !! q = t !! q.
Proof.
  intros HD Hsrc. unfold mv_into.
  destruct (last src) as [n|]; [|done]. destruct (t !! src) as [x|]; [|done].
  match goal with |- context [if ?b then _ else _] => destruct b end; [done|].
  cbn [snd]. induction (List.filter _ _) as [|kv l IH]; simpl.
  - by apply rm_rf_outside.
  - rewrite lookup_insert_ne; [done|].
    apply (outside_ne D q HDq). by do 2 apply prefix_app_r.
Qed.

Lemma find_named_below root name t src :
  src ∈ map fst (find_named root name t) -> root `prefix_of` src.
Proof.
  unfold find_named. intros Hin. apply list_elem_of_In in Hin.
  apply in_map_iff in Hin as ([p x] & <- & Hin).
  apply filter_In in Hin as [_ Hin]. apply bool_decide_eq_true in Hin. tauto.
Qed.

Lemma mv_all_outside (dstdir : path) (l : list path) (acc : bool * tree) :
  D `prefix_of` dstdir -> (forall src, src ∈ l -> D `prefix_of` src) ->
  (foldl (find_visit dstdir) acc l).2 !! q = acc.2 !! q.
Proof.
  intros Hdst. revert acc. induction l as [|src l IH]; intros acc Hl; simpl; [done|].
  rewrite IH by (intros src' ?; apply Hl; by apply list_elem_of_further).
  unfold find_visit. cbn [snd].
  apply mv_into_outside; [done|]. apply Hl, list_elem_of_here.
Qed.

Lemma find_mv_outside root name dstdir t :
  D `prefix_of` root -> D `prefix_of` dstdir ->
  (find_mv root name dstdir t).2 !! q = t !! q.
Proof.
  intros HD Hdst. unfold find_mv. cbn [snd].
  rewrite mv_all_outside; [done|done|].
  intros src Hsrc. transitivity root; [done|].
  apply (find_named_below root name t src).
  by rewrite <-(merge_sort_Permutation shorter (map fst (find_named root name t))).
Qed.

Lemma rm_all_outside (l : list (path * node)) t :
  (forall kv, kv ∈ l -> D `prefix_of` kv.1) ->
  foldl (fun m (kv : path * node) => rm_rf kv.1 m) t l !! q = t !! q.
Proof.
  revert t. induction l as [|kv l IH]; intros t Hl; simpl; [done|].
  rewrite IH by (intros kv' ?; apply Hl; by apply list_elem_of_further).
  apply rm_rf_outside, Hl, list_elem_of_here.
Qed.

Lemma find_rm_crush_dirs_outside t : (find_rm_crush_dirs D t).2 !! q = t !! q.
Proof.
  unfold find_rm_crush_dirs. simpl. apply rm_all_outside.
  intros kv Hin. apply list_elem_of_In, filter_In in Hin as [_ Hin].
  unfold is_crush_dir in Hin. destruct (kv.2); [|done].
  apply andb_true_iff in Hin as [Hin _]. apply bool_decide_eq_true in Hin. tauto.
Qed.

Local Ltac tool_outside :=
  intros; repeat (case_match; cbn [snd]; try done);
  rewrite ?(unzip_members_outside D q), ?(put_all_outside D q), ?(mkdir_p_outside D q)
    by (try done; try (by apply prefix_app_r); try (by apply (outside_below D q), prefix_app_r));
  done.

Lemma tar_wild_strip1_outside archive name t :
  (tar_wild_strip1 archive (D ++ ["bin"]) name t).2 !! q = t !! q.
Proof. unfold tar_wild_strip1. tool_outside. Qed.

Lemma tar_exact_outside archive name t :
  (tar_exact archive (D ++ ["bin"]) name t).2 !! q = t !! q.
Proof. unfold tar_exact. tool_outside. Qed.

Lemma tar_all_outside archive t : (tar_all archive D t).2 !! q = t !! q.
Proof. unfold tar_all. tool_outside. Qed.

Lemma unzip_junk_wild_outside archive name t :
  (unzip_junk_wild archive (D ++ ["bin"]) name t).2 !! q = t !! q.
Proof. unfold unzip_junk_wild. tool_outside. Qed.

Lemma unzip_junk_exact_outside archive name t :
  (unzip_junk_exact archive (D ++ ["bin"]) name t).2 !! q = t !! q.
Proof. unfold unzip_junk_exact. tool_outside. Qed.

Lemma unzip_all_outside archive t :
  (unzip_all archive (D ++ ["temp"]) t).2 !! q = t !! q.
Proof. unfold unzip_all. tool_outside. Qed.

Lemma fallback_zip_outside archive name t :
  (fallback_zip archive D name t).2 !! q = t !! q.
Proof.
  unfold fallback_zip, and_then.
  pose proof (unzip_all_outside archive t) as H1.
  case_decide; [|done].
  pose proof (find_mv_outside (D ++ ["temp"]) name (D ++ ["bin"])
                (unzip_all archive (D ++ ["temp"]) t).2
                (prefix_app_r _ _ _ (reflexivity D))
                (prefix_app_r _ _ _ (reflexivity D))) as H2.
  case_decide; [|by etrans].
  cbn [snd]. etrans; [apply rm_rf_outside; by apply prefix_app_r|]. by etrans.
Qed.

Lemma fallback_tar_outside archive name t :
  (fallback_tar archive D name t).2 !! q = t !! q.
Proof.
  unfold fallback_tar, and_then.
  pose proof (tar_all_outside archive t) as H1.
  case_decide; [|done].
  pose proof (find_mv_outside D name (D ++ ["bin"]) (tar_all archive D t).2
                (reflexivity D) (prefix_app_r _ _ _ (reflexivity D))) as H2.
  case_decide; [|by etrans].
  etrans; [apply find_rm_crush_dirs_outside|]. by etrans.
Qed.

(** The extraction changes nothing outside the package directory. *)
Lemma extract_outside (win : bool) archive name t :
  (extract win archive D name t).2 !! q = t !! q.
Proof.
  unfold extract, or_else. destruct win.
  - pose proof (unzip_junk_wild_outside archive name t) as H1.
    case_decide; [done|].
    pose proof (unzip_junk_exact_outside archive name
                  (unzip_junk_wild archive (D ++ ["bin"]) name t).2) as H2.
    case_decide; [by etrans|]. etrans; [apply fallback_zip_outside|]. by etrans.
  - pose proof (tar_wild_strip1_outside archive name t) as H1.
    case_decide; [done|].
    pose proof (tar_exact_outside archive name
                  (tar_wild_strip1 archive (D ++ ["bin"]) name t).2) as H2.
    case_decide; [by etrans|]. etrans; [apply fallback_tar_outside|]. by etrans.
Qed.

End Frame.

Section Rounds.

Import Builder.

Implicit Types (st : bstate) (t : tree) (net : string -> fetch) (q : path)
  (v s npm : string).

Lemma download_outside net v name t q :
  q ≠ [name] -> (download net v name t).1.2 !! q = t !! q.
Proof.
  intros Hq. unfold download, curl, write. destruct (is_file t [name]); [done|].
  repeat (case_match; simpl; try done); by rewrite lookup_insert_ne.
Qed.

Lemma buildOne_outside v net s st npm q :
  assoc s PLATFORMS = Some npm ->
  ¬ pkg_dir npm `prefix_of` q ->
  ¬ q `prefix_of` pkg_dir npm ->
  (forall w, q ≠ [archive_name v s w]) ->
  fs (buildOne v net s st).1.2 !! q = fs st !! q.
Proof.
  intros Hs HDq HqD Hname. unfold buildOne. rewrite Hs.
  destruct (assoc npm OS_MAP) as [os|]; [|done].
  destruct (assoc npm CPU_MAP) as [cpu|]; [|done].
  set (w := bool_decide (os = "win32")).
  pose proof (download_outside net v (archive_name v s w) (fs st) q (Hname w)) as Hdl.
  destruct (download net v (archive_name v s w) (fs st)) as [[dl t1] log1].
  cbn [fst snd] in Hdl.
  destruct (negb (bool_decide (dl = 0%Z))); cbn [fst snd fs].
  { unfold rm_f. rewrite lookup_delete_ne; [done|]. intros E. by apply (Hname w). }
  assert (H2 : mkdir_p (pkg_dir npm ++ ["bin"]) t1 !! q = fs st !! q).
  { rewrite (mkdir_p_outside (pkg_dir npm) q); try done.
    apply (outside_below (pkg_dir npm) q); try done. by apply prefix_app_r. }
  pose proof (extract_outside (pkg_dir npm) q HDq HqD w [archive_name v s w]
                (binary_name w) (mkdir_p (pkg_dir npm ++ ["bin"]) t1)) as H3.
  destruct (extract w [archive_name v s w] (pkg_dir npm) (binary_name w)
              (mkdir_p (pkg_dir npm ++ ["bin"]) t1)) as [ex t3].
  cbn [fst snd] in H3.
  destruct (negb (bool_decide (ex = 0%Z))); cbn [fst snd fs]; [by etrans|].
  destruct (negb (is_file t3 _)); cbn [fst snd fs].
  { etrans; [apply (rm_rf_outside (pkg_dir npm) q HDq); done|]. by etrans. }
  unfold write.
  rewrite !lookup_insert_ne; [by etrans| |];
    apply (outside_ne (pkg_dir npm) q); try done; by apply prefix_app_r.
Qed.

(** One round reports its platform built only with the package in place. *)
Lemma buildOne_result v net s st npm :
  assoc s PLATFORMS = Some npm ->
  built (buildOne v net s st).1.2 = built st
  \/ (built (buildOne v net s st).1.2 = built st ++ [npm]
      /\ Observed.has_package v (fs (buildOne v net s st).1.2) npm).
Proof.
  intros Hs. unfold buildOne. rewrite Hs.
  destruct (assoc npm OS_MAP) as [os|] eqn:Hos; [|by left].
  destruct (assoc npm CPU_MAP) as [cpu|] eqn:Hcpu; [|by left].
  destruct (download _ _ _ _) as [[dl t1] log1].
  destruct (negb (bool_decide (dl = 0%Z))); [by left|].
  destruct (extract _ _ _ _ _) as [ex t3].
  destruct (negb (bool_decide (ex = 0%Z))); [by left|].
  destruct (is_file t3 _) eqn:Hfile; [|by left].
  right. cbn [negb fst snd fs built]. split; [done|].
  exists os, cpu. split_and!; try done.
  - unfold write, is_file in *.
    rewrite !lookup_insert_ne; [done| |];
      intros E; apply app_inv_head in E; discriminate E.
  - unfold write. rewrite lookup_insert_ne, lookup_insert_eq; [done|].
    intros E. apply app_inv_head in E. discriminate E.
  - unfold write. by rewrite lookup_insert_eq.
Qed.

Lemma has_package_agree v t t' npm :
  (forall q, pkg_dir npm `prefix_of` q -> t' !! q = t !! q) ->
  Observed.has_package v t npm -> Observed.has_package v t' npm.
Proof.
  intros Hag (os & cpu & Hos & Hcpu & Hb & Hm & Hr).
  exists os, cpu. unfold is_file in *.
  rewrite !Hag by (by apply prefix_app_r). done.
Qed.

Lemma buildLoop_packages v net order st :
  NoDup order ->
  (forall npm, npm ∈ built st ->
     Observed.has_package v (fs st) npm
     /\ forall s, s ∈ order -> assoc s PLATFORMS ≠ Some npm) ->
  forall npm, npm ∈ built (buildLoop v net order st).1.2 ->
    Observed.has_package v (fs (buildLoop v net order st).1.2) npm.
Proof.
  revert st. induction order as [|s order IH]; intros st Hnd Hst npm; simpl.
  { intros Hin. by apply Hst. }
  apply NoDup_cons in Hnd as [Hs_notin Hnd].
  assert (Hst1 : forall npm', npm' ∈ built (buildOne v net s st).1.2 ->
            Observed.has_package v (fs (buildOne v net s st).1.2) npm'
            /\ forall s', s' ∈ order -> assoc s' PLATFORMS ≠ Some npm').
  { destruct (assoc s PLATFORMS) as [npm_s|] eqn:Hs.
    2:{ rewrite buildOne_unknown by done. simpl. intros npm' Hin.
        destruct (Hst npm' Hin) as [H1 H2]. split; [done|].
        intros s' Hs'. apply H2. by apply list_elem_of_further. }
    assert (Hold : forall npm', npm' ∈ built st ->
              Observed.has_package v (fs (buildOne v net s st).1.2) npm'
              /\ forall s', s' ∈ order -> assoc s' PLATFORMS ≠ Some npm').
    { intros npm' Hin. destruct (Hst npm' Hin) as [H1 H2].
      assert (Hne : npm_s ≠ npm').
      { intros ->. by apply (H2 s); [apply list_elem_of_here|]. }
      split; [|intros s' Hs'; apply H2; by apply list_elem_of_further].
      apply (has_package_agree v (fs st)); [|done].
      intros q Hq. apply (buildOne_outside v net s st npm_s); try done.
      - intros Hpre. apply Hne. by eapply pkg_dir_prefix_inj.
      - intros Hpre. apply Hne.
        eapply (pkg_dir_prefix_inj _ _ (pkg_dir npm_s)); [done|by etrans].
      - intros w ->. apply prefix_length in Hq. simpl in Hq. lia. }
    destruct (buildOne_result v net s st npm_s Hs) as [Heq|[Heq Hpkg]];
      rewrite Heq; [done|].
    intros npm' [Hin|Hin]%elem_of_app; [by apply Hold|].
    apply list_elem_of_singleton in Hin. subst npm'. split; [done|].
    intros s' Hs' Hs'eq. apply Hs_notin.
    by rewrite (PLATFORMS_inj s s' npm_s). }
  destruct (buildOne v net s st) as [[[|c] st1] log1]; simpl in *.
  - specialize (IH st1 Hnd Hst1 npm).
    by destruct (buildLoop v net order st1) as [[c2 st2] log2].
  - intros Hin. by apply Hst1.
Qed.

End Rounds.

(** X11.  One round of the loop changes nothing but its own platform: every
    path other than the archive of the platform, its package directory, what
    is inside it and the directories above it, is after the round what it was
    before, whether the round builds the platform, skips it or stops the
    script. *)
Theorem buildOne_leaves_others (v : string) (net : string -> Builder.fetch)
    (s npm : string) (st : Builder.bstate) (q : path) :
  Builder.assoc s Builder.PLATFORMS = Some npm ->
  ¬ Builder.pkg_dir npm `prefix_of` q ->
  ¬ q `prefix_of` Builder.pkg_dir npm ->
  (forall w, q ≠ [Builder.archive_name v s w]) ->
  Builder.fs (Builder.buildOne v net s st).1.2 !! q = Builder.fs st !! q.
Proof. apply buildOne_outside. Qed.

Lemma buildOne_leaves_others_witness :
  Builder.fs
    (Builder.buildOne "1.2.3" (BuildInputs.answer (BuildInputs.release "1.2.3"))
       "Linux_arm64"
       (Builder.buildOne "1.2.3" (BuildInputs.answer (BuildInputs.release "1.2.3"))
          "Linux_x86_64" (Builder.BState BuildInputs.clean [])).1.2).1.2
    !! (Builder.pkg_dir "linux-x64" ++ ["bin"; "crush"])
  = Some (Builder.File (Builder.Blob 1)).
Proof.
  rewrite (buildOne_leaves_others "1.2.3" _ "Linux_arm64" "linux-arm64").
  - by vm_compute.
  - reflexivity.
  - intros [k Hk]. discriminate Hk.
  - intros [k Hk]. discriminate Hk.
  - intros w Hw. discriminate Hw.
Defined.

(** X12.  For a loop that takes each platform at most once: every platform
    the script reports as built has its package in the output directory when
    the script ends, with status 0 or not: the binary as a regular file under
    its name in [bin], the manifest with the name, version, [os] and [cpu] of
    the platform, and the description. *)
Theorem built_platforms_have_packages (parse : string -> option Json.value)
    (other : string -> option string -> Z * option string)
    (order : list string) (net : string -> Builder.fetch) (argv : list string)
    (dist0 : Builder.tree) (manifest0 : option string) (npm : string) :
  NoDup order ->
  npm ∈ Builder.platforms_built (Builder.buildAll parse other order net argv dist0 manifest0) ->
  Observed.has_package (default EmptyString (argv !! 1%nat))
    (Builder.dist (Builder.buildAll parse other order net argv dist0 manifest0)) npm.
Proof.
  intros Hnd. unfold Builder.buildAll.
  destruct (String.eqb _ EmptyString); simpl; [by intros ?%elem_of_nil|].
  pose proof (buildLoop_packages (default EmptyString (argv !! 1%nat)) net order
                (Builder.BState
                   (Builder.mkdir_p ["packages"] (Builder.rm_rf [] dist0)) [])
                Hnd) as H.
  destruct (Builder.buildLoop _ _ _ _) as [[[|c] st] log]; simpl in *.
  - destruct (Builder.node_rewrite _ _ _) as [c m].
    destruct (bool_decide (c = 0%Z)); simpl; apply H; by intros ? ?%elem_of_nil.
  - apply H. by intros ? ?%elem_of_nil.
Qed.

Lemma built_platforms_have_packages_witness :
  Observed.has_package "1.2.3"
    (Builder.dist
       (Builder.buildAll BuildInputs.reader BuildInputs.stops BuildInputs.table_order
          (BuildInputs.answer (BuildInputs.release "1.2.3")) ["build.sh"; "1.2.3"] ∅
          (Some (BuildInputs.root_text "0.43.0")))) "win32-arm64".
Proof.
  apply (built_platforms_have_packages BuildInputs.reader BuildInputs.stops
              BuildInputs.table_order
           (BuildInputs.answer (BuildInputs.release "1.2.3")) ["build.sh"; "1.2.3"] ∅
           (Some (BuildInputs.root_text "0.43.0")) "win32-arm64").
  - vm_compute. repeat (apply NoDup_cons; split;
      [intros H; repeat (apply elem_of_cons in H as [H|H]; [discriminate H|]);
       by apply elem_of_nil in H|]).
    apply NoDup_nil_2.
  - vm_compute. repeat (first [apply list_elem_of_here | apply list_elem_of_further]).
Defined.

(** * The builder and the launcher together *)

Lemma corp_nested_in_scope (e : Launcher.env) (base : path) (pkg : string) :
  Launcher.dirname e = base ++ ["@anthropic-ai"; pkg; "bin"] ->
  Launcher.Corp.nested_location e
  = base ++ ["@anthropic-ai";
             "crush-corp-" +:+ Launcher.platform e +:+ "-" +:+ Launcher.arch e;
             "bin"; Launcher.Corp.binaryName e].
Proof.
  intros Hd.
  assert (Hpkg : Launcher.remove_first "@anthropic-ai/" (Launcher.Corp.getPlatformPackage e)
                 = "crush-corp-" +:+ Launcher.platform e +:+ "-" +:+ Launcher.arch e).
  { apply (remove_first_prefix "@anthropic-ai/"). }
  pose proof (binaryName_not_up e) as Hb.
  unfold Launcher.Corp.nested_location. rewrite Hpkg, Hd.
  replace (base ++ ["@anthropic-ai"; pkg; "bin"])
    with (((base ++ ["@anthropic-ai"]) ++ [pkg]) ++ ["bin"])
    by (by rewrite <- !app_assoc).
  rewrite !join_up. rewrite !join_down by done. rewrite !join_end.
  by rewrite <- !app_assoc.
Qed.

(** X13.  The builder and the [@anthropic-ai] launcher agree.  For every row
    of the platform table, on a machine whose [process.platform] and
    [process.arch] are the [os] and [cpu] of the row: the package the launcher
    asks for has the name the builder writes into the manifest, and when the
    package directory the builder makes is installed beside the launcher,
    under [<base>/@anthropic-ai], the launcher's first candidate is the binary
    the builder has put there. *)
Theorem builder_matches_launcher (e : Launcher.env) (base : path)
    (pkg s npm os cpu : string) :
  Builder.assoc s Builder.PLATFORMS = Some npm ->
  Builder.assoc npm Builder.OS_MAP = Some os ->
  Builder.assoc npm Builder.CPU_MAP = Some cpu ->
  Launcher.platform e = os ->
  Launcher.arch e = cpu ->
  Launcher.dirname e = base ++ ["@anthropic-ai"; pkg; "bin"] ->
  Launcher.Corp.getPlatformPackage e = Builder.PACKAGE_SCOPE +:+ "-" +:+ npm
  /\ Launcher.Corp.nested_location e
     = (base ++ ["@anthropic-ai"]) ++ drop 1 (Builder.pkg_dir npm)
       ++ ["bin"; Builder.binary_name (bool_decide (os = "win32"))].
Proof.
  intros Hs Hos Hcpu Hp Ha Hd.
  rewrite (corp_nested_in_scope e base pkg Hd).
  unfold Launcher.Corp.getPlatformPackage, Launcher.Corp.binaryName, Launcher.is_win32.
  rewrite Hp, Ha. rewrite <- app_assoc.
  apply assoc_PLATFORMS in Hs. unfold Builder.PLATFORMS in Hs.
  repeat (apply elem_of_cons in Hs as [Hs|Hs];
          [injection Hs as -> ->; vm_compute in Hos; vm_compute in Hcpu;
           injection Hos as <-; injection Hcpu as <-; done|]).
  by apply elem_of_nil in Hs.
Qed.

Lemma builder_matches_launcher_witness :
  Launcher.Corp.nested_location Inputs.corp_env
  = ["app"; "node_modules"; "@anthropic-ai"; "crush-corp-darwin-arm64"; "bin"; "crush"].
Proof.
  destruct (builder_matches_launcher Inputs.corp_env ["app"; "node_modules"] "crush-corp"
              "Darwin_arm64" "darwin-arm64" "darwin" "arm64"
              eq_refl eq_refl eq_refl eq_refl eq_refl eq_refl) as [_ H].
  exact H.
Defined.

(** * The interactive wizard *)

Section Dialogue.

Import Wizard WizardInputs.

Lemma bind_Next {A B} (m : M A) (k : A -> M B) inputs fs b inputs' fs' :
  bind m k inputs fs = Next b inputs' fs' ->
  exists a i1 f1, m inputs fs = Next a i1 f1 /\ k a i1 f1 = Next b inputs' fs'.
Proof.
  unfold bind. destruct (m inputs fs) as [a i1 f1|e f1]; [|done].
  intros H. by exists a, i1, f1.
Qed.

Lemma careful_ret {A} (a : A) : careful (ret a).
Proof. by intros i f. Qed.

Lemma careful_stop_other {A} (e : ended) :
  (forall c, e = Exited c -> c = 1%Z) -> careful (@stop A e).
Proof. by intros He i f. Qed.

Lemma careful_bind {A B} (m : M A) (k : A -> M B) :
  careful m -> (forall a, careful (k a)) -> careful (bind m k).
Proof.
  intros Hm Hk i f. unfold bind. specialize (Hm i f).
  destruct (m i f) as [a i1 f1|e f1]; [|done].
  subst f1. apply Hk.
Qed.

Lemma careful_question d : careful (question d).
Proof. intros [|a i] f; simpl; [|done]. split; [done|]. by intros c [=]. Qed.

Lemma careful_confirm b : careful (confirm b).
Proof. apply careful_bind; [apply careful_question|]. intros a. apply careful_ret. Qed.

Lemma careful_select {A} (options : list A) : careful (select options).
Proof. apply careful_bind; [apply careful_question|]. intros a. apply careful_ret. Qed.

Lemma careful_read_config : careful read_config.
Proof. by intros i f. Qed.

Local Ltac careful :=
  repeat first
    [ apply careful_ret | apply careful_question | apply careful_confirm
    | apply careful_select | apply careful_read_config
    | apply careful_stop_other; intros ? [=]; done
    | apply careful_bind; [|intros ?]
    | case_match ].

Lemma careful_existing_config parse : careful (existing_config parse).
Proof. unfold existing_config. careful. Qed.

Lemma careful_ask_endpoint key : careful (ask_endpoint key).
Proof. unfold ask_endpoint. careful. Qed.

Lemma careful_ask_answers key : careful (ask_answers key).
Proof. unfold ask_answers. careful; apply careful_ask_endpoint. Qed.

Lemma careful_build_config existing key t a : careful (build_config existing key t a).
Proof. unfold build_config. careful. Qed.

Lemma careful_gather parse : careful (gather parse).
Proof.
  unfold gather.
  apply careful_bind; [apply careful_existing_config|]. intros existing.
  apply careful_bind; [apply careful_select|]. intros [[key t]|].
  - apply careful_bind; [apply careful_ask_answers|]. intros a.
    apply careful_bind; [apply careful_build_config|]. intros built. apply careful_ret.
  - apply careful_stop_other. by intros c [=].
Qed.

Lemma patient_ret {A} (a : A) : patient (ret a).
Proof. by intros i f e f'. Qed.

Lemma patient_bind {A B} (m : M A) (k : A -> M B) :
  patient m -> (forall a, patient (k a)) -> patient (bind m k).
Proof.
  intros Hm Hk i f e f'. unfold bind.
  destruct (m i f) as [a i1 f1|e1 f1] eqn:E.
  - apply Hk.
  - intros [= <- <-]. by eapply Hm.
Qed.

Lemma patient_question d : patient (question d).
Proof. intros [|a i] f e f'; simpl; [intros [= <- _]; by left|done]. Qed.

Lemma patient_save_config refuse text : patient (save_config refuse text).
Proof.
  intros i f e f'. unfold save_config.
  repeat case_match; intros [= <- _]; right; by eexists.
Qed.

Lemma patient_save_local refuse text : patient (save_local refuse text).
Proof.
  intros i f e f'. unfold save_local.
  case_match; intros [= <- _]; right; by eexists.
Qed.

Lemma patient_save_env refuse text : patient (save_env refuse text).
Proof.
  intros i f e f'. unfold save_env.
  case_match; intros [= <- _]; right; by eexists.
Qed.

Lemma patient_confirm b : patient (confirm b).
Proof. apply patient_bind; [apply patient_question|]. intros a. apply patient_ret. Qed.

Lemma patient_finish refuse t options config :
  patient (finish refuse t options config).
Proof.
  unfold finish.
  repeat first
    [ apply patient_ret | apply patient_confirm | apply patient_save_config
    | apply patient_save_local | apply patient_save_env | done
    | apply patient_bind; [|intros ?]
    | case_match ].
Qed.

End Dialogue.



(** A refused write ends the run after the configuration file was saved:
    with every question answered by its default, where the current directory
    cannot be written. *)
Lemma refused_write_after_save :
  (Wizard.run WizardInputs.reader WizardInputs.read_only_here
     ["2"; "https://llm.example/"; ""; ""; ""; ""; ""; ""; ""; ""; ""]
     WizardInputs.no_files).1
  = Wizard.WriteFailed Wizard.EnvExample
  /\ Wizard.config_dir
       (Wizard.run WizardInputs.reader WizardInputs.read_only_here
          ["2"; "https://llm.example/"; ""; ""; ""; ""; ""; ""; ""; ""; ""]
          WizardInputs.no_files).2 = true
  /\ is_Some
       (Wizard.config_file
          (Wizard.run WizardInputs.reader WizardInputs.read_only_here
             ["2"; "https://llm.example/"; ""; ""; ""; ""; ""; ""; ""; ""; ""]
             WizardInputs.no_files).2).
Proof. split_and!; vm_compute; [done|done|by eexists]. Qed.

Section ConfigObject.

Import Wizard.

Implicit Types (props src dst : list (string * Json.value)) (v : Json.value) (k : string).

Lemma get_place_eq k v props :
  Json.get k props = None -> Json.get k (place k v props) = Some v.
Proof.
  induction props as [|[k' v'] props IH]; simpl.
  { intros _. by rewrite decide_True. }
  case_decide as Hk; [done|]. intros Hg.
  destruct (index_of k) as [i|]; [destruct (index_of k') as [i'|]|]; simpl.
  - destruct (i <? i')%Z; simpl.
    + by rewrite decide_True.
    + rewrite decide_False by done. by apply IH.
  - by rewrite decide_True.
  - rewrite decide_False by done. by apply IH.
Qed.

Lemma get_place_ne k k' v props :
  k ≠ k' -> Json.get k' (place k v props) = Json.get k' props.
Proof.
  intros Hne. induction props as [|[k0 v0] props IH]; simpl.
  { by rewrite decide_False. }
  destruct (index_of k) as [i|]; [destruct (index_of k0) as [i0|]|]; simpl.
  - destruct (i <? i0)%Z; simpl.
    + by rewrite decide_False.
    + case_decide; [done|apply IH].
  - by rewrite decide_False.
  - case_decide; [done|apply IH].
Qed.

Lemma get_define_eq k v props : Json.get k (define k v props) = Some v.
Proof.
  unfold define. destruct (Json.get k props) eqn:E.
  - apply get_set_eq.
  - by apply get_place_eq.
Qed.

Lemma get_define_ne k k' v props :
  k ≠ k' -> Json.get k' (define k v props) = Json.get k' props.
Proof.
  intros Hne. unfold define. destruct (Json.get k props).
  - by apply get_set_ne.
  - by apply get_place_ne.
Qed.

Lemma get_None_notin k props : k ∉ map fst props -> Json.get k props = None.
Proof.
  induction props as [|[k' v'] props IH]; simpl; [done|].
  intros Hn. rewrite decide_False; [apply IH|]; set_solver.
Qed.

(** The properties of a copy: those of the source, then those of the
    target. *)
Lemma get_copy_into k src dst :
  NoDup (map fst src) ->
  Json.get k (copy_into src dst)
  = match Json.get k src with
    | Some v => Some v
    | None => Json.get k dst
    end.
Proof.
  unfold copy_into. revert dst.
  induction src as [|[k0 v0] src IH]; intros dst Hnd; simpl; [done|].
  apply NoDup_cons in Hnd as [Hk0 Hnd].
  rewrite IH by done. case_decide as Hk.
  - subst k0. rewrite get_None_notin by done. apply get_define_eq.
  - destruct (Json.get k src); [done|]. by apply get_define_ne.
Qed.

Lemma ends_with_slash_append (e : string) : ends_with_slash (e +:+ "/") = true.
Proof.
  induction e as [|c e IH]; [done|].
  change (String c e +:+ "/") with (String c (e +:+ "/")).
  destruct (e +:+ "/") eqn:E; [by destruct e|]. exact IH.
Qed.

Lemma select_In {A} (options : list A) inputs fs x inputs' fs' :
  select options inputs fs = Next (Some x) inputs' fs' -> x ∈ options.
Proof.
  unfold select, bind, question, ret. destruct inputs as [|a i]; [done|].
  intros [= H _ _]. revert H.
  assert (Hh : head options = Some x -> x ∈ options).
  { destruct options; [done|]. intros [= ->]. apply list_elem_of_here. }
  destruct (parseInt _) as [|z|]; try exact Hh.
  destruct (_ && _); [|exact Hh]. intros Hl. by eapply list_elem_of_lookup_2.
Qed.

Lemma ask_endpoint_slash key inputs fs e inputs' fs' :
  ask_endpoint key inputs fs = Next e inputs' fs' ->
  key ≠ "ollama" ->
  ends_with_slash e = true /\ e ≠ EmptyString.
Proof.
  unfold ask_endpoint. intros H Hk.
  destruct (String.eqb key "ollama") eqn:E; [by apply String.eqb_eq in E|].
  apply bind_Next in H as (x & i1 & f1 & _ & H).
  destruct (String.eqb x EmptyString) eqn:Ex; [done|].
  apply String.eqb_neq in Ex.
  injection H as <- _ _. destruct (ends_with_slash x) eqn:Es.
  - done.
  - split; [apply ends_with_slash_append|]. by destruct x.
Qed.

Lemma ask_answers_endpoint key inputs fs a inputs' fs' :
  ask_answers key inputs fs = Next a inputs' fs' ->
  key ≠ "ollama" ->
  ends_with_slash (endpoint a) = true /\ endpoint a ≠ EmptyString.
Proof.
  unfold ask_answers. intros H Hk.
  apply bind_Next in H as (e & i1 & f1 & He & H).
  apply bind_Next in H as (d & i2 & f2 & _ & H).
  apply bind_Next in H as (n & i3 & f3 & _ & H).
  apply bind_Next in H as (cw & i4 & f4 & _ & H).
  apply bind_Next in H as (mt & i5 & f5 & _ & H).
  injection H as <- _ _. simpl. by eapply ask_endpoint_slash.
Qed.

(** What [build_config] returns. *)
Lemma build_config_Next existing key t a inputs fs options config inputs' fs' :
  build_config existing key t a inputs fs = Next (options, config) inputs' fs' ->
  exists eprops eo eoprops epprops pc,
    spread existing = Some eprops
    /\ member existing "options" = Some eo
    /\ spread (or_empty eo) = Some eoprops
    /\ spread (or_empty (default None (member existing "providers"))) = Some epprops
    /\ Wizard.config t a = Some pc
    /\ options = copy_into eoprops (copy_into offline_options [])
    /\ config
       = define "providers" (Json.Obj (define key pc (copy_into epprops [])))
           (define "options" (Json.Obj options)
              (copy_into eprops (copy_into Setup.OFFLINE_CONFIG []))).
Proof.
  unfold build_config.
  destruct (spread existing) as [eprops|] eqn:E1; [|done].
  destruct (member existing "options") as [eo|] eqn:E2; [|done].
  destruct (spread (or_empty eo)) as [eoprops|] eqn:E3; [|done].
  destruct (spread (or_empty (default None (member existing "providers"))))
    as [epprops|] eqn:E4; [|done].
  destruct (Wizard.config t a) as [pc|] eqn:E5; [|done].
  intros [= <- <- _ _]. exists eprops, eo, eoprops, epprops, pc.
  split_and!; done.
Qed.

(** What [gather] returns. *)
Lemma gather_Next parse inputs fs key t built inputs' fs' :
  gather parse inputs fs = Next (key, t, built) inputs' fs' ->
  exists existing i1 f1 i2 f2 a i3 f3,
    existing_config parse inputs fs = Next existing i1 f1
    /\ (key, t) ∈ PROVIDER_TEMPLATES
    /\ ask_answers key i2 f2 = Next a i3 f3
    /\ build_config existing key t a i3 f3 = Next built inputs' fs'.
Proof.
  unfold gather. intros H.
  apply bind_Next in H as (existing & i1 & f1 & Hex & H).
  apply bind_Next in H as (selected & i2 & f2 & Hsel & H).
  destruct selected as [[key0 t0]|]; [|done].
  apply bind_Next in H as (a & i3 & f3 & Ha & H).
  apply bind_Next in H as (built0 & i4 & f4 & Hb & H).
  injection H as -> -> -> -> ->.
  apply select_In in Hsel.
  by exists existing, i1, f1, i2, f2, a, i3, f3.
Qed.

Lemma provider_base_url key t a pc :
  (key, t) ∈ PROVIDER_TEMPLATES -> key ≠ "ollama" ->
  Wizard.config t a = Some pc ->
  exists props, pc = Json.Obj props /\ Json.get "base_url" props = Some (Json.Str (endpoint a)).
Proof.
  intros Hin Hk. unfold PROVIDER_TEMPLATES in Hin.
  repeat (apply elem_of_cons in Hin as [Hin|Hin]; [injection Hin as -> ->|]);
    [..|by apply elem_of_nil in Hin]; try done;
    unfold azure_openai, azure_foundry, openai_compat; cbn [Wizard.config];
    destruct (model a _ _ _); intros [= <-]; by eexists.
Qed.

End ConfigObject.

(** X15.  Whenever the wizard gets as far as the configuration object and the
    provider chosen is not Ollama, the [base_url] of that provider in the
    object is not empty and ends with a slash: an endpoint typed without
    one is given one. *)
Theorem wizard_endpoint_ends_with_slash (parse : string -> Wizard.parsed)
    (inputs : list string) (fs : Wizard.files) (key : string) (t : Wizard.template)
    (options config : list (string * Json.value)) (inputs' : list string)
    (fs' : Wizard.files) :
  Wizard.gather parse inputs fs = Wizard.Next (key, t, (options, config)) inputs' fs' ->
  key ≠ "ollama" ->
  exists providers pc u,
    Json.get "providers" config = Some (Json.Obj providers)
    /\ Json.get key providers = Some (Json.Obj pc)
    /\ Json.get "base_url" pc = Some (Json.Str u)
    /\ Wizard.ends_with_slash u = true
    /\ u ≠ EmptyString.
Proof.
  intros Hg Hk.
  apply gather_Next in Hg as (existing & i1 & f1 & i2 & f2 & a & i3 & f3 & _ & Hin & Ha & Hb).
  apply build_config_Next in Hb
    as (eprops & eo & eoprops & epprops & pc & _ & _ & _ & _ & Hpc & _ & ->).
  destruct (provider_base_url key t a pc Hin Hk Hpc) as (props & -> & Hurl).
  destruct (ask_answers_endpoint key i2 f2 a i3 f3 Ha Hk) as [Hs Hne].
  eexists _, props, (Wizard.endpoint a).
  split_and!; [apply get_define_eq|apply get_define_eq|done|done|done].
Qed.

Lemma wizard_endpoint_ends_with_slash_witness :
  exists providers pc u,
    Json.get "providers"
      (match Wizard.gather WizardInputs.reader
               ["3"; "https://llm.example/v1"; ""; ""; ""; ""] WizardInputs.no_files with
       | Wizard.Next g _ _ => g.2.2
       | Wizard.End _ _ => []
       end) = Some (Json.Obj providers)
    /\ Json.get "openai-compat" providers = Some (Json.Obj pc)
    /\ Json.get "base_url" pc = Some (Json.Str u)
    /\ Wizard.ends_with_slash u = true
    /\ u ≠ EmptyString.
Proof.
  assert (Hk : match Wizard.gather WizardInputs.reader
               ["3"; "https://llm.example/v1"; ""; ""; ""; ""] WizardInputs.no_files with
       | Wizard.Next g _ _ => g.1.1 = "openai-compat"
       | Wizard.End _ _ => False
       end) by (by vm_compute).
  revert Hk.
  destruct (Wizard.gather WizardInputs.reader
              ["3"; "https://llm.example/v1"; ""; ""; ""; ""] WizardInputs.no_files)
    as [[[key t] [options config]] i f|e f] eqn:E; [|intros []].
  cbn [fst snd]. intros ->.
  apply (wizard_endpoint_ends_with_slash _ _ _ _ _ _ _ _ _ E). done.
Defined.

Section Answers.

Import Wizard WizardInputs.

Lemma or_string_empty (s : string) : or_string s EmptyString = s.
Proof.
  unfold or_string. destruct (String.eqb s EmptyString) eqn:E; [|done].
  by apply String.eqb_eq in E.
Qed.

Lemma confirm_cons d a rest fs :
  confirm d (a :: rest) fs
  = Next (if String.eqb (trim a) EmptyString then d else starts_with_y (trim a)) rest fs.
Proof. unfold confirm, bind, question, ret. by rewrite or_string_empty. Qed.

Lemma confirm_no d a rest fs :
  trim a ≠ EmptyString -> starts_with_y (trim a) = false ->
  confirm d (a :: rest) fs = Next false rest fs.
Proof.
  intros Hne Hy. rewrite confirm_cons, Hy.
  by destruct (String.eqb_spec (trim a) EmptyString).
Qed.

(** Once saving is declined, [finish] leaves the three places of the
    configuration as they are. *)
Lemma finish_declined refuse t options config a1 a2 a3 rest fs :
  trim a3 ≠ EmptyString -> starts_with_y (trim a3) = false ->
  match finish refuse t options config (a1 :: a2 :: a3 :: rest) fs with
  | Next _ _ fs' | End _ fs' =>
      config_dir fs' = config_dir fs
      /\ config_file fs' = config_file fs
      /\ local_file fs' = local_file fs
  end.
Proof.
  intros Hne Hy. unfold finish.
  unfold bind at 1. rewrite confirm_cons.
  unfold bind at 1. rewrite confirm_cons.
  unfold bind at 1. rewrite (confirm_no _ _ _ _ Hne Hy).
  unfold bind at 1. unfold ret at 1.
  unfold bind. destruct rest as [|a4 rest].
  { done. }
  rewrite confirm_cons. unfold save_env.
  destruct (if String.eqb (trim a4) EmptyString then true else starts_with_y (trim a4));
    [by destruct (refuse EnvExample)|done].
Qed.

End Answers.

(** X16.  When the wizard reaches its last questions and the answer to
    [Save configuration?] is neither blank nor begins with [y] or [Y], the
    configuration directory, the configuration file and the local
    [crush.json] are after the run what they were before it, however the
    other questions are answered. *)
Theorem wizard_declined_save_keeps_config (parse : string -> Wizard.parsed)
    (refuse : Wizard.target -> bool) (inputs : list string) (fs : Wizard.files)
    (g : string * Wizard.template
         * (list (string * Json.value) * list (string * Json.value)))
    (a1 a2 a3 : string) (rest : list string) (fs1 : Wizard.files) :
  Wizard.gather parse inputs fs = Wizard.Next g (a1 :: a2 :: a3 :: rest) fs1 ->
  Wizard.trim a3 ≠ EmptyString ->
  Wizard.starts_with_y (Wizard.trim a3) = false ->
  Wizard.config_dir (Wizard.run parse refuse inputs fs).2 = Wizard.config_dir fs
  /\ Wizard.config_file (Wizard.run parse refuse inputs fs).2 = Wizard.config_file fs
  /\ Wizard.local_file (Wizard.run parse refuse inputs fs).2 = Wizard.local_file fs.
Proof.
  intros Hg Hne Hy.
  pose proof (careful_gather parse inputs fs) as Hc. rewrite Hg in Hc. subst fs1.
  pose proof (finish_declined refuse g.1.2 g.2.1 g.2.2 a1 a2 a3 rest fs Hne Hy) as Hf.
  unfold Wizard.run, Wizard.wizard, Wizard.bind. rewrite Hg.
  by destruct (Wizard.finish _ _ _ _ _ _).
Qed.

Lemma wizard_declined_save_keeps_config_witness :
  Wizard.config_dir
    (Wizard.run WizardInputs.reader WizardInputs.writable
       ["3"; "https://llm.example/v1"; ""; ""; ""; ""; "y"; "y"; "no"; "y"]
       WizardInputs.no_files).2 = false
  /\ Wizard.config_file
       (Wizard.run WizardInputs.reader WizardInputs.writable
          ["3"; "https://llm.example/v1"; ""; ""; ""; ""; "y"; "y"; "no"; "y"]
          WizardInputs.no_files).2 = None
  /\ Wizard.local_file
       (Wizard.run WizardInputs.reader WizardInputs.writable
          ["3"; "https://llm.example/v1"; ""; ""; ""; ""; "y"; "y"; "no"; "y"]
          WizardInputs.no_files).2 = None.
Proof.
  assert (Hne : Wizard.trim "no" ≠ EmptyString) by (by vm_compute).
  assert (Hy : Wizard.starts_with_y (Wizard.trim "no") = false) by (by vm_compute).
  assert (Hi : match Wizard.gather WizardInputs.reader
                       ["3"; "https://llm.example/v1"; ""; ""; ""; ""; "y"; "y"; "no"; "y"]
                       WizardInputs.no_files with
               | Wizard.Next _ i _ => i = ["y"; "y"; "no"; "y"]
               | Wizard.End _ _ => False
               end) by (by vm_compute).
  revert Hi.
  destruct (Wizard.gather WizardInputs.reader
              ["3"; "https://llm.example/v1"; ""; ""; ""; ""; "y"; "y"; "no"; "y"]
              WizardInputs.no_files) as [g i f|e f] eqn:E; [|intros []].
  intros ->.
  exact (wizard_declined_save_keeps_config _ WizardInputs.writable _ _ _ _ _ _ _ _ E Hne Hy).
Defined.

Section Merge.

Import Wizard WizardInputs.

(** Declining to overwrite a configuration that parses keeps it. *)
Lemma existing_config_kept parse a0 rest fs text v :
  config_file fs = Some text ->
  starts_with_y (trim a0) = false ->
  parse text = Parsed v ->
  existing_config parse (a0 :: rest) fs = Next v rest fs.
Proof.
  intros Hf Hy Hp. unfold existing_config, bind at 1, read_config. rewrite Hf.
  unfold bind. rewrite confirm_cons, Hy, Hp.
  by destruct (String.eqb (trim a0) EmptyString).
Qed.

Lemma get_copy_into_nil k src :
  NoDup (map fst src) -> Json.get k (copy_into src []) = Json.get k src.
Proof. intros Hnd. rewrite get_copy_into by done. by destruct (Json.get k src). Qed.

(** The configuration object over an existing configuration that is an
    object. *)
Lemma gather_over_existing parse a0 rest fs text eprops key t options config inputs' fs' :
  gather parse (a0 :: rest) fs = Next (key, t, (options, config)) inputs' fs' ->
  config_file fs = Some text ->
  starts_with_y (trim a0) = false ->
  parse text = Parsed (Json.Obj eprops) ->
  exists eoprops epprops pc,
    spread (or_empty (Json.get "options" eprops)) = Some eoprops
    /\ spread (or_empty (Json.get "providers" eprops)) = Some epprops
    /\ options = copy_into eoprops (copy_into offline_options [])
    /\ config
       = define "providers" (Json.Obj (define key pc (copy_into epprops [])))
           (define "options" (Json.Obj options)
              (copy_into eprops (copy_into Setup.OFFLINE_CONFIG []))).
Proof.
  intros Hg Hf Hy Hp.
  apply gather_Next in Hg as (existing & i1 & f1 & i2 & f2 & a & i3 & f3 & Hex & _ & _ & Hb).
  rewrite (existing_config_kept _ _ _ _ _ _ Hf Hy Hp) in Hex. injection Hex as <- _ _.
  apply build_config_Next in Hb
    as (eprops' & eo & eoprops & epprops & pc & Hs & Hm & Ho & Hpr & _ & -> & ->).
  cbn [spread member default] in Hs, Hm, Hpr.
  injection Hs as <-. injection Hm as <-.
  by exists eoprops, epprops, pc.
Qed.

End Merge.

(** X17.  Run over an existing configuration that the user does not
    overwrite and whose [providers] is an object, the wizard keeps every
    provider of it but the one being configured: the new [providers] has
    exactly the old entry under every other name. *)
Theorem wizard_keeps_other_providers (parse : string -> Wizard.parsed)
    (a0 : string) (rest : list string) (fs : Wizard.files) (text : string)
    (eprops ps : list (string * Json.value))
    (key : string) (t : Wizard.template) (options config : list (string * Json.value))
    (inputs' : list string) (fs' : Wizard.files) :
  Wizard.gather parse (a0 :: rest) fs = Wizard.Next (key, t, (options, config)) inputs' fs' ->
  Wizard.config_file fs = Some text ->
  Wizard.starts_with_y (Wizard.trim a0) = false ->
  parse text = Wizard.Parsed (Json.Obj eprops) ->
  Json.get "providers" eprops = Some (Json.Obj ps) ->
  NoDup (map fst ps) ->
  exists providers,
    Json.get "providers" config = Some (Json.Obj providers)
    /\ is_Some (Json.get key providers)
    /\ forall k, k ≠ key -> Json.get k providers = Json.get k ps.
Proof.
  intros Hg Hf Hy Hp Hps Hnd.
  destruct (gather_over_existing _ _ _ _ _ _ _ _ _ _ _ _ Hg Hf Hy Hp)
    as (eoprops & epprops & pc & _ & Hpr & _ & ->).
  rewrite Hps in Hpr. cbn [Wizard.or_empty Wizard.truthy Wizard.spread] in Hpr.
  injection Hpr as <-.
  eexists. split_and!; [apply get_define_eq|by rewrite get_define_eq|].
  intros k Hk. rewrite get_define_ne by done. by apply get_copy_into_nil.
Qed.


Lemma wizard_keeps_other_providers_witness :
  match Wizard.gather WizardInputs.reader
          ["n"; "3"; "https://llm.example/v1"; ""; ""; ""; ""] WizardInputs.old_files with
  | Wizard.Next g _ _ =>
      exists providers,
        Json.get "providers" g.2.2 = Some (Json.Obj providers)
        /\ is_Some (Json.get g.1.1 providers)
        /\ forall k, k ≠ g.1.1 ->
             Json.get k providers
             = Json.get k [("ollama", Json.Obj [("type", Json.Str "openai-compat")])]
  | Wizard.End _ _ => False
  end.
Proof.
  destruct (Wizard.gather WizardInputs.reader
              ["n"; "3"; "https://llm.example/v1"; ""; ""; ""; ""] WizardInputs.old_files)
    as [[[key t] [options config]] i f|e f] eqn:E.
  - cbn [fst snd].
    eapply (wizard_keeps_other_providers WizardInputs.reader "n" _
              WizardInputs.old_files WizardInputs.old_text _ _ _ _ _ _ _ _ E).
    + reflexivity.
    + vm_compute; reflexivity.
    + vm_compute; reflexivity.
    + vm_compute; reflexivity.
    + apply (bool_decide_unpack _). vm_compute. exact I.
  - assert (Hn : match Wizard.gather WizardInputs.reader
                         ["n"; "3"; "https://llm.example/v1"; ""; ""; ""; ""]
                         WizardInputs.old_files with
                 | Wizard.Next _ _ _ => True
                 | Wizard.End _ _ => False
                 end) by (vm_compute; exact I).
    rewrite E in Hn. exact Hn.
Defined.


Section LocalCopy.

Import Wizard WizardInputs.

Lemma confirm_nil d fs : confirm d [] fs = End Stalled fs.
Proof. reflexivity. Qed.

(** The local [crush.json] after [finish]: what it was, or the text just
    saved in the configuration file. *)
Lemma finish_local_copy refuse t options config inputs fs :
  match finish refuse t options config inputs fs with
  | Next _ _ fs' | End _ fs' =>
      local_file fs' = local_file fs
      \/ (config_dir fs' = true
          /\ exists text, config_file fs' = Some text /\ local_file fs' = Some text)
  end.
Proof.
  unfold finish.
  destruct inputs as [|a1 inputs]; [by left|]. unfold bind at 1. rewrite confirm_cons.
  destruct inputs as [|a2 inputs]; [by left|]. unfold bind at 1. rewrite confirm_cons.
  destruct inputs as [|a3 inputs]; [by left|]. unfold bind at 1. rewrite confirm_cons.
  set (text := Json.stringify _).
  assert (Henv : forall (b : bool) inputs' fs',
            local_file fs' = local_file fs
            \/ (config_dir fs' = true
                /\ exists text, config_file fs' = Some text /\ local_file fs' = Some text) ->
            match (if b then save_env refuse (env_content t) else ret tt) inputs' fs' with
            | Next _ _ fs'' | End _ fs'' =>
                local_file fs'' = local_file fs
                \/ (config_dir fs'' = true
                    /\ exists text,
                         config_file fs'' = Some text /\ local_file fs'' = Some text)
            end).
  { intros b inputs' fs' H. destruct b; [|done].
    unfold save_env. by destruct (refuse EnvExample). }
  assert (Hlast : forall inputs' fs',
            local_file fs' = local_file fs
            \/ (config_dir fs' = true
                /\ exists text, config_file fs' = Some text /\ local_file fs' = Some text) ->
            match bind (confirm true)
                    (fun generateEnv : bool =>
                       if generateEnv then save_env refuse (env_content t) else ret tt)
                    inputs' fs' with
            | Next _ _ fs'' | End _ fs'' =>
                local_file fs'' = local_file fs
                \/ (config_dir fs'' = true
                    /\ exists text,
                         config_file fs'' = Some text /\ local_file fs'' = Some text)
            end).
  { intros inputs' fs' H. unfold bind.
    destruct inputs' as [|a inputs']; [done|]. rewrite confirm_cons. by apply Henv. }
  destruct (if String.eqb (trim a3) EmptyString then true else starts_with_y (trim a3)).
  - unfold bind at 1. unfold bind at 1. unfold save_config.
    destruct (negb (config_dir fs) && refuse ConfigDir); [by left|].
    destruct (refuse ConfigFile); [by left|].
    unfold bind at 1.
    destruct inputs as [|a4 inputs]; [by left|]. rewrite confirm_cons.
    destruct (if String.eqb (trim a4) EmptyString then false else starts_with_y (trim a4)).
    + unfold save_local. destruct (refuse LocalFile); [by left|].
      apply Hlast. right. split; [done|by exists text].
    + unfold ret at 1. apply Hlast. by left.
  - unfold bind at 1. unfold ret at 1. apply Hlast. by left.
Qed.

End LocalCopy.

(** X19.  The wizard writes the local [crush.json] only after it has saved
    the configuration file, and with the same text: after any run the local
    file is what it was, or the configuration directory exists and the
    configuration file and the local file hold one text. *)
Theorem wizard_local_copy_follows_config (parse : string -> Wizard.parsed)
    (refuse : Wizard.target -> bool) (inputs : list string) (fs : Wizard.files) :
  Wizard.local_file (Wizard.run parse refuse inputs fs).2 = Wizard.local_file fs
  \/ (Wizard.config_dir (Wizard.run parse refuse inputs fs).2 = true
      /\ exists text,
           Wizard.config_file (Wizard.run parse refuse inputs fs).2 = Some text
           /\ Wizard.local_file (Wizard.run parse refuse inputs fs).2 = Some text).
Proof.
  unfold Wizard.run, Wizard.wizard, Wizard.bind.
  pose proof (careful_gather parse inputs fs) as Hc.
  destruct (Wizard.gather parse inputs fs) as [g i f1|e f1].
  - subst f1.
    pose proof (finish_local_copy refuse g.1.2 g.2.1 g.2.2 i fs) as Hf.
    by destruct (Wizard.finish _ _ _ _ _ _).
  - destruct Hc as [-> _]. by left.
Qed.

Section Exceptions.

Import Wizard WizardInputs.

Lemma bind_End {A B} (m : M A) (k : A -> M B) inputs fs e fs' :
  bind m k inputs fs = End e fs' ->
  m inputs fs = End e fs'
  \/ exists a i1 f1, m inputs fs = Next a i1 f1 /\ k a i1 f1 = End e fs'.
Proof.
  unfold bind. destruct (m inputs fs) as [a i1 f1|e1 f1]; [|intros [= -> ->]; by left].
  intros H. right. by exists a, i1, f1.
Qed.

Lemma question_End d inputs fs e fs' : question d inputs fs = End e fs' -> e = Stalled.
Proof. destruct inputs; [|done]. by intros [= <- _]. Qed.

Lemma confirm_End d inputs fs e fs' : confirm d inputs fs = End e fs' -> e = Stalled.
Proof.
  intros H. apply bind_End in H as [H|(a & i1 & f1 & _ & H)]; [|done].
  by eapply question_End.
Qed.

Lemma select_End {A} (options : list A) inputs fs e fs' :
  select options inputs fs = End e fs' -> e = Stalled.
Proof.
  intros H. apply bind_End in H as [H|(a & i1 & f1 & _ & H)]; [|done].
  by eapply question_End.
Qed.

(** A choice among options that are not empty is one of them. *)
Lemma select_Some {A} (options : list A) inputs fs r inputs' fs' :
  options ≠ [] -> select options inputs fs = Next r inputs' fs' -> is_Some r.
Proof.
  intros Hne. unfold select, bind, question, ret. destruct inputs as [|a i]; [done|].
  intros [= <- _ _].
  assert (Hh : is_Some (head options)) by (by destruct options).
  destruct (parseInt _) as [|z|]; try exact Hh.
  destruct (_ && _) eqn:Hz; [|exact Hh].
  apply andb_true_iff in Hz as [Hz1 Hz2].
  apply lookup_lt_is_Some. lia.
Qed.

(** The existing configuration is the empty object or what the file holds. *)
Lemma existing_config_Next parse inputs fs v inputs' fs' :
  existing_config parse inputs fs = Next v inputs' fs' ->
  v = Json.Obj []
  \/ exists text, config_file fs = Some text /\ parse text = Parsed v.
Proof.
  unfold existing_config, bind at 1, read_config.
  destruct (config_file fs) as [text|]; [|intros [= <- _ _]; by left].
  intros H. apply bind_Next in H as (b & i1 & f1 & _ & H).
  destruct b; [injection H as <- _ _; by left|].
  destruct (parse text) as [v'| |] eqn:Hp; [| |done].
  - injection H as <- _ _. right. by exists text.
  - injection H as <- _ _. by left.
Qed.

Lemma existing_config_End parse inputs fs e fs' :
  existing_config parse inputs fs = End e fs' -> e = Stalled \/ e = Unmodelled.
Proof.
  unfold existing_config, bind at 1, read_config.
  destruct (config_file fs) as [text|]; [|done].
  intros H. apply bind_End in H as [H|(b & i1 & f1 & _ & H)].
  - left. by eapply confirm_End.
  - destruct b; [done|]. destruct (parse text); [done|done|].
    injection H as <- _. by right.
Qed.

Lemma ask_answers_End key inputs fs e fs' :
  ask_answers key inputs fs = End e fs' -> e = Stalled \/ e = Exited 1.
Proof.
  unfold ask_answers. intros H.
  apply bind_End in H as [H|(x & i1 & f1 & _ & H)].
  { unfold ask_endpoint in H. destruct (String.eqb key "ollama").
    - left. by eapply question_End.
    - apply bind_End in H as [H|(x & i1 & f1 & _ & H)]; [left; by eapply question_End|].
      destruct (String.eqb x EmptyString); [|done]. injection H as <- _. by right. }
  repeat (apply bind_End in H as [H|(? & ? & ? & _ & H)]; [left; by eapply question_End|]).
  done.
Qed.

Lemma build_config_Threw existing key t a inputs fs msg fs' :
  build_config existing key t a inputs fs = End (Threw msg) fs' -> existing = Json.Null.
Proof.
  unfold build_config.
  destruct (spread existing) as [eprops|]; [|done].
  destruct (member existing "options") as [eo|] eqn:Hm; [|by destruct existing].
  destruct (spread (or_empty eo)); [|done].
  destruct (spread (or_empty (default None (member existing "providers")))); [|done].
  by destruct (Wizard.config t a).
Qed.

End Exceptions.

(** X20.  The wizard ends with an exception in one case only: the file of
    the existing configuration holds the JSON text [null], whose [options]
    cannot be read.  (Writing a file is taken to succeed.) *)
Theorem wizard_throws_only_on_null (parse : string -> Wizard.parsed)
    (refuse : Wizard.target -> bool) (inputs : list string) (fs : Wizard.files)
    (msg : string) :
  (Wizard.run parse refuse inputs fs).1 = Wizard.Threw msg ->
  exists text, Wizard.config_file fs = Some text /\ parse text = Wizard.Parsed Json.Null.
Proof.
  unfold Wizard.run, Wizard.wizard. intros H.
  destruct (Wizard.bind _ _ inputs fs) as [u i f|e f] eqn:Hw; [done|].
  cbn [fst] in H. subst e.
  apply bind_End in Hw as [Hg|(g & i1 & f1 & _ & Hf)];
    [|by apply patient_finish in Hf as [|[what ?]]].
  unfold Wizard.gather in Hg.
  apply bind_End in Hg as [Hg|(existing & i1 & f1 & Hex & Hg)];
    [by apply existing_config_End in Hg as [|]|].
  apply bind_End in Hg as [Hg|(selected & i2 & f2 & Hsel & Hg)];
    [by apply select_End in Hg|].
  apply select_Some in Hsel as [[key t] ->]; [|done].
  apply bind_End in Hg as [Hg|(a & i3 & f3 & _ & Hg)];
    [by apply ask_answers_End in Hg as [|]|].
  apply bind_End in Hg as [Hg|(built & i4 & f4 & _ & Hg)]; [|done].
  apply build_config_Threw in Hg as ->.
  by apply existing_config_Next in Hex as [|(text & Hf & Hp)]; [|exists text].
Qed.

Lemma wizard_throws_only_on_null_witness :
  (exists msg,
     (Wizard.run (fun _ => Wizard.Parsed Json.Null) WizardInputs.writable
        ["n"; "1"; "https://llm.example"; ""; ""; ""; ""] WizardInputs.old_files).1
     = Wizard.Threw msg)
  /\ exists text,
       Wizard.config_file WizardInputs.old_files = Some text
       /\ (fun _ : string => Wizard.Parsed Json.Null) text = Wizard.Parsed Json.Null.
Proof.
  split; [eexists; vm_compute; reflexivity|].
  eapply (wizard_throws_only_on_null (fun _ => Wizard.Parsed Json.Null)
            WizardInputs.writable
            ["n"; "1"; "https://llm.example"; ""; ""; ""; ""] WizardInputs.old_files).
  vm_compute. reflexivity.
Defined.
